(** * Bicycle-accident pipeline: load, join, derive, filter, aggregate

    A shallow embedding of the data pipeline shared by [src/EDA.py] and
    [src/dashboard.py]: the inner join of the two source tables, the derived
    calendar columns, the dashboard's boolean-mask filter and the header
    metrics, together with the pandas operations these lines call.

    pandas objects are modelled as follows.
    - A cell is a [Value]: [Null] stands for NaN / NaT / None, [Str] for an
      object-dtype string, [Int] for an integer (numeric cells are exact
      integers here), [Datetime] for a datetime64[ns] value, kept like pandas
      keeps it, as nanoseconds since 1970-01-01.
    - A [Series] is the list of its cells in row order.
    - A [DataFrame] is its column labels, in order, and its rows; a row maps
      column labels to cells.
    - A Python exception is [Raise]; a call that returns is [Ok]. *)

From Stdlib Require Import ZArith QArith Ascii.
From stdpp Require Import gmap strings list fin_maps.

Local Open Scope Z_scope.

(* ===================================================================== *)
(** ** Exceptions and results *)
(* ===================================================================== *)

Inductive Exception : Type :=
| KeyError (label : string)      (* a column label that is not there *)
| ValueError                     (* what the parsers and argmax raise *)
| AttributeError                 (* [.dt] on a column that holds no datetimes *)
| TypeError.                     (* comparing cells of unlike types *)

Inductive Result (A : Type) : Type :=
| Ok (a : A)
| Raise (e : Exception).
Arguments Ok {A} a.
Arguments Raise {A} e.

#[global] Instance Result_ret : MRet Result := fun A a => Ok a.
#[global] Instance Result_bind : MBind Result := fun A B f r =>
  match r with
  | Ok a => f a
  | Raise e => Raise e
  end.

#[global] Instance Result_fmap : FMap Result := fun A B f r =>
  match r with
  | Ok a => Ok (f a)
  | Raise e => Raise e
  end.

Definition returns {A} (r : Result A) : Prop := ∃ a, r = Ok a.
Definition raises {A} (r : Result A) : Prop := ∃ e, r = Raise e.

(** [mapM f l] runs [f] over [l] from the left and stops at the first
    exception, as a vectorised pandas call does. *)
Fixpoint mapM_result {A B} (f : A → Result B) (l : list A) : Result (list B) :=
  match l with
  | [] => Ok []
  | x :: l' =>
      y ← f x;
      ys ← mapM_result f l';
      Ok (y :: ys)
  end.

(* ===================================================================== *)
(** ** Cells *)
(* ===================================================================== *)

Inductive Value : Type :=
| Null
| Str (s : string)
| Int (z : Z)
| Datetime (ns : Z).

#[global] Instance Value_eq_dec : EqDecision Value.
Proof. solve_decision. Defined.

Definition isnull (v : Value) : bool :=
  match v with Null => true | _ => false end.

Abbreviation Series := (list Value).
Abbreviation Row := (gmap string Value).

(* ===================================================================== *)
(** ** Calendar arithmetic on datetime64[ns] *)
(* ===================================================================== *)

Module Calendar.

Definition ns_per_second : Z := 1000000000.
Definition ns_per_hour : Z := 3600 * ns_per_second.
Definition ns_per_day : Z := 86400 * ns_per_second.

(** Days since 1970-01-01 of a proleptic Gregorian date. *)
Definition days_from_civil (y m d : Z) : Z :=
  let y' := if m <=? 2 then y - 1 else y in
  let era := y' / 400 in
  let yoe := y' - era * 400 in
  let mp := if 2 <? m then m - 3 else m + 9 in
  let doy := (153 * mp + 2) / 5 + d - 1 in
  let doe := yoe * 365 + yoe / 4 - yoe / 100 + doy in
  era * 146097 + doe - 719468.

(** The date (year, month, day) of a day count. *)
Definition civil_from_days (z : Z) : Z * Z * Z :=
  let z' := z + 719468 in
  let era := z' / 146097 in
  let doe := z' - era * 146097 in
  let yoe := (doe - doe / 1460 + doe / 36524 - doe / 146096) / 365 in
  let doy := doe - (365 * yoe + yoe / 4 - yoe / 100) in
  let mp := (5 * doy + 2) / 153 in
  let d := doy - (153 * mp + 2) / 5 + 1 in
  let m := if mp <? 10 then mp + 3 else mp - 9 in
  let y := yoe + era * 400 in
  (if m <=? 2 then y + 1 else y, m, d).

Definition days_of (ns : Z) : Z := ns / ns_per_day.

Definition year (ns : Z) : Z := (civil_from_days (days_of ns)).1.1.
Definition month (ns : Z) : Z := (civil_from_days (days_of ns)).1.2.
Definition hour (ns : Z) : Z := (ns mod ns_per_day) / ns_per_hour.

(** Monday is 0, as in [Series.dt.weekday]; 1970-01-01 was a Thursday. *)
Definition weekday (ns : Z) : Z := (days_of ns + 3) mod 7.

Definition day_names : list string :=
  ["Monday"; "Tuesday"; "Wednesday"; "Thursday"; "Friday"; "Saturday"; "Sunday"].

Definition day_name (ns : Z) : string :=
  default "" (day_names !! Z.to_nat (weekday ns)).

(** Midnight-based timestamp of a date and a time of day. *)
Definition timestamp (y m d hh mm : Z) : Z :=
  days_from_civil y m d * ns_per_day + hh * ns_per_hour + mm * 60 * ns_per_second.

End Calendar.

(* ===================================================================== *)
(** ** Parsing text *)
(* ===================================================================== *)

Module Strptime.

(** Text is held as its bytes (UTF-8).  The digits known here are the ten
    ASCII digits.  In a Python pattern [\d] also matches the decimal digits
    of other scripts, which take more than one byte: the matcher below is
    that of the code on ASCII text, and says nothing reliable about text
    with bytes outside ASCII. *)
Definition is_digit (a : ascii) : bool :=
  let n := Z.of_N (Ascii.N_of_ascii a) in (48 <=? n) && (n <=? 57).

Definition digit (a : ascii) : Z := Z.of_N (Ascii.N_of_ascii a) - 48.

Fixpoint chars (s : string) : list ascii :=
  match s with
  | EmptyString => []
  | String a s' => a :: chars s'
  end.


(** The directive [%H] is the regular expression [2[0-3]|[0-1]\d|\d]:
    the candidate matches at the head of the text, in the order the
    alternatives are tried, each with the text left over. *)
Definition match_H (s : list ascii) : list (Z * list ascii) :=
  let two :=
    match s with
    | a :: b :: rest =>
        if is_digit a && is_digit b && (10 * digit a + digit b <=? 23)
        then [(10 * digit a + digit b, rest)] else []
    | _ => []
    end in
  let one :=
    match s with
    | a :: rest => if is_digit a then [(digit a, rest)] else []
    | _ => []
    end in
  two ++ one.

(** The directive [%M] is [[0-5]\d|\d]. *)
Definition match_M (s : list ascii) : list (Z * list ascii) :=
  let two :=
    match s with
    | a :: b :: rest =>
        if is_digit a && is_digit b && (digit a <=? 5)
        then [(10 * digit a + digit b, rest)] else []
    | _ => []
    end in
  let one :=
    match s with
    | a :: rest => if is_digit a then [(digit a, rest)] else []
    | _ => []
    end in
  two ++ one.

(** First match of [%H:%M] at the head of the text: hour, minute and the
    text that remains unconverted. *)
Definition first_match (s : list ascii) : option (Z * Z * list ascii) :=
  head (flat_map (fun '(h, rest) =>
          match rest with
          | a :: rest' =>
              if decide (a = ":"%char)
              then (fun '(m, rest'') => (h, m, rest'')) <$> match_M rest'
              else []
          | [] => []
          end) (match_H s)).

(** [format='%H:%M'] with exact matching: the first match has to use up
    the whole text. *)
Definition parse_HM (s : string) : option (Z * Z) :=
  match first_match (chars s) with
  | Some (h, m, []) => Some (h, m)
  | _ => None
  end.

(** A time without a date is placed on 1900-01-01. *)
Definition strptime_HM (s : string) : option Z :=
  (fun '(h, m) => Calendar.timestamp 1900 1 1 h m) <$> parse_HM s.

Fixpoint number (acc : Z) (s : list ascii) : option Z :=
  match s with
  | [] => Some acc
  | a :: s' => if is_digit a then number (10 * acc + digit a) s' else None
  end.

(** A date parser that accepts the text [YYYY-MM-DD] of a date that
    exists and nothing else.  The pipeline is parametric in the date
    parser; this one serves where a concrete parser is wanted. *)
Definition iso_date (s : string) : option Z :=
  match chars s with
  | [y1; y2; y3; y4; s1; m1; m2; s2; d1; d2] =>
      if decide (s1 = "-"%char ∧ s2 = "-"%char) then
        y ← number 0 [y1; y2; y3; y4];
        m ← number 0 [m1; m2];
        d ← number 0 [d1; d2];
        let days := Calendar.days_from_civil y m d in
        if decide (Calendar.civil_from_days days = (y, m, d))
        then Some (days * Calendar.ns_per_day) else None
      else None
  | _ => None
  end.

(** The same for the text [DD/MM/YYYY]. *)
Definition dmy_date (s : string) : option Z :=
  match chars s with
  | [d1; d2; s1; m1; m2; s2; y1; y2; y3; y4] =>
      if decide (s1 = "/"%char ∧ s2 = "/"%char) then
        y ← number 0 [y1; y2; y3; y4];
        m ← number 0 [m1; m2];
        d ← number 0 [d1; d2];
        let days := Calendar.days_from_civil y m d in
        if decide (Calendar.civil_from_days days = (y, m, d))
        then Some (days * Calendar.ns_per_day) else None
      else None
  | _ => None
  end.

End Strptime.

(* ===================================================================== *)
(** ** Series operations *)
(* ===================================================================== *)

Module Pandas.

(** Text that the datetime parsers turn into NaT without looking at it. *)
Definition nat_strings : list string :=
  [""; "NaT"; "nat"; "NAT"; "nan"; "NaN"; "NAN"].

Section ToDatetime.
(** pandas's format-guessing date parser is no part of the repository:
    it is a parameter, [None] meaning that the text is no date.  It is the
    parser pandas has settled on for the column at hand: how pandas comes
    to it from the column is [to_datetime_guessing] below. *)
Variable parse_date : string → option Z.

(** [pd.to_datetime(s)] with the default [errors='raise']: a missing
    value becomes NaT, a datetime is kept, an integer counts
    nanoseconds, text is parsed, and text that is no date raises. *)
Definition to_datetime_cell (v : Value) : Result Value :=
  match v with
  | Null => Ok Null
  | Datetime t => Ok (Datetime t)
  | Int z => Ok (Datetime z)
  | Str x =>
      if decide (x ∈ nat_strings) then Ok Null
      else match parse_date x with
           | Some t => Ok (Datetime t)
           | None => Raise ValueError
           end
  end.

Definition to_datetime (s : Series) : Result Series :=
  mapM_result to_datetime_cell s.
End ToDatetime.

(** [pd.to_datetime(s)] from the column alone.  No format is passed on
    line 23, so pandas looks at the column before it reads any cell:
    pandas 2 guesses a format from the first date it finds and holds every
    cell to it; where it can guess none, and in pandas 1, each cell is read
    on its own.  Whether a text is a date, and which, so depends on the
    column it stands in.  The guess is a parameter, from the column to the
    parser of its cells. *)
Definition to_datetime_guessing (guess : Series → string → option Z) (s : Series) :
    Result Series :=
  to_datetime (guess s) s.

(** [pd.to_datetime(s, format='%H:%M', errors='coerce')]: whatever does
    not match the format becomes NaT; nothing raises.  The decimal text
    of an integer holds no colon, so it never matches. *)
Definition to_datetime_HM_coerce_cell (v : Value) : Value :=
  match v with
  | Null => Null
  | Datetime t => Datetime t
  | Int _ => Null
  | Str x =>
      if decide (x ∈ nat_strings) then Null
      else match Strptime.strptime_HM x with
           | Some t => Datetime t
           | None => Null
           end
  end.

Definition to_datetime_HM_coerce (s : Series) : Series :=
  to_datetime_HM_coerce_cell <$> s.

(** The [.dt] accessor exists on datetime columns only; NaT gives NaN. *)
Definition dt_cell (f : Z → Value) (v : Value) : Result Value :=
  match v with
  | Datetime t => Ok (f t)
  | Null => Ok Null
  | _ => Raise AttributeError
  end.

Definition dt_year (s : Series) : Result Series :=
  mapM_result (dt_cell (λ t, Int (Calendar.year t))) s.
Definition dt_month (s : Series) : Result Series :=
  mapM_result (dt_cell (λ t, Int (Calendar.month t))) s.
Definition dt_hour (s : Series) : Result Series :=
  mapM_result (dt_cell (λ t, Int (Calendar.hour t))) s.
Definition dt_day_name (s : Series) : Result Series :=
  mapM_result (dt_cell (λ t, Str (Calendar.day_name t))) s.

(** [s >= x] and [s <= x] against an integer: NaN compares false, text
    and datetimes cannot be compared with a number. *)
Definition cmp_cell (test : Z → bool) (v : Value) : Result bool :=
  match v with
  | Int z => Ok (test z)
  | Null => Ok false
  | _ => Raise TypeError
  end.

Definition ge (s : Series) (x : Z) : Result (list bool) :=
  mapM_result (cmp_cell (λ z, x <=? z)) s.
Definition le (s : Series) (x : Z) : Result (list bool) :=
  mapM_result (cmp_cell (λ z, z <=? x)) s.

(** [s == x] against text: true where the cell is that text. *)
Definition eq_str (s : Series) (x : string) : list bool :=
  (λ v, bool_decide (v = Str x)) <$> s.

(** [s.isin(values)]: membership, where NaN is found among values that
    hold NaN. *)
Definition isin (s : Series) (values : list Value) : list bool :=
  (λ v, bool_decide (v ∈ values)) <$> s.

(** [m1 & m2] on masks over the same index. *)
Definition mask_and (m1 m2 : list bool) : list bool := zip_with andb m1 m2.

End Pandas.

(* ===================================================================== *)
(** ** Data frames *)
(* ===================================================================== *)

Record DataFrame : Type := {
  columns : list string;
  rows : list (gmap string Value)
}.

Definition len (df : DataFrame) : Z := Z.of_nat (length (rows df)).

(** The cell of a row under a label; a label the row lacks reads as NaN. *)
Definition cell (r : gmap string Value) (c : string) : Value := default Null (r !! c).

(** [df.values]: the cells row by row, in column order. *)
Definition values (df : DataFrame) : list (list Value) :=
  (λ r, (λ c, cell r c) <$> columns df) <$> rows df.

(** The labels after an assignment to column [c]: a new label goes last. *)
Definition add_column (c : string) (cols : list string) : list string :=
  if decide (c ∈ cols) then cols else cols ++ [c].

(** [df[cs].values] for labels [cs] of the frame. *)
Definition values_of (cs : list string) (df : DataFrame) : list (list Value) :=
  (λ r, (λ c, cell r c) <$> cs) <$> rows df.

Module Frame.

(** [df[c]]: the column, or KeyError. *)
Definition getitem (df : DataFrame) (c : string) : Result Series :=
  if decide (c ∈ columns df) then Ok ((λ r, cell r c) <$> rows df)
  else Raise (KeyError c).

(** [df[c] = s] for a series over the frame's own index: overwrites the
    column where it stands, or appends it as the last column. *)
Definition setitem (df : DataFrame) (c : string) (s : Series) : Result DataFrame :=
  if decide (length s = length (rows df)) then
    Ok {| columns := add_column c (columns df);
          rows := zip_with (λ r v, <[c := v]> r) (rows df) s |}
  else Raise ValueError.

(** [df[mask]]: the rows where the mask is true, in order, in a frame of
    its own. *)
Definition getitem_mask (df : DataFrame) (mask : list bool) : Result DataFrame :=
  if decide (length mask = length (rows df)) then
    Ok {| columns := columns df;
          rows := (filter (λ p, p.2 = true) (zip (rows df) mask)).*1 |}
  else Raise ValueError.

(** [pd.merge(left, right, on=key, how='inner')].  The key column is
    kept once, where it stands in [left]; a label other than the key that
    both frames carry gets the suffix [_x] on the left and [_y] on the
    right.  Each left row is paired, in order, with the right rows that
    hold the same key (a missing key matches a missing key).  pandas
    refuses more than a missing key column: key columns of unlike type
    (ValueError) and suffixes that make two labels equal (MergeError).  The
    model returns a frame there, so what is said of a join that returned
    is said of the joins pandas returns. *)
Definition suffixed (key : string) (others : list string) (sfx c : string) : string :=
  if decide (c ≠ key ∧ c ∈ others) then c +:+ sfx else c.

Definition project (rename : string → string) (cols : list string)
    (r : gmap string Value) : gmap string Value :=
  list_to_map ((λ c, (rename c, cell r c)) <$> cols).

Definition merge (left right : DataFrame) (on : string) : Result DataFrame :=
  if decide (on ∈ columns left) then
    if decide (on ∈ columns right) then
      let lname := suffixed on (columns right) "_x" in
      let rname := suffixed on (columns left) "_y" in
      let rcols := filter (λ c, c ≠ on) (columns right) in
      Ok {| columns := (lname <$> columns left) ++ (rname <$> rcols);
            rows :=
              l ← rows left;
              r ← filter (λ r, cell r on = cell l on) (rows right);
              [project lname (columns left) l ∪ project rname rcols r] |}
    else Raise (KeyError on)
  else Raise (KeyError on).

End Frame.

(* ===================================================================== *)
(** ** The pipeline of [load_data] *)
(* ===================================================================== *)

Section Pipeline.
Variable parse_date : string → option Z.

(** Lines 23-27 of [dashboard.py] (14-18 of [EDA.py]): the frame [df] is
    updated in place, one column at a time. *)
Definition derive_fields (df : DataFrame) : Result DataFrame :=
  date ← Frame.getitem df "Date";
  parsed ← Pandas.to_datetime parse_date date;
  df ← Frame.setitem df "Date" parsed;
  date ← Frame.getitem df "Date";
  year ← Pandas.dt_year date;
  df ← Frame.setitem df "Year" year;
  date ← Frame.getitem df "Date";
  month ← Pandas.dt_month date;
  df ← Frame.setitem df "Month" month;
  time ← Frame.getitem df "Time";
  hour ← Pandas.dt_hour (Pandas.to_datetime_HM_coerce time);
  df ← Frame.setitem df "Hour" hour;
  date ← Frame.getitem df "Date";
  weekday ← Pandas.dt_day_name date;
  Frame.setitem df "Weekday" weekday.

(** [load_data], given the two frames that [pd.read_csv] returned. *)
Definition load_data (accidents bikers : DataFrame) : Result DataFrame :=
  df ← Frame.merge accidents bikers "Accident_Index";
  derive_fields df.
End Pipeline.

(** The same lines with the parser left to pandas: line 23 hands the
    [Date] column of the joined frame to [pd.to_datetime], which settles on
    the parser from that column ([Pandas.to_datetime_guessing]). *)
Section Guessing.
Variable guess : Series → string → option Z.

(** [df['Date']], the column every later line reads. *)
Definition date_column (df : DataFrame) : Series := (λ r, cell r "Date") <$> rows df.

Definition derive_fields_guessing (df : DataFrame) : Result DataFrame :=
  derive_fields (guess (date_column df)) df.

Definition load_data_guessing (accidents bikers : DataFrame) : Result DataFrame :=
  df ← Frame.merge accidents bikers "Accident_Index";
  derive_fields_guessing df.
End Guessing.

(* ===================================================================== *)
(** ** The filter of the dashboard *)
(* ===================================================================== *)

(** What the sidebar widgets hold: the slider's pair of years and the
    selections of the four multiselects. *)
Record Filters : Type := {
  year_range : Z * Z;
  severity : list Value;
  gender_filter : list Value;
  weather : list Value;
  age_groups : list Value
}.

(** Lines 71-78 of [dashboard.py]. *)
Definition filtered (df : DataFrame) (f : Filters) : Result DataFrame :=
  year ← Frame.getitem df "Year";
  m1 ← Pandas.ge year (year_range f).1;
  year ← Frame.getitem df "Year";
  m2 ← Pandas.le year (year_range f).2;
  sev ← Frame.getitem df "Severity";
  gen ← Frame.getitem df "Gender";
  wea ← Frame.getitem df "Weather_conditions";
  age ← Frame.getitem df "Age_Grp";
  Frame.getitem_mask df
    (Pandas.mask_and
      (Pandas.mask_and
        (Pandas.mask_and
          (Pandas.mask_and
            (Pandas.mask_and m1 m2)
            (Pandas.isin sev (severity f)))
          (Pandas.isin gen (gender_filter f)))
        (Pandas.isin wea (weather f)))
      (Pandas.isin age (age_groups f))).

(** The filter read row by row, as the specification words it: the year
    within the inclusive range, and each of the four cells a member of the
    set selected for it. *)
Module FilterSpec.

Definition year_in_range (f : Filters) (r : gmap string Value) : Prop :=
  match cell r "Year" with
  | Int y => (year_range f).1 ≤ y ∧ y ≤ (year_range f).2
  | _ => False
  end.

Definition passes (f : Filters) (r : gmap string Value) : Prop :=
  year_in_range f r ∧
  cell r "Severity" ∈ severity f ∧
  cell r "Gender" ∈ gender_filter f ∧
  cell r "Weather_conditions" ∈ weather f ∧
  cell r "Age_Grp" ∈ age_groups f.

#[global] Instance year_in_range_dec f r : Decision (year_in_range f r).
Proof. unfold year_in_range. destruct (cell r "Year"); apply _. Defined.

#[global] Instance passes_dec f r : Decision (passes f r).
Proof. unfold passes. apply _. Defined.

(** The four categorical dimensions with their selected sets. *)
Definition dimensions (f : Filters) : list (string * list Value) :=
  [ ("Severity", severity f); ("Gender", gender_filter f);
    ("Weather_conditions", weather f); ("Age_Grp", age_groups f) ].

(** The labels the dashboard reads from the canonical table to filter. *)
Definition filter_columns : list string :=
  ["Severity"; "Gender"; "Weather_conditions"; "Age_Grp"].

End FilterSpec.

(* ===================================================================== *)
(** ** Aggregates *)
(* ===================================================================== *)

(** A Python number as the metrics hold it.  Floats are carried as exact
    rationals; [NaN] is the float that pandas returns for an aggregate of
    nothing. *)
Inductive Number : Type :=
| NaN
| Num (q : Q).

Module Aggregate.

(** The non-null cells of a numeric column ([skipna=True]).  Text cannot
    be summed or averaged; no datetime column is aggregated in the
    repository, and one is rejected here like text. *)
Fixpoint numbers (s : Series) : Result (list Z) :=
  match s with
  | [] => Ok []
  | Null :: s' => numbers s'
  | Int z :: s' => zs ← numbers s'; Ok (z :: zs)
  | _ :: _ => Raise TypeError
  end.

Definition total (zs : list Z) : Z := foldr Z.add 0 zs.

(** [s.sum()]: 0 over nothing.  The sum is taken in unbounded integers,
    where that of an int64 column wraps beyond 2^63. *)
Definition sum (s : Series) : Result Number :=
  zs ← numbers s; Ok (Num (inject_Z (total zs))).

(** [s.mean()]: NaN over nothing, no exception. *)
Definition mean (s : Series) : Result Number :=
  zs ← numbers s;
  Ok (match zs with
      | [] => NaN
      | _ => Num (inject_Z (total zs) / inject_Z (Z.of_nat (length zs)))
      end).

(** [s.max()]: NaN over nothing. *)
Definition max (s : Series) : Result Number :=
  zs ← numbers s;
  Ok (match zs with
      | [] => NaN
      | z :: zs' => Num (inject_Z (foldr Z.max z zs'))
      end).

(** A series with an index of its own: labels paired with values. *)
Definition Indexed : Type := list (Value * Value).

Fixpoint count_into (v : Value) (acc : list (Value * Z)) : list (Value * Z) :=
  match acc with
  | [] => [(v, 1)]
  | (w, n) :: acc' =>
      if decide (w = v) then (w, n + 1) :: acc' else (w, n) :: count_into v acc'
  end.

(** Occurrences of each non-null value, in order of first appearance. *)
Definition counts (s : Series) : list (Value * Z) :=
  foldl (λ acc v, if isnull v then acc else count_into v acc) [] s.

Fixpoint insert_desc (p : Value * Z) (l : list (Value * Z)) : list (Value * Z) :=
  match l with
  | [] => [p]
  | q :: l' => if q.2 <? p.2 then p :: q :: l' else q :: insert_desc p l'
  end.

(** [s.value_counts()]: the counts of the non-null values, the most
    frequent first (pandas fixes no order among values of equal count; here
    the value that appears later comes first). *)
Definition value_counts (s : Series) : Indexed :=
  (λ p, (p.1, Int p.2)) <$> foldr insert_desc [] (counts s).

Definition at_label (s : Indexed) (label : Value) : option Value :=
  (λ p, p.2.2) <$> list_find (λ p, p.1 = label) s.

(** [s.reindex(labels)] without [fill_value]: the values in the order of
    [labels]; a label that the index lacks gets NaN. *)
Definition reindex (s : Indexed) (labels : list Value) : Indexed :=
  (λ l, (l, default Null (at_label s l))) <$> labels.

(** [s.idxmax()]: the label of the first largest value; argmax of an
    empty series raises ValueError. *)
Fixpoint idxmax_from (best : Value * Z) (l : list (Value * Z)) : Value :=
  match l with
  | [] => best.1
  | p :: l' => if best.2 <? p.2 then idxmax_from p l' else idxmax_from best l'
  end.

Definition idxmax (s : list (Value * Z)) : Result Value :=
  match s with
  | [] => Raise ValueError
  | p :: l => Ok (idxmax_from p l)
  end.

End Aggregate.

(** Lines 66-67 of [EDA.py]. *)
Definition severity_order : list Value := [Str "Fatal"; Str "Serious"; Str "Slight"].

Definition severity_counts (df : DataFrame) : Result Aggregate.Indexed :=
  sev ← Frame.getitem df "Severity";
  Ok (Aggregate.reindex (Aggregate.value_counts sev) severity_order).

(** Lines 134-135 of [dashboard.py]. *)
Definition day_order : list Value :=
  [Str "Monday"; Str "Tuesday"; Str "Wednesday"; Str "Thursday"; Str "Friday";
   Str "Saturday"; Str "Sunday"].

Definition weekday (filtered : DataFrame) : Result Aggregate.Indexed :=
  wd ← Frame.getitem filtered "Weekday";
  Ok (Aggregate.reindex (Aggregate.value_counts wd) day_order).

(** Line 414 of [dashboard.py]: [filtered.groupby('Hour').size().idxmax()].
    The groups are the non-null hours, in increasing order. *)
Fixpoint insert_by_hour (p : Value * Z) (l : list (Value * Z)) : list (Value * Z) :=
  let hour v := match v with Int z => z | _ => 0 end in
  match l with
  | [] => [p]
  | q :: l' => if hour p.1 <? hour q.1 then p :: q :: l' else q :: insert_by_hour p l'
  end.

Definition peak_hour (filtered : DataFrame) : Result Value :=
  h ← Frame.getitem filtered "Hour";
  Aggregate.idxmax (foldr insert_by_hour [] (Aggregate.counts h)).

(** Lines 80-94 of [dashboard.py]: the five metrics of the header. *)
Record Metrics : Type := {
  total_accidents : Z;
  fatal : Z;
  serious : Z;
  fatality_rate : Number;
  avg_casualties : Number
}.

Definition count_severity (filtered : DataFrame) (s : string) : Result Z :=
  sev ← Frame.getitem filtered "Severity";
  sub ← Frame.getitem_mask filtered (Pandas.eq_str sev s);
  Ok (len sub).

Definition header_metrics (filtered : DataFrame) : Result Metrics :=
  fatal ← count_severity filtered "Fatal";
  serious ← count_severity filtered "Serious";
  let fatality_rate :=
    if 0 <? len filtered
    then Num (inject_Z fatal / inject_Z (len filtered) * 100)
    else Num 0 in
  avg_casualties ←
    (if 0 <? len filtered
     then Frame.getitem filtered "Number_of_Casualties" ≫= Aggregate.mean
     else Ok (Num 0));
  Ok {| total_accidents := len filtered; fatal := fatal; serious := serious;
        fatality_rate := fatality_rate; avg_casualties := avg_casualties |}.

(** Lines 427-432 of [dashboard.py]: the casualty metrics of the last tab,
    taken without a guard on the number of rows. *)
Record CasualtyMetrics : Type := {
  total_casualties : Number;
  avg_per_accident : Number;
  max_casualties : Number;
  avg_vehicles : Number
}.

Definition casualty_metrics (filtered : DataFrame) : Result CasualtyMetrics :=
  c ← Frame.getitem filtered "Number_of_Casualties";
  total ← Aggregate.sum c;
  c ← Frame.getitem filtered "Number_of_Casualties";
  avg ← Aggregate.mean c;
  c ← Frame.getitem filtered "Number_of_Casualties";
  most ← Aggregate.max c;
  v ← Frame.getitem filtered "Number_of_Vehicles";
  veh ← Aggregate.mean v;
  Ok {| total_casualties := total; avg_per_accident := avg;
        max_casualties := most; avg_vehicles := veh |}.

(* ===================================================================== *)
(** ** Frames as objects of the running script *)
(* ===================================================================== *)

(** The script's values live in a store of objects; a variable holds the
    identity of its object.  Every operation of lines 71-78 builds a new
    object from the ones it reads, while [df[c] = s], which lines 23-27
    use, changes the frame where it is.  The script never writes into a
    Series, so whether [df[c]] shares its values with the frame makes no
    difference to it: the Series is an object of its own here. *)
Module Session.

Inductive Object : Type :=
| AFrame (df : DataFrame)
| ASeries (s : Series)
| AMask (m : list bool).

Record Store : Type := {
  objects : gmap nat Object;
  next_id : nat
}.

(** Every object in use was handed out by the allocator. *)
Definition well_formed (σ : Store) : Prop :=
  ∀ l, is_Some (objects σ !! l) → (l < next_id σ)%nat.

(** A piece of script: from the store before it to what it returns or
    raises and the store after it. *)
Definition Script (A : Type) : Type := Store → Result A * Store.

#[global] Instance Script_ret : MRet Script := λ A a σ, (Ok a, σ).
#[global] Instance Script_bind : MBind Script := λ A B k m σ,
  match m σ with
  | (Ok a, σ') => k a σ'
  | (Raise e, σ') => (Raise e, σ')
  end.

(** A computation on values, which touches no object. *)
Definition lift {A} (r : Result A) : Script A := λ σ, (r, σ).

Definition alloc (o : Object) (σ : Store) : Store :=
  {| objects := <[next_id σ := o]> (objects σ); next_id := S (next_id σ) |}.

Definition new (o : Object) : Script nat := λ σ, (Ok (next_id σ), alloc o σ).

Definition frame_at (l : nat) : Script DataFrame := λ σ,
  (match objects σ !! l with Some (AFrame df) => Ok df | _ => Raise TypeError end, σ).
Definition series_at (l : nat) : Script Series := λ σ,
  (match objects σ !! l with Some (ASeries s) => Ok s | _ => Raise TypeError end, σ).
Definition mask_at (l : nat) : Script (list bool) := λ σ,
  (match objects σ !! l with Some (AMask m) => Ok m | _ => Raise TypeError end, σ).

(** [df[c]]. *)
Definition getitem (df : nat) (c : string) : Script nat :=
  d ← frame_at df; s ← lift (Frame.getitem d c); new (ASeries s).

(** [s >= x] and [s <= x]. *)
Definition ge (s : nat) (x : Z) : Script nat :=
  v ← series_at s; m ← lift (Pandas.ge v x); new (AMask m).
Definition le (s : nat) (x : Z) : Script nat :=
  v ← series_at s; m ← lift (Pandas.le v x); new (AMask m).

(** [s.isin(values)]. *)
Definition isin (s : nat) (values : list Value) : Script nat :=
  v ← series_at s; new (AMask (Pandas.isin v values)).

(** [m1 & m2]. *)
Definition mask_and (m1 m2 : nat) : Script nat :=
  a ← mask_at m1; b ← mask_at m2; new (AMask (Pandas.mask_and a b)).

(** [df[mask]]. *)
Definition getitem_mask (df mask : nat) : Script nat :=
  d ← frame_at df; m ← mask_at mask; out ← lift (Frame.getitem_mask d m);
  new (AFrame out).

(** [df[c] = s]: the frame at [df] is overwritten where it is. *)
Definition overwrite (l : nat) (o : Object) : Script unit := λ σ,
  (Ok (), {| objects := <[l := o]> (objects σ); next_id := next_id σ |}).

Definition setitem (df : nat) (c : string) (s : Series) : Script unit :=
  d ← frame_at df; d' ← lift (Frame.setitem d c s); overwrite df (AFrame d').

(** Lines 71-78 of [dashboard.py], operation by operation, in the order
    Python evaluates them; [df] is the identity of the canonical table. *)
Definition filtered (df : nat) (f : Filters) : Script nat :=
  year ← getitem df "Year";
  m1 ← ge year (year_range f).1;
  year ← getitem df "Year";
  m2 ← le year (year_range f).2;
  m ← mask_and m1 m2;
  sev ← getitem df "Severity";
  m3 ← isin sev (severity f);
  m ← mask_and m m3;
  gen ← getitem df "Gender";
  m4 ← isin gen (gender_filter f);
  m ← mask_and m m4;
  wea ← getitem df "Weather_conditions";
  m5 ← isin wea (weather f);
  m ← mask_and m m5;
  age ← getitem df "Age_Grp";
  m6 ← isin age (age_groups f);
  m ← mask_and m m6;
  getitem_mask df m.

(** Whatever was in the store before is in it afterwards, as it was. *)
Definition unchanged (σ σ' : Store) : Prop :=
  ∀ l o, objects σ !! l = Some o → objects σ' !! l = Some o.

End Session.

Arguments Session.alloc : simpl never.

(* ===================================================================== *)
(** ** Fixture tables *)
(* ===================================================================== *)

Module Fixture.

Definition frame (cols : list string) (data : list (list Value)) : DataFrame :=
  {| columns := cols; rows := (λ vs, list_to_map (zip cols vs)) <$> data |}.

Definition accidents : DataFrame :=
  frame ["Accident_Index"; "Date"; "Time"; "Severity"; "Weather_conditions";
         "Number_of_Casualties"; "Number_of_Vehicles"]
    [ [Str "A1"; Str "2009-03-02"; Str "08:15"; Str "Fatal"; Str "Clear"; Int 1; Int 2];
      [Str "A2"; Str "2010-07-14"; Str "17:40"; Str "Serious"; Str "Rain"; Int 2; Int 1];
      [Str "A3"; Str "2010-12-25"; Str "noon"; Str "Slight"; Null; Int 1; Int 2] ].

Definition bikers : DataFrame :=
  frame ["Accident_Index"; "Gender"; "Age_Grp"]
    [ [Str "A1"; Str "Male"; Str "26 to 35"];
      [Str "A2"; Str "Female"; Str "16 to 20"];
      [Str "A3"; Str "Male"; Null];
      [Str "A9"; Str "Male"; Str "36 to 45"] ].



Definition no_frame : DataFrame := {| columns := []; rows := [] |}.

(** A guess that knows two formats.  The first text of the column that
    stands for a date settles the format of the whole column: [%Y-%m-%d]
    if it reads as such, [%d/%m/%Y] otherwise. *)
Fixpoint guess (s : Series) : string → option Z :=
  match s with
  | Str x :: s' =>
      if decide (x ∈ Pandas.nat_strings) then guess s'
      else match Strptime.iso_date x with
           | Some _ => Strptime.iso_date
           | None => Strptime.dmy_date
           end
  | _ :: s' => guess s'
  | [] => Strptime.iso_date
  end.

(** The accidents with their dates written day first. *)
Definition accidents_day_first : DataFrame :=
  frame ["Accident_Index"; "Date"; "Time"; "Severity"; "Weather_conditions";
         "Number_of_Casualties"; "Number_of_Vehicles"]
    [ [Str "A1"; Str "02/03/2009"; Str "08:15"; Str "Fatal"; Str "Clear"; Int 1; Int 2];
      [Str "A2"; Str "14/07/2010"; Str "17:40"; Str "Serious"; Str "Rain"; Int 2; Int 1];
      [Str "A3"; Str "25/12/2010"; Str "noon"; Str "Slight"; Null; Int 1; Int 2] ].

(** The same, but for the first date, which is written year first. *)
Definition accidents_mixed_dates : DataFrame :=
  frame ["Accident_Index"; "Date"; "Time"; "Severity"; "Weather_conditions";
         "Number_of_Casualties"; "Number_of_Vehicles"]
    [ [Str "A1"; Str "2009-03-02"; Str "08:15"; Str "Fatal"; Str "Clear"; Int 1; Int 2];
      [Str "A2"; Str "14/07/2010"; Str "17:40"; Str "Serious"; Str "Rain"; Int 2; Int 1];
      [Str "A3"; Str "25/12/2010"; Str "noon"; Str "Slight"; Null; Int 1; Int 2] ].

Definition merged : DataFrame :=
  match Frame.merge accidents bikers "Accident_Index" with
  | Ok df => df
  | Raise _ => no_frame
  end.

Definition canonical : DataFrame :=
  match load_data Strptime.iso_date accidents bikers with
  | Ok df => df
  | Raise _ => no_frame
  end.

Definition all_filters : Filters :=
  {| year_range := (2009, 2010);
     severity := [Str "Fatal"; Str "Serious"; Str "Slight"];
     gender_filter := [Str "Male"; Str "Female"];
     weather := [Str "Clear"; Str "Rain"];
     age_groups := [Str "26 to 35"; Str "16 to 20"] |}.

Definition empty_table : DataFrame :=
  match filtered canonical {| year_range := (2009, 2010); severity := [];
                              gender_filter := []; weather := []; age_groups := [] |} with
  | Ok df => df
  | Raise _ => no_frame
  end.

(** Accidents none of which was fatal. *)
Definition no_fatal : DataFrame :=
  frame ["Accident_Index"; "Severity"]
    [ [Str "A2"; Str "Serious"]; [Str "A3"; Str "Slight"]; [Str "A4"; Str "Slight"] ].

(** The running dashboard, the canonical table being its one frame. *)
Definition session : Session.Store :=
  {| Session.objects := {[ 0%nat := Session.AFrame canonical ]}; Session.next_id := 1 |}.

(** Two frames that share a label besides the key. *)
Definition left_notes : DataFrame :=
  frame ["Accident_Index"; "Note"] [ [Str "A1"; Str "l1"]; [Null; Str "l2"] ].
Definition right_notes : DataFrame :=
  frame ["Note"; "Accident_Index"]
    [ [Str "r1"; Str "A1"]; [Str "r2"; Null]; [Str "r3"; Str "A1"] ].

(** Nothing selected in the severity widget. *)
Definition no_severity : Filters :=
  {| year_range := (2009, 2010);
     severity := [];
     gender_filter := [Str "Male"; Str "Female"];
     weather := [Str "Clear"; Str "Rain"];
     age_groups := [Str "26 to 35"; Str "16 to 20"] |}.

(** Selections that hold the missing value. *)
Definition with_null : Filters :=
  {| year_range := (2009, 2010);
     severity := [Str "Fatal"; Str "Serious"; Str "Slight"];
     gender_filter := [Str "Male"; Str "Female"];
     weather := [Str "Clear"; Str "Rain"; Null];
     age_groups := [Str "26 to 35"; Str "16 to 20"; Null] |}.

End Fixture.

(* ===================================================================== *)
(** ** Row-wise reading of the field derivation *)
(* ===================================================================== *)

(** What lines 23-27 do to one row, as the specification describes the
    Field Deriver: the five cells are functions of the row's own [Date] and
    [Time].  The column-at-a-time code above is compared with it below. *)
Module RowSpec.

Definition force (r : Result Value) : Value :=
  match r with Ok v => v | Raise _ => Null end.

Definition on_datetime (f : Z → Value) (v : Value) : Value :=
  match v with Datetime t => f t | _ => Null end.

Section Rows.
Variable parse_date : string → option Z.

Definition parsed_date (r : gmap string Value) : Value :=
  force (Pandas.to_datetime_cell parse_date (cell r "Date")).

Definition parsed_time (r : gmap string Value) : Value :=
  Pandas.to_datetime_HM_coerce_cell (cell r "Time").

Definition derive_row (r : gmap string Value) : gmap string Value :=
  let d := parsed_date r in
  <["Weekday" := on_datetime (λ t, Str (Calendar.day_name t)) d]>
    (<["Hour" := on_datetime (λ t, Int (Calendar.hour t)) (parsed_time r)]>
      (<["Month" := on_datetime (λ t, Int (Calendar.month t)) d]>
        (<["Year" := on_datetime (λ t, Int (Calendar.year t)) d]>
          (<["Date" := d]> r)))).

(** A date cell on which [pd.to_datetime] raises. *)
Definition unparseable_date (v : Value) : Prop :=
  ∃ x, v = Str x ∧ (x ∉ Pandas.nat_strings) ∧ parse_date x = None.

End Rows.


Definition derived_columns (cols : list string) : list string :=
  add_column "Weekday" (add_column "Hour" (add_column "Month" (add_column "Year" cols))).

End RowSpec.


(* ===================================================================== *)
(** ** More column operations *)
(* ===================================================================== *)

Module Column.

(** [s.dropna()]. *)
Definition dropna (s : Series) : Series := filter (λ v, v ≠ Null) s.

(** [s.unique()]: the distinct values in order of first appearance; NaN,
    where the column holds it, is one of them. *)
Fixpoint unique (s : Series) : list Value :=
  match s with
  | [] => []
  | v :: s' => v :: filter (λ w, w ≠ v) (unique s')
  end.

(** [s.min()]: NaN over nothing, like [Aggregate.max]. *)
Definition min (s : Series) : Result Number :=
  zs ← Aggregate.numbers s;
  Ok (match zs with
      | [] => NaN
      | z :: zs' => Num (inject_Z (foldr Z.min z zs'))
      end).

(** Python's [int(x)]: truncation, and ValueError on NaN. *)
Definition int (x : Number) : Result Z :=
  match x with
  | NaN => Raise ValueError
  | Num q => Ok (Z.quot (Qnum q) (Z.pos (Qden q)))
  end.

(** [(s == x).sum()]: the number of true entries of a mask. *)
Definition count_true (mask : list bool) : Z :=
  Z.of_nat (length (filter (λ b, b = true) mask)).

(** [df.groupby(c).size()] on a column of integers ([Year], [Month] and
    [Hour] are grouped in the repository): the number of rows of each
    non-null key, the keys in increasing order. *)
Definition groupby_size (s : Series) : list (Value * Z) :=
  foldr insert_by_hour [] (Aggregate.counts s).

(** [s.loc[lo:hi]] on an increasing integer index: the entries whose label
    lies between the two bounds, both included. *)
Definition label_within (lo hi : Z) (v : Value) : bool :=
  match v with Int k => (lo <=? k) && (k <=? hi) | _ => false end.

Definition loc_slice (s : list (Value * Z)) (lo hi : Z) : list (Value * Z) :=
  filter (λ p, label_within lo hi p.1 = true) s.

End Column.

(* ===================================================================== *)
(** ** The sidebar of the dashboard *)
(* ===================================================================== *)

(** Lines 36-69 of [dashboard.py]: what the script computes for its
    widgets, the bounds and the start value of the year slider and the
    options and the start selection of the four multiselects.  The widgets
    themselves belong to the web framework: the slider takes a start value
    only within its bounds. *)
Record Widgets : Type := {
  years_min : Z;
  years_max : Z;
  years_value : Z * Z;
  severity_options : list Value;
  severity_default : list Value;
  gender_options : list Value;
  gender_default : list Value;
  weather_options : list Value;
  weather_default : list Value;
  age_options : list Value;
  age_default : list Value
}.

Definition sidebar (df : DataFrame) : Result Widgets :=
  year ← Frame.getitem df "Year";
  lo ← Column.min year ≫= Column.int;
  year ← Frame.getitem df "Year";
  hi ← Aggregate.max year ≫= Column.int;
  sev ← Frame.getitem df "Severity";
  sev' ← Frame.getitem df "Severity";
  gen ← Frame.getitem df "Gender";
  gen' ← Frame.getitem df "Gender";
  wea ← Frame.getitem df "Weather_conditions";
  wea' ← Frame.getitem df "Weather_conditions";
  age ← Frame.getitem df "Age_Grp";
  age' ← Frame.getitem df "Age_Grp";
  Ok {| years_min := lo; years_max := hi; years_value := (2010, 2018);
        severity_options := Column.unique sev;
        severity_default := Column.unique sev';
        gender_options := Column.unique (Column.dropna gen);
        gender_default := Column.unique (Column.dropna gen');
        weather_options := take 10 (Column.unique (Column.dropna wea));
        weather_default := take 5 (Column.unique (Column.dropna wea'));
        age_options := Column.unique (Column.dropna age);
        age_default := Column.unique (Column.dropna age') |}.

(** The configuration before the user touches a widget. *)
Definition defaults (w : Widgets) : Filters :=
  {| year_range := years_value w;
     severity := severity_default w;
     gender_filter := gender_default w;
     weather := weather_default w;
     age_groups := age_default w |}.

(** A configuration the widgets can hand to the script: a multiselect
    returns some of its options, the slider a pair of years within its
    bounds. *)
Definition selectable (w : Widgets) (f : Filters) : Prop :=
  years_min w ≤ (year_range f).1 ∧ (year_range f).1 ≤ (year_range f).2 ∧
  (year_range f).2 ≤ years_max w ∧
  severity f ⊆ severity_options w ∧
  gender_filter f ⊆ gender_options w ∧
  weather f ⊆ weather_options w ∧
  age_groups f ⊆ age_options w.

(* ===================================================================== *)
(** ** Counts of the report *)
(* ===================================================================== *)

(** Lines 105-106 of [EDA.py]: [(df['Severity'] == s).sum()]. *)
Definition severity_count (df : DataFrame) (s : string) : Result Z :=
  sev ← Frame.getitem df "Severity";
  Ok (Column.count_true (Pandas.eq_str sev s)).

(** Lines 78 and 128-129 of [EDA.py]:
    [df.groupby('Hour').size().loc[lo:hi].sum()]. *)
Definition rush (df : DataFrame) (lo hi : Z) : Result Z :=
  h ← Frame.getitem df "Hour";
  Ok (Aggregate.total ((Column.loc_slice (Column.groupby_size h) lo hi).*2)).

(** Lines 184, 199, 211 and 244 of [dashboard.py], 90 of [EDA.py]:
    [filtered[c].value_counts().head(k)]. *)
Definition top_counts (filtered : DataFrame) (c : string) (k : nat) :
    Result Aggregate.Indexed :=
  s ← Frame.getitem filtered c;
  Ok (take k (Aggregate.value_counts s)).

(** The number of cells of a column that hold [v]. *)
Definition occurrences (v : Value) (s : Series) : Z :=
  Z.of_nat (length (filter (λ w, w = v) s)).

(** Lines 31, 37, 40, 43, 46 and 49 of [EDA.py], 173, 313 and 325 of
    [dashboard.py]: [df[c].value_counts()]. *)
Definition distribution (df : DataFrame) (c : string) : Result Aggregate.Indexed :=
  s ← Frame.getitem df c;
  Ok (Aggregate.value_counts s).

(* ===================================================================== *)
(** ** More fixture tables *)
(* ===================================================================== *)

Module Sample.

(** Bikers whose file carries a date of its own. *)
Definition bikers_dated : DataFrame :=
  Fixture.frame ["Accident_Index"; "Gender"; "Date"]
    [ [Str "A1"; Str "Male"; Str "2009-03-02"];
      [Str "A2"; Str "Female"; Str "2010-07-14"] ].

(** A canonical table in which every widget finds something to drop. *)
Definition accidents : DataFrame :=
  Fixture.frame ["Accident_Index"; "Date"; "Time"; "Severity"; "Weather_conditions"]
    [ [Str "B1"; Str "2008-05-01"; Str "07:30"; Str "Slight"; Str "Clear"];
      [Str "B2"; Str "2012-05-01"; Str "09:05"; Null; Str "Rain"];
      [Str "B3"; Str "2013-06-02"; Str "8:59"; Str "Fatal"; Null];
      [Str "B4"; Str "2014-07-03"; Str "late"; Str "Serious"; Str "Fog"];
      [Str "B5"; Str "2019-08-04"; Str "23:10"; Str "Slight"; Str "Clear"];
      [Str "B6"; Null; Str "12:00"; Str "Slight"; Str "Clear"] ].

Definition bikers : DataFrame :=
  Fixture.frame ["Accident_Index"; "Gender"; "Age_Grp"]
    [ [Str "B1"; Str "Male"; Str "26 to 35"];
      [Str "B2"; Str "Female"; Str "16 to 20"];
      [Str "B3"; Str "Male"; Str "26 to 35"];
      [Str "B4"; Null; Str "36 to 45"];
      [Str "B5"; Str "Female"; Null];
      [Str "B6"; Str "Male"; Str "16 to 20"] ].

Definition canonical : DataFrame :=
  match load_data Strptime.iso_date accidents bikers with
  | Ok df => df
  | Raise _ => Fixture.no_frame
  end.

Definition no_widgets : Widgets :=
  {| years_min := 0; years_max := 0; years_value := (0, 0);
     severity_options := []; severity_default := [];
     gender_options := []; gender_default := [];
     weather_options := []; weather_default := [];
     age_options := []; age_default := [] |}.

Definition widgets : Widgets :=
  match sidebar canonical with
  | Ok w => w
  | Raise _ => no_widgets
  end.

End Sample.

(** Lines 55 and 78 of [EDA.py], 102, 111 and 126 of [dashboard.py]:
    [df.groupby(c).size()] for [Year], [Month] and [Hour]. *)
Definition group_sizes (df : DataFrame) (c : string) : Result (list (Value * Z)) :=
  s ← Frame.getitem df c;
  Ok (Column.groupby_size s).
(* ===================================================================== *)
(** ** Notions used in the proofs *)
(* ===================================================================== *)

(** The value of [f x] where it returns, and [d] where it raises. *)
Definition forced {A B} (f : A → Result B) (d : B) (x : A) : B :=
  match f x with Ok y => y | Raise _ => d end.

Definition datetime_or_null (v : Value) : Prop := v = Null ∨ ∃ t, v = Datetime t.

Definition numeric_or_null (v : Value) : Prop :=
  match v with Int _ | Null => True | _ => False end.

(** The mask of one row, as the column operations of [filtered] compute it. *)
Definition row_mask (f : Filters) (r : gmap string Value) : bool :=
  forced (Pandas.cmp_cell (λ z, (year_range f).1 <=? z)) false (cell r "Year") &&
  forced (Pandas.cmp_cell (λ z, z <=? (year_range f).2)) false (cell r "Year") &&
  bool_decide (cell r "Severity" ∈ severity f) &&
  bool_decide (cell r "Gender" ∈ gender_filter f) &&
  bool_decide (cell r "Weather_conditions" ∈ weather f) &&
  bool_decide (cell r "Age_Grp" ∈ age_groups f).

(** The frame that [filtered] reads: the [Year] column holds numbers or
    NaN, and the four categorical columns are there. *)
Definition filterable (df : DataFrame) : Prop :=
  "Year" ∈ columns df ∧
  Forall (λ r, numeric_or_null (cell r "Year")) (rows df) ∧
  ∀ c, c ∈ FilterSpec.filter_columns → c ∈ columns df.


(** The count that a list of counts holds for a value. *)
Fixpoint lookup_count (v : Value) (acc : list (Value * Z)) : option Z :=
  match acc with
  | [] => None
  | (w, n) :: acc' => if decide (w = v) then Some n else lookup_count v acc'
  end.

(** The integer of a group key. *)
Definition key_of (v : Value) : Z := match v with Int z => z | _ => 0 end.

(** One step of [Aggregate.counts]. *)
Definition count_step (acc : list (Value * Z)) (v : Value) : list (Value * Z) :=
  if isnull v then acc else Aggregate.count_into v acc.

(** Every entry stands in relation [R] to every later one. *)
Fixpoint sorted_by {A} (R : A → A → Prop) (l : list A) : Prop :=
  match l with
  | [] => True
  | x :: l' => Forall (R x) l' ∧ sorted_by R l'
  end.

(** Orders of the entries of a counted series: by falling count, and by
    rising key. *)
Definition count_ge (p q : Value * Z) : Prop := q.2 ≤ p.2.
Definition key_lt (p q : Value * Z) : Prop := key_of p.1 < key_of q.1.
Definition key_le (p q : Value * Z) : Prop := key_of p.1 ≤ key_of q.1.

(** The count that reindexing shows under a label: the number of cells
    that hold the label, and NaN where no cell does. *)
Definition shown_count (s : Series) (l : Value) : Value :=
  if decide (l ≠ Null ∧ l ∈ s) then Int (occurrences l s) else Null.

(** The text of a number below 100 in two digits, and the text [HH:MM]. *)
Definition two_digits (n : Z) : string :=
  String (ascii_of_nat (Z.to_nat (48 + n / 10)))
    (String (ascii_of_nat (Z.to_nat (48 + n mod 10))) "").

Definition clock_text (h m : Z) : string := two_digits h +:+ ":" +:+ two_digits m.

(** The hour that the derivation reads off a time cell. *)
Definition hour_of_time (v : Value) : Value :=
  RowSpec.on_datetime (λ t, Int (Calendar.hour t)) (Pandas.to_datetime_HM_coerce_cell v).

(** All the times of a day, written [HH:MM], give back their hour. *)
Definition clock_cell (h m : nat) : bool :=
  bool_decide (hour_of_time (Str (clock_text (Z.of_nat h) (Z.of_nat m))) = Int (Z.of_nat h)).

Definition clock_row (h : nat) : bool := forallb (clock_cell h) (seq 0 60).

Definition clock_check : bool := forallb clock_row (seq 0 24).

(** A label carried by exactly one of two frames. *)
Definition in_one_source (c : string) (left right : DataFrame) : Prop :=
  (c ∈ columns left ∧ (c ∉ columns right)) ∨ ((c ∉ columns left) ∧ c ∈ columns right).

(** A run of the script from [σ], somewhere after the store [σ0] in which
    the filter was started: nothing that [σ0] held has been touched. *)
Definition store_after (σ0 σ : Session.Store) : Prop :=
  Session.well_formed σ0 ∧ Session.well_formed σ ∧ Session.unchanged σ0 σ ∧
  (Session.next_id σ0 ≤ Session.next_id σ)%nat.

(** The rest [m] of the script, run from [σ], does what the computation
    [p] on values does: it raises what [p] raises, or returns a frame
    object, new since [σ0], that holds what [p] returns; and either way it
    leaves what [σ0] held as it was. *)
Definition script_refines (σ0 : Session.Store) (m : Session.Script nat)
    (σ : Session.Store) (p : Result DataFrame) : Prop :=
  ∃ r σ', m σ = (r, σ') ∧ store_after σ0 σ' ∧
    match p with
    | Ok out => ∃ l', r = Ok l' ∧ Session.objects σ0 !! l' = None ∧
                      Session.objects σ' !! l' = Some (Session.AFrame out)
    | Raise e => r = Raise e
    end.
(* ===================================================================== *)
(** ** The parsers and the calendar on sample inputs *)
(* ===================================================================== *)

Example ex_parse1 : Strptime.parse_HM "17:45" = Some (17, 45). Proof. reflexivity. Qed.
Example ex_parse2 : Strptime.parse_HM "7:5" = Some (7, 5). Proof. reflexivity. Qed.
Example ex_parse3 : Strptime.parse_HM "24:00" = None. Proof. reflexivity. Qed.
Example ex_parse4 : Strptime.parse_HM "9:99" = None. Proof. reflexivity. Qed.
Example ex_parse5 : Strptime.parse_HM "123:45" = None. Proof. reflexivity. Qed.
Example ex_iso1 : Strptime.iso_date "2010-01-05" = Some (14614 * Calendar.ns_per_day). Proof. reflexivity. Qed.
Example ex_iso2 : Strptime.iso_date "2010-02-30" = None. Proof. reflexivity. Qed.
Example ex_iso3 : Strptime.iso_date "05/01/2010" = None. Proof. reflexivity. Qed.
Example ex_day1 : Calendar.day_name (14614 * Calendar.ns_per_day) = "Tuesday". Proof. reflexivity. Qed.
Example ex_year1 : Calendar.year (14614 * Calendar.ns_per_day) = 2010. Proof. reflexivity. Qed.
Example ex_hour1 : Calendar.hour <$> Strptime.strptime_HM "17:45" = Some 17. Proof. reflexivity. Qed.
Example ex_day2 : Calendar.day_name <$> Strptime.iso_date "2018-12-31" = Some "Monday". Proof. reflexivity. Qed.
Example ex_day3 : Calendar.day_name <$> Strptime.iso_date "1979-01-01" = Some "Monday". Proof. reflexivity. Qed.
Example ex_day4 : Calendar.day_name <$> Strptime.iso_date "1969-12-31" = Some "Wednesday". Proof. reflexivity. Qed.

Example ex_value_counts :
  Aggregate.value_counts [Str "b"; Null; Str "a"; Str "a"; Str "c"; Str "a"; Str "c"] =
  [(Str "a", Int 3); (Str "c", Int 2); (Str "b", Int 1)].
Proof. reflexivity. Qed.

Example ex_idxmax :
  Aggregate.idxmax [(Int 7, 2); (Int 8, 5); (Int 17, 5)] = Ok (Int 8).
Proof. reflexivity. Qed.

Example ex_mean : Aggregate.mean [Int 1; Null; Int 2] = Ok (Num (inject_Z 3 / inject_Z 2)).
Proof. reflexivity. Qed.

Example ex_header_metrics :
  header_metrics Fixture.canonical =
  Ok {| total_accidents := 3; fatal := 1; serious := 1;
        fatality_rate := Num (inject_Z 1 / inject_Z 3 * 100);
        avg_casualties := Num (inject_Z 4 / inject_Z 3) |}.
Proof. vm_compute. reflexivity. Qed.

Example ex_merge_suffixes :
  (λ df, (columns df, values df)) <$>
    Frame.merge Fixture.left_notes Fixture.right_notes "Accident_Index" =
  Ok (["Accident_Index"; "Note_x"; "Note_y"],
      [ [Str "A1"; Str "l1"; Str "r1"]; [Str "A1"; Str "l1"; Str "r3"];
        [Null; Str "l2"; Str "r2"] ]).
Proof. vm_compute. reflexivity. Qed.

Example ex_merge_no_key :
  Frame.merge Fixture.no_fatal Fixture.no_frame "Accident_Index" =
  Raise (KeyError "Accident_Index").
Proof. reflexivity. Qed.

Example ex_year_range :
  values_of ["Accident_Index"; "Year"] <$>
    filtered Fixture.canonical
      {| year_range := (2010, 2010);
         severity := [Str "Fatal"; Str "Serious"; Str "Slight"];
         gender_filter := [Str "Male"; Str "Female"];
         weather := [Str "Clear"; Str "Rain"; Null];
         age_groups := [Str "26 to 35"; Str "16 to 20"; Null] |} =
  Ok [ [Str "A2"; Int 2010]; [Str "A3"; Int 2010] ].
Proof. vm_compute. reflexivity. Qed.

Example ex_only_fatal :
  values_of ["Accident_Index"] <$>
    filtered Fixture.canonical
      {| year_range := (1979, 2018);
         severity := [Str "Fatal"];
         gender_filter := [Str "Male"; Str "Female"];
         weather := [Str "Clear"; Str "Rain"; Null];
         age_groups := [Str "26 to 35"; Str "16 to 20"; Null] |} =
  Ok [ [Str "A1"] ].
Proof. vm_compute. reflexivity. Qed.

Example ex_severity_counts :
  severity_counts Fixture.canonical =
  Ok [ (Str "Fatal", Int 1); (Str "Serious", Int 1); (Str "Slight", Int 1) ].
Proof. vm_compute. reflexivity. Qed.


(** Whether a text is a date depends on the column it stands in: the same
    day-first dates load in a column of day-first dates, and abort the load
    in a column that begins with a date written year first. *)
Example ex_day_first_dates_load :
  values_of ["Accident_Index"; "Year"; "Month"; "Hour"; "Weekday"] <$>
    load_data_guessing Fixture.guess Fixture.accidents_day_first Fixture.bikers =
  Ok [ [Str "A1"; Int 2009; Int 3; Int 8; Str "Monday"];
       [Str "A2"; Int 2010; Int 7; Int 17; Str "Wednesday"];
       [Str "A3"; Int 2010; Int 12; Null; Str "Saturday"] ].
Proof. vm_compute. reflexivity. Qed.

Example ex_mixed_dates_abort :
  load_data_guessing Fixture.guess Fixture.accidents_mixed_dates Fixture.bikers =
  Raise ValueError.
Proof. vm_compute. reflexivity. Qed.

(** An assignment to a column is no operation that leaves the store as it
    was: after [df['Seen'] = ...] the canonical table is another frame. *)
Example ex_setitem_changes_store :
  ¬ Session.unchanged Fixture.session
      (Session.setitem 0 "Seen" [Null; Null; Null] Fixture.session).2.
Proof.
  intros H. specialize (H 0%nat (Session.AFrame Fixture.canonical) eq_refl).
  vm_compute in H. discriminate H.
Qed.

Example ex_filter_twice :
  (Session.filtered 0 Fixture.all_filters Fixture.session).1 = Ok 18%nat ∧
  (Session.filtered 0 Fixture.all_filters
     (Session.filtered 0 Fixture.all_filters Fixture.session).2).1 = Ok 36%nat.
Proof. split; vm_compute; reflexivity. Qed.
(* ===================================================================== *)
(** ** Lemmas on results and series *)
(* ===================================================================== *)

Lemma bind_Ok {A B} (e : Result A) (k : A → Result B) (b : B) :
  e ≫= k = Ok b ↔ ∃ a, e = Ok a ∧ k a = Ok b.
Proof.
  destruct e as [a|x]; simpl; split.
  - intros H. by exists a.
  - by intros (a' & [= <-] & H).
  - discriminate.
  - by intros (a' & [=] & _).
Qed.

Lemma bind_Raise {A B} (e : Result A) (k : A → Result B) (x : Exception) :
  e ≫= k = Raise x ↔ e = Raise x ∨ ∃ a, e = Ok a ∧ k a = Raise x.
Proof.
  destruct e as [a|y]; simpl; split.
  - intros H. right. by exists a.
  - by intros [[=]|(a' & [= <-] & H)].
  - intros [= ->]. by left.
  - by intros [[= ->]|(a' & [=] & _)].
Qed.

Lemma returns_or_raises {A} (r : Result A) : returns r ∨ raises r.
Proof. destruct r as [a|e]; [left; by exists a | right; by exists e]. Qed.

Lemma returns_not_raises {A} (r : Result A) : returns r ↔ ¬ raises r.
Proof.
  destruct r as [a|e]; split.
  - by intros _ [e' [=]].
  - intros _. by exists a.
  - by intros [a' [=]].
  - intros H. destruct H. by exists e.
Qed.

(** Closed decidable facts, by evaluation. *)
Ltac by_compute := refine (bool_decide_unpack _ _); vm_compute; exact I.

Lemma filter_none {A} (P : A → Prop) `{∀ x, Decision (P x)} (l : list A) :
  (∀ x, x ∈ l → ¬ P x) → filter P l = [].
Proof.
  induction l as [|x l IH]; [done|]. intros Hall. rewrite filter_cons.
  rewrite decide_False by (apply Hall; by left).
  apply IH. intros y Hy. apply Hall. by right.
Qed.

Section MapM.
Context {A B : Type} (f : A → Result B) (d : B).

Lemma mapM_result_Ok (l : list A) (l' : list B) :
  mapM_result f l = Ok l' → l' = forced f d <$> l ∧ Forall (λ x, returns (f x)) l.
Proof.
  revert l'. induction l as [|x l IH]; intros l' H; simpl in H.
  - injection H as <-. by split.
  - apply bind_Ok in H as (y & Hy & H).
    apply bind_Ok in H as (ys & Hys & [= <-]).
    destruct (IH _ Hys) as [-> Hall]. split.
    + simpl. f_equal. unfold forced. by rewrite Hy.
    + constructor; [by exists y | done].
Qed.

Lemma mapM_result_returns (l : list A) :
  Forall (λ x, returns (f x)) l → mapM_result f l = Ok (forced f d <$> l).
Proof.
  induction 1 as [|x l [y Hy] _ IH]; simpl; [done|].
  rewrite Hy, IH. simpl. do 2 f_equal. unfold forced. by rewrite Hy.
Qed.

Lemma mapM_result_Raise (l : list A) (e : Exception) :
  mapM_result f l = Raise e → ∃ x, x ∈ l ∧ f x = Raise e.
Proof.
  induction l as [|x l IH]; simpl; [discriminate|]. intros H.
  apply bind_Raise in H as [H|(y & Hy & H)].
  - exists x. split; [left | done].
  - apply bind_Raise in H as [H|(ys & _ & [=])].
    destruct (IH H) as (x' & Hin & Hx'). exists x'. split; [by right | done].
Qed.
End MapM.

(* ===================================================================== *)
(** ** Lemmas on frames *)
(* ===================================================================== *)

Lemma elem_of_add_column c c' cols :
  c' ∈ add_column c cols ↔ c' = c ∨ c' ∈ cols.
Proof.
  unfold add_column. destruct (decide (c ∈ cols)) as [Hc|Hc].
  - split; [by right|]. by intros [->|?].
  - rewrite elem_of_app, list_elem_of_singleton. tauto.
Qed.

Lemma add_column_in c cols : c ∈ cols → add_column c cols = cols.
Proof. intros H. unfold add_column. by rewrite decide_True. Qed.

Lemma getitem_in (df : DataFrame) (c : string) :
  c ∈ columns df → Frame.getitem df c = Ok ((λ r, cell r c) <$> rows df).
Proof. intros H. unfold Frame.getitem. by rewrite decide_True. Qed.

Lemma getitem_notin (df : DataFrame) (c : string) :
  c ∉ columns df → Frame.getitem df c = Raise (KeyError c).
Proof. intros H. unfold Frame.getitem. by rewrite decide_False. Qed.

Lemma setitem_fmap (df : DataFrame) (c : string) (g : gmap string Value → Value) :
  Frame.setitem df c (g <$> rows df) =
    Ok {| columns := add_column c (columns df);
          rows := (λ r, <[c := g r]> r) <$> rows df |}.
Proof.
  unfold Frame.setitem. rewrite decide_True by apply length_fmap.
  by rewrite zip_with_fmap_r, zip_with_diag.
Qed.

Lemma mapM_result_fmap {A B C} (f : B → Result C) (g : A → B) (l : list A) :
  mapM_result f (g <$> l) = mapM_result (f ∘ g) l.
Proof. induction l as [|x l IH]; csimpl; [done|]. by rewrite IH. Qed.

Lemma cell_insert (r : gmap string Value) (c : string) (v : Value) :
  cell (<[c := v]> r) c = v.
Proof. unfold cell. by rewrite lookup_insert_eq. Qed.

Lemma cell_insert_ne (r : gmap string Value) (c c' : string) (v : Value) :
  c ≠ c' → cell (<[c := v]> r) c' = cell r c'.
Proof. intros H. unfold cell. by rewrite lookup_insert_ne. Qed.

Lemma forced_dt_cell (f : Z → Value) (v : Value) :
  forced (Pandas.dt_cell f) Null v = RowSpec.on_datetime f v.
Proof. by destruct v. Qed.

Lemma to_datetime_cell_datetime_or_null parse (v w : Value) :
  Pandas.to_datetime_cell parse v = Ok w → w = Null ∨ ∃ t, w = Datetime t.
Proof.
  destruct v as [|x|z|t]; simpl.
  - intros [= <-]. by left.
  - case_decide; [intros [= <-]; by left|].
    destruct (parse x) as [t|]; [|discriminate]. intros [= <-]. right. by exists t.
  - intros [= <-]. right. by exists z.
  - intros [= <-]. right. by exists t.
Qed.

Lemma dt_cell_returns (f : Z → Value) (v : Value) :
  v = Null ∨ (∃ t, v = Datetime t) → returns (Pandas.dt_cell f v).
Proof. intros [->|[t ->]]; simpl; by eexists. Qed.

Lemma parsed_date_datetime_or_null parse (r : gmap string Value) :
  RowSpec.parsed_date parse r = Null ∨ ∃ t, RowSpec.parsed_date parse r = Datetime t.
Proof.
  unfold RowSpec.parsed_date.
  destruct (Pandas.to_datetime_cell parse (cell r "Date")) as [w|e] eqn:E; simpl.
  - by apply to_datetime_cell_datetime_or_null in E.
  - by left.
Qed.

Lemma parsed_time_datetime_or_null (v : Value) :
  Pandas.to_datetime_HM_coerce_cell v = Null ∨
  ∃ t, Pandas.to_datetime_HM_coerce_cell v = Datetime t.
Proof.
  destruct v as [|x|z|t]; simpl; [by left| |by left|right; by exists t].
  case_decide; [by left|]. destruct (Strptime.strptime_HM x) as [t|]; [right; by exists t|by left].
Qed.

(** One derived column taken from a datetime column through [.dt]. *)
Lemma dt_step {A} (df : DataFrame) (src dst : string) (f : Z → Value)
    (k : DataFrame → Result A) :
  src ∈ columns df →
  Forall (λ r, datetime_or_null (cell r src)) (rows df) →
  (Frame.getitem df src ≫= λ s,
     mapM_result (Pandas.dt_cell f) s ≫= λ s',
       Frame.setitem df dst s' ≫= k) =
  k {| columns := add_column dst (columns df);
       rows := (λ r, <[dst := RowSpec.on_datetime f (cell r src)]> r) <$> rows df |}.
Proof.
  intros Hsrc Hall. rewrite (getitem_in _ _ Hsrc). simpl.
  rewrite mapM_result_fmap, (mapM_result_returns _ Null).
  - simpl. rewrite setitem_fmap. simpl. do 2 f_equal.
    apply list_fmap_ext. intros _ r _. f_equal.
    exact (forced_dt_cell f (cell r src)).
  - eapply Forall_impl; [exact Hall|]. intros r Hr. by apply dt_cell_returns.
Qed.

Lemma dt_step_last (df : DataFrame) (src dst : string) (f : Z → Value) :
  src ∈ columns df →
  Forall (λ r, datetime_or_null (cell r src)) (rows df) →
  (Frame.getitem df src ≫= λ s,
     mapM_result (Pandas.dt_cell f) s ≫= λ s', Frame.setitem df dst s') =
  Ok {| columns := add_column dst (columns df);
        rows := (λ r, <[dst := RowSpec.on_datetime f (cell r src)]> r) <$> rows df |}.
Proof.
  intros Hsrc Hall. rewrite (getitem_in _ _ Hsrc). simpl.
  rewrite mapM_result_fmap, (mapM_result_returns _ Null).
  - simpl. rewrite setitem_fmap. do 2 f_equal.
    apply list_fmap_ext. intros _ r _. f_equal.
    exact (forced_dt_cell f (cell r src)).
  - eapply Forall_impl; [exact Hall|]. intros r Hr. by apply dt_cell_returns.
Qed.

(** The hour column, taken from the coerced time column. *)
Lemma hour_step {A} (df : DataFrame) (src dst : string) (f : Z → Value)
    (k : DataFrame → Result A) :
  src ∈ columns df →
  (Frame.getitem df src ≫= λ s,
     mapM_result (Pandas.dt_cell f) (Pandas.to_datetime_HM_coerce s) ≫= λ s',
       Frame.setitem df dst s' ≫= k) =
  k {| columns := add_column dst (columns df);
       rows := (λ r, <[dst := RowSpec.on_datetime f
                        (Pandas.to_datetime_HM_coerce_cell (cell r src))]> r) <$> rows df |}.
Proof.
  intros Hsrc. rewrite (getitem_in _ _ Hsrc). simpl.
  unfold Pandas.to_datetime_HM_coerce.
  rewrite !mapM_result_fmap, (mapM_result_returns _ Null).
  - simpl. rewrite setitem_fmap. simpl. do 2 f_equal.
    apply list_fmap_ext. intros _ r _. f_equal.
    exact (forced_dt_cell f (Pandas.to_datetime_HM_coerce_cell (cell r src))).
  - apply Forall_forall. intros r _. simpl.
    apply dt_cell_returns, parsed_time_datetime_or_null.
Qed.

Ltac lookups :=
  repeat first
    [ rewrite lookup_insert_eq
    | rewrite lookup_insert_ne by discriminate ].

Ltac cells :=
  repeat first
    [ rewrite cell_insert
    | rewrite cell_insert_ne by discriminate ].

(** The column-at-a-time derivation, evaluated: it raises on a missing
    [Date] or [Time] column and on the first date that does not parse, and
    otherwise rewrites every row by [RowSpec.derive_row]. *)
Lemma derive_fields_eval parse (df : DataFrame) :
  derive_fields parse df =
    if decide ("Date" ∈ columns df) then
      match Pandas.to_datetime parse ((λ r, cell r "Date") <$> rows df) with
      | Raise e => Raise e
      | Ok _ =>
          if decide ("Time" ∈ columns df) then
            Ok {| columns := RowSpec.derived_columns (columns df);
                  rows := RowSpec.derive_row parse <$> rows df |}
          else Raise (KeyError "Time")
      end
    else Raise (KeyError "Date").
Proof.
  unfold derive_fields.
  destruct (decide ("Date" ∈ columns df)) as [HD|HD];
    [rewrite (getitem_in _ _ HD) | by rewrite (getitem_notin _ _ HD)].
  simpl. destruct (Pandas.to_datetime parse _) as [parsed|e] eqn:E; [simpl|done].
  unfold Pandas.to_datetime in E. rewrite mapM_result_fmap in E.
  apply (mapM_result_Ok _ Null) in E as [-> Hall].
  rewrite setitem_fmap. simpl.
  unfold Pandas.dt_year, Pandas.dt_month, Pandas.dt_hour, Pandas.dt_day_name.
  rewrite dt_step; simpl.
  2: { apply elem_of_add_column. by left. }
  2: { apply Forall_fmap, Forall_forall. intros r _. simpl. cells.
       apply (parsed_date_datetime_or_null parse r). }
  rewrite dt_step; simpl.
  2: { rewrite !elem_of_add_column. auto. }
  2: { rewrite <- !list_fmap_compose. apply Forall_fmap, Forall_forall.
       intros r _. simpl. cells. apply (parsed_date_datetime_or_null parse r). }
  destruct (decide ("Time" ∈ columns df)) as [HT|HT].
  2: { rewrite getitem_notin; [done|]. simpl. rewrite !elem_of_add_column.
       intros [?|[?|[?|?]]]; done. }
  rewrite hour_step; simpl.
  2: { rewrite !elem_of_add_column. auto. }
  rewrite dt_step_last; simpl.
  2: { rewrite !elem_of_add_column. auto 6. }
  2: { rewrite <- !list_fmap_compose. apply Forall_fmap, Forall_forall.
       intros r _. simpl. cells. apply (parsed_date_datetime_or_null parse r). }
  f_equal. f_equal.
  - unfold RowSpec.derived_columns. by rewrite (add_column_in "Date").
  - rewrite <- !list_fmap_compose. apply list_fmap_ext. intros _ r _. simpl.
    cells. reflexivity.
Qed.

(* ===================================================================== *)
(** ** Lemmas on the field derivation *)
(* ===================================================================== *)

Lemma to_datetime_cell_raises parse (v : Value) :
  raises (Pandas.to_datetime_cell parse v) ↔ RowSpec.unparseable_date parse v.
Proof.
  split.
  - intros [e He]. destruct v as [|x|z|t]; simpl in He; try discriminate.
    exists x. destruct (decide (x ∈ Pandas.nat_strings)); [discriminate|].
    destruct (parse x); [discriminate|]. done.
  - intros (x & -> & Hx & Hp). exists ValueError. simpl.
    by rewrite decide_False, Hp.
Qed.

Lemma to_datetime_cell_returns parse (v : Value) :
  returns (Pandas.to_datetime_cell parse v) ↔ ¬ RowSpec.unparseable_date parse v.
Proof. by rewrite returns_not_raises, to_datetime_cell_raises. Qed.

Lemma to_datetime_raises parse (rs : list (gmap string Value)) :
  raises (Pandas.to_datetime parse ((λ r, cell r "Date") <$> rs)) ↔
  ∃ r, r ∈ rs ∧ RowSpec.unparseable_date parse (cell r "Date").
Proof.
  unfold Pandas.to_datetime. rewrite mapM_result_fmap. split.
  - intros [e He]. apply mapM_result_Raise in He as (r & Hr & He).
    exists r. split; [done|]. apply to_datetime_cell_raises. by exists e.
  - intros (r & Hr & Hu). apply to_datetime_cell_raises in Hu.
    destruct (returns_or_raises (mapM_result (Pandas.to_datetime_cell parse ∘ λ r, cell r "Date") rs))
      as [[l Hl]|H]; [|done].
    apply (mapM_result_Ok _ Null) in Hl as [_ Hall].
    rewrite Forall_forall in Hall. specialize (Hall r Hr).
    apply returns_not_raises in Hall. by destruct Hall.
Qed.

Lemma derive_fields_Ok parse (df df' : DataFrame) :
  derive_fields parse df = Ok df' ↔
    "Date" ∈ columns df ∧ "Time" ∈ columns df ∧
    (∀ r, r ∈ rows df → ¬ RowSpec.unparseable_date parse (cell r "Date")) ∧
    df' = {| columns := RowSpec.derived_columns (columns df);
             rows := RowSpec.derive_row parse <$> rows df |}.
Proof.
  rewrite derive_fields_eval. split.
  - intros H. case_decide as HD; [|done].
    destruct (Pandas.to_datetime parse _) as [s|e] eqn:E; [|done].
    case_decide as HT; [|done]. injection H as <-. repeat split; try done.
    intros r Hr Hu.
    assert (raises (Pandas.to_datetime parse ((λ r, cell r "Date") <$> rows df))) as [e He].
    { apply to_datetime_raises. by exists r. }
    congruence.
  - intros (HD & HT & Hall & ->). rewrite !decide_True by done.
    destruct (Pandas.to_datetime parse _) as [s|e] eqn:E; [done|].
    assert (raises (Pandas.to_datetime parse ((λ r, cell r "Date") <$> rows df))) as Hr
      by by exists e.
    apply to_datetime_raises in Hr as (r & Hr & Hu). by destruct (Hall r Hr).
Qed.


Lemma load_data_merged parse (accidents bikers merged : DataFrame) :
  Frame.merge accidents bikers "Accident_Index" = Ok merged →
  load_data parse accidents bikers = derive_fields parse merged.
Proof. intros H. unfold load_data. by rewrite H. Qed.

Lemma load_data_Ok parse (accidents bikers df : DataFrame) :
  load_data parse accidents bikers = Ok df →
  ∃ merged, Frame.merge accidents bikers "Accident_Index" = Ok merged ∧
            derive_fields parse merged = Ok df.
Proof. intros H. by apply bind_Ok in H. Qed.

(** The cells of a derived row. *)
Section DerivedCells.
Variable parse : string → option Z.
Implicit Types r : gmap string Value.

Lemma derive_row_Date r :
  cell (RowSpec.derive_row parse r) "Date" = RowSpec.parsed_date parse r.
Proof. unfold RowSpec.derive_row. by cells. Qed.

Lemma derive_row_Year r :
  cell (RowSpec.derive_row parse r) "Year" =
  RowSpec.on_datetime (λ t, Int (Calendar.year t)) (RowSpec.parsed_date parse r).
Proof. unfold RowSpec.derive_row. by cells. Qed.

Lemma derive_row_Month r :
  cell (RowSpec.derive_row parse r) "Month" =
  RowSpec.on_datetime (λ t, Int (Calendar.month t)) (RowSpec.parsed_date parse r).
Proof. unfold RowSpec.derive_row. by cells. Qed.

Lemma derive_row_Hour r :
  cell (RowSpec.derive_row parse r) "Hour" =
  RowSpec.on_datetime (λ t, Int (Calendar.hour t)) (RowSpec.parsed_time r).
Proof. unfold RowSpec.derive_row. by cells. Qed.

Lemma derive_row_Weekday r :
  cell (RowSpec.derive_row parse r) "Weekday" =
  RowSpec.on_datetime (λ t, Str (Calendar.day_name t)) (RowSpec.parsed_date parse r).
Proof. unfold RowSpec.derive_row. by cells. Qed.

Lemma derive_row_other r (c : string) :
  c ∉ ["Date"; "Year"; "Month"; "Hour"; "Weekday"] →
  cell (RowSpec.derive_row parse r) c = cell r c.
Proof.
  intros Hc. unfold RowSpec.derive_row.
  rewrite !cell_insert_ne; [done|..]; intros <-; apply Hc; repeat constructor.
Qed.

Lemma derive_row_idempotent r :
  RowSpec.derive_row parse (RowSpec.derive_row parse r) = RowSpec.derive_row parse r.
Proof.
  assert (RowSpec.parsed_date parse (RowSpec.derive_row parse r) =
          RowSpec.parsed_date parse r) as Hd.
  { unfold RowSpec.parsed_date at 1. rewrite derive_row_Date.
    destruct (parsed_date_datetime_or_null parse r) as [->|[t ->]]; done. }
  assert (RowSpec.parsed_time (RowSpec.derive_row parse r) = RowSpec.parsed_time r) as Ht.
  { unfold RowSpec.parsed_time, RowSpec.derive_row. by cells. }
  unfold RowSpec.derive_row at 1. rewrite Hd, Ht. cbn zeta.
  set (r' := RowSpec.derive_row parse r).
  rewrite (insert_id r' "Date"), (insert_id r' "Year"), (insert_id r' "Month"),
    (insert_id r' "Hour"), (insert_id r' "Weekday");
    [done|unfold r', RowSpec.derive_row; by lookups..].
Qed.
End DerivedCells.

Lemma derived_columns_idempotent (cols : list string) :
  RowSpec.derived_columns (RowSpec.derived_columns cols) = RowSpec.derived_columns cols.
Proof.
  unfold RowSpec.derived_columns at 1.
  set (cols' := RowSpec.derived_columns cols).
  assert (∀ c, c ∈ ["Year"; "Month"; "Hour"; "Weekday"] → c ∈ cols') as Hin.
  { intros c Hc. unfold cols', RowSpec.derived_columns.
    rewrite !elem_of_add_column.
    rewrite !elem_of_cons, elem_of_nil in Hc. tauto. }
  rewrite (add_column_in "Year") by (apply Hin; repeat constructor).
  rewrite (add_column_in "Month") by (apply Hin; repeat constructor).
  rewrite (add_column_in "Hour") by (apply Hin; repeat constructor).
  by rewrite (add_column_in "Weekday") by (apply Hin; repeat constructor).
Qed.

Lemma elem_of_derived_columns (c : string) (cols : list string) :
  c ∈ RowSpec.derived_columns cols ↔
  c ∈ ["Year"; "Month"; "Hour"; "Weekday"] ∨ c ∈ cols.
Proof.
  unfold RowSpec.derived_columns. rewrite !elem_of_add_column.
  rewrite !elem_of_cons, elem_of_nil. tauto.
Qed.

Lemma fmap_pair_determines {A B C D} (f : A → B) (g : A → C) (G : B → C → D)
    (l l' : list A) :
  f <$> l = f <$> l' → g <$> l = g <$> l' →
  (λ x, G (f x) (g x)) <$> l = (λ x, G (f x) (g x)) <$> l'.
Proof.
  revert l'. induction l as [|x l IH]; intros [|x' l']; csimpl; try done.
  intros [= Hf Hfl] [= Hg Hgl]. rewrite Hf, Hg. f_equal. by apply IH.
Qed.

(* ===================================================================== *)
(** ** Lemmas on the join *)
(* ===================================================================== *)

(** No suffixed label is the key of the join. *)
Lemma suffix_x_ne_key (c : string) : c +:+ "_x" ≠ "Accident_Index".
Proof.
  intros H.
  repeat (destruct c as [|? c]; simpl in H; [discriminate|]; injection H as _ H).
  destruct c; discriminate.
Qed.

Lemma suffix_y_ne_key (c : string) : c +:+ "_y" ≠ "Accident_Index".
Proof.
  intros H.
  repeat (destruct c as [|? c]; simpl in H; [discriminate|]; injection H as _ H).
  destruct c; discriminate.
Qed.

Lemma suffixed_x_key (others : list string) (c : string) :
  Frame.suffixed "Accident_Index" others "_x" c = "Accident_Index" ↔ c = "Accident_Index".
Proof.
  unfold Frame.suffixed. split.
  - case_decide as H; [|done]. intros Hc. by apply suffix_x_ne_key in Hc.
  - intros ->. rewrite decide_False; [done|]. by intros [? _].
Qed.

Lemma suffixed_y_key (others : list string) (c : string) :
  Frame.suffixed "Accident_Index" others "_y" c = "Accident_Index" ↔ c = "Accident_Index".
Proof.
  unfold Frame.suffixed. split.
  - case_decide as H; [|done]. intros Hc. by apply suffix_y_ne_key in Hc.
  - intros ->. rewrite decide_False; [done|]. by intros [? _].
Qed.

Lemma NoDup_fmap_inj_on {A B} (f : A → B) (l : list A) (x y : A) :
  NoDup (f <$> l) → x ∈ l → y ∈ l → f x = f y → x = y.
Proof.
  induction l as [|z l IH]; csimpl; [by intros _ ?%elem_of_nil|].
  rewrite NoDup_cons, !elem_of_cons. intros [Hz Hl] [->|Hx] [->|Hy] Hf; try done.
  - destruct Hz. rewrite Hf. by apply list_elem_of_fmap_2.
  - destruct Hz. rewrite <- Hf. by apply list_elem_of_fmap_2.
  - by apply IH.
Qed.

(** Reading a projected row under a label that one column alone maps to. *)
Lemma project_lookup (rename : string → string) (cols : list string)
    (r : gmap string Value) (c : string) :
  c ∈ cols →
  (∀ c', c' ∈ cols → rename c' = rename c → c' = c) →
  Frame.project rename cols r !! rename c = Some (cell r c).
Proof.
  intros Hc Hinj. unfold Frame.project. apply elem_of_list_to_map_1'.
  - intros y Hy. apply list_elem_of_fmap in Hy as (c' & [= Hn ->] & Hc').
    by rewrite (Hinj c' Hc' (eq_sym Hn)).
  - apply list_elem_of_fmap. by exists c.
Qed.

Lemma project_lookup_None (rename : string → string) (cols : list string)
    (r : gmap string Value) (c : string) :
  c ∉ rename <$> cols → Frame.project rename cols r !! c = None.
Proof.
  intros Hc. unfold Frame.project. apply not_elem_of_list_to_map_1.
  by rewrite <- list_fmap_compose.
Qed.

Lemma merge_Ok (left right out : DataFrame) (on : string) :
  Frame.merge left right on = Ok out ↔
    on ∈ columns left ∧ on ∈ columns right ∧
    out = {| columns :=
               (Frame.suffixed on (columns right) "_x" <$> columns left) ++
               (Frame.suffixed on (columns left) "_y" <$> filter (λ c, c ≠ on) (columns right));
             rows :=
               l ← rows left;
               r ← filter (λ r, cell r on = cell l on) (rows right);
               [Frame.project (Frame.suffixed on (columns right) "_x") (columns left) l ∪
                Frame.project (Frame.suffixed on (columns left) "_y")
                  (filter (λ c, c ≠ on) (columns right)) r] |}.
Proof.
  unfold Frame.merge. split.
  - intros H. case_decide; [|done]. case_decide; [|done]. by injection H as <-.
  - intros (Hl & Hr & ->). by rewrite !decide_True.
Qed.

Lemma elem_of_merge_rows (left right : DataFrame) (on : string) (row : gmap string Value) :
  row ∈ (l ← rows left;
         r ← filter (λ r, cell r on = cell l on) (rows right);
         [Frame.project (Frame.suffixed on (columns right) "_x") (columns left) l ∪
          Frame.project (Frame.suffixed on (columns left) "_y")
            (filter (λ c, c ≠ on) (columns right)) r]) ↔
  ∃ l r, l ∈ rows left ∧ r ∈ rows right ∧ cell r on = cell l on ∧
    row = Frame.project (Frame.suffixed on (columns right) "_x") (columns left) l ∪
          Frame.project (Frame.suffixed on (columns left) "_y")
            (filter (λ c, c ≠ on) (columns right)) r.
Proof.
  rewrite list_elem_of_bind. split.
  - intros (l & Hrow & Hl). apply list_elem_of_bind in Hrow as (r & Hrow & Hr).
    apply list_elem_of_filter in Hr as [Hk Hr]. apply list_elem_of_singleton in Hrow.
    by exists l, r.
  - intros (l & r & Hl & Hr & Hk & ->). exists l. split; [|done].
    apply list_elem_of_bind. exists r. split; [by apply list_elem_of_singleton|].
    by apply list_elem_of_filter.
Qed.

Lemma count_key_fmap (f : string → string) (k : string) (cols : list string) :
  (∀ c, f c = k ↔ c = k) →
  length (filter (λ c, c = k) (f <$> cols)) = length (filter (λ c, c = k) cols).
Proof.
  intros Hf. induction cols as [|c cols IH]; csimpl; [done|].
  rewrite !filter_cons. destruct (decide (c = k)) as [Hc|Hc].
  - rewrite decide_True by by apply Hf. simpl. by rewrite IH.
  - rewrite decide_False; [done|]. by rewrite Hf.
Qed.

Lemma count_key_notin (k : string) (cols : list string) :
  k ∉ cols → filter (λ c, c = k) cols = [].
Proof.
  induction cols as [|c cols IH]; [done|].
  rewrite not_elem_of_cons, filter_cons. intros [Hk Hcols].
  rewrite decide_False by done. by apply IH.
Qed.

Lemma count_key_NoDup (k : string) (cols : list string) :
  NoDup cols → k ∈ cols → length (filter (λ c, c = k) cols) = 1%nat.
Proof.
  induction 1 as [|c cols Hc Hnd IH]; [by intros ?%elem_of_nil|].
  rewrite elem_of_cons, filter_cons. intros [->|Hk].
  - rewrite decide_True by done. simpl. by rewrite count_key_notin.
  - rewrite decide_False; [by apply IH|]. by intros ->.
Qed.

(* ===================================================================== *)
(** ** Lemmas on the filter *)
(* ===================================================================== *)

Lemma cmp_cell_returns (test : Z → bool) (v : Value) :
  numeric_or_null v → returns (Pandas.cmp_cell test v).
Proof. destruct v; simpl; intros H; try done; by eexists. Qed.

Lemma select_rows_fmap {A} (m : A → bool) (l : list A) :
  (filter (λ p, p.2 = true) (zip l (m <$> l))).*1 = filter (λ x, m x = true) l.
Proof.
  induction l as [|x l IH]; csimpl; [done|].
  rewrite !filter_cons. simpl. destruct (decide (m x = true)); csimpl; by rewrite IH.
Qed.

Lemma mask_and_fmap {A} (m1 m2 : A → bool) (l : list A) :
  Pandas.mask_and (m1 <$> l) (m2 <$> l) = (λ x, m1 x && m2 x) <$> l.
Proof.
  unfold Pandas.mask_and. by rewrite zip_with_fmap_l, zip_with_fmap_r, zip_with_diag.
Qed.

Lemma getitem_mask_fmap (df : DataFrame) (m : gmap string Value → bool) :
  Frame.getitem_mask df (m <$> rows df) =
    Ok {| columns := columns df; rows := filter (λ r, m r = true) (rows df) |}.
Proof.
  unfold Frame.getitem_mask. rewrite decide_True by apply length_fmap.
  by rewrite select_rows_fmap.
Qed.

Lemma row_mask_passes (f : Filters) (r : gmap string Value) :
  row_mask f r = true ↔ FilterSpec.passes f r.
Proof.
  unfold row_mask, FilterSpec.passes, FilterSpec.year_in_range, forced.
  destruct (cell r "Year") as [|x|y|t]; cbn -[Z.leb];
    rewrite ?andb_true_iff, ?bool_decide_eq_true, ?Z.leb_le;
    intuition discriminate.
Qed.

(** The filter, evaluated: it returns, and keeps the rows that pass, in
    order, under the labels of the frame. *)
Lemma filtered_eval (df : DataFrame) (f : Filters) :
  filterable df →
  filtered df f =
    Ok {| columns := columns df; rows := filter (FilterSpec.passes f) (rows df) |}.
Proof.
  intros (HY & Hnum & Hcols). unfold filtered.
  rewrite !(getitem_in df "Year") by done. simpl.
  unfold Pandas.ge, Pandas.le. rewrite !mapM_result_fmap.
  rewrite (mapM_result_returns _ false), (mapM_result_returns _ false);
    [|eapply Forall_impl; [exact Hnum|]; intros r Hr; by apply cmp_cell_returns..].
  simpl.
  rewrite !getitem_in by (apply Hcols; unfold FilterSpec.filter_columns;
                          rewrite !elem_of_cons; tauto).
  simpl. unfold Pandas.isin. rewrite <- !list_fmap_compose.
  rewrite !mask_and_fmap, getitem_mask_fmap. do 2 f_equal.
  apply list_filter_iff. intros r. apply (row_mask_passes f r).
Qed.

Lemma derive_row_Year_numeric parse (r : gmap string Value) :
  numeric_or_null (cell (RowSpec.derive_row parse r) "Year").
Proof.
  rewrite derive_row_Year.
  destruct (parsed_date_datetime_or_null parse r) as [->|[t ->]]; done.
Qed.

(** A table that [load_data] returned is read by the filter without an
    exception as soon as it carries the four categorical columns. *)
Lemma load_data_filterable parse (accidents bikers df : DataFrame) :
  load_data parse accidents bikers = Ok df →
  (∀ c, c ∈ FilterSpec.filter_columns → c ∈ columns df) →
  filterable df.
Proof.
  intros H Hcols. apply load_data_Ok in H as (merged & _ & H).
  apply derive_fields_Ok in H as (_ & _ & _ & ->). repeat split; [| |done].
  - simpl. apply elem_of_derived_columns. left. repeat constructor.
  - simpl. apply Forall_fmap, Forall_forall. intros r _. apply derive_row_Year_numeric.
Qed.

(* ===================================================================== *)
(** ** Lemmas on counting and reindexing *)
(* ===================================================================== *)

Lemma elem_of_insert_desc (p x : Value * Z) (l : list (Value * Z)) :
  x ∈ Aggregate.insert_desc p l ↔ x = p ∨ x ∈ l.
Proof.
  induction l as [|q l IH]; simpl.
  - rewrite list_elem_of_singleton, elem_of_nil. tauto.
  - case_match; rewrite !elem_of_cons; [tauto|]. rewrite IH. tauto.
Qed.

Lemma elem_of_sort_desc (x : Value * Z) (l : list (Value * Z)) :
  x ∈ foldr Aggregate.insert_desc [] l ↔ x ∈ l.
Proof.
  induction l as [|q l IH]; simpl; [done|].
  rewrite elem_of_insert_desc, IH, elem_of_cons. tauto.
Qed.

Lemma count_into_label (v : Value) (acc : list (Value * Z)) (p : Value * Z) :
  p ∈ Aggregate.count_into v acc → p.1 = v ∨ p.1 ∈ acc.*1.
Proof.
  induction acc as [|[w n] acc IH]; simpl.
  - intros ->%list_elem_of_singleton. by left.
  - case_decide as Hw; rewrite elem_of_cons; csimpl; rewrite elem_of_cons.
    + intros [->|Hp]; [right; by left|]. right. right. by apply list_elem_of_fmap_2.
    + intros [->|Hp]; [right; by left|]. destruct (IH Hp); [by left|right; by right].
Qed.

Lemma counts_label (s : Series) (p : Value * Z) :
  p ∈ Aggregate.counts s → p.1 ∈ s.
Proof.
  unfold Aggregate.counts.
  assert (∀ acc, p ∈ foldl (λ acc v, if isnull v then acc else Aggregate.count_into v acc) acc s →
                 p.1 ∈ acc.*1 ∨ p.1 ∈ s) as H.
  { induction s as [|v s IH]; simpl; intros acc Hp.
    - left. by apply list_elem_of_fmap_2.
    - apply IH in Hp as [Hp|Hp]; [|right; by right].
      destruct (isnull v); [by left|].
      apply list_elem_of_fmap in Hp as (q & -> & Hq).
      apply count_into_label in Hq as [->|Hq]; [right; by left|by left]. }
  intros Hp. by destruct (H [] Hp) as [?%elem_of_nil|?].
Qed.

Lemma value_counts_label (s : Series) (p : Value * Value) :
  p ∈ Aggregate.value_counts s → p.1 ∈ s.
Proof.
  unfold Aggregate.value_counts. intros (q & -> & Hq)%list_elem_of_fmap.
  rewrite elem_of_sort_desc in Hq. simpl. by apply counts_label.
Qed.

(** Reindexing does not fill with zero: a label that does not occur in the
    column is paired with NaN. *)
Lemma reindex_absent_label (s : Series) (labels : list Value) (l : Value) :
  l ∈ labels → l ∉ s →
  (l, Null) ∈ Aggregate.reindex (Aggregate.value_counts s) labels.
Proof.
  intros Hl Hs. unfold Aggregate.reindex. apply list_elem_of_fmap. exists l.
  split; [|done]. f_equal. unfold Aggregate.at_label.
  destruct (list_find _ _) as [[i p]|] eqn:E; [|done].
  apply list_find_Some in E as (Hi & <- & _).
  destruct Hs. eapply value_counts_label, list_elem_of_lookup_2, Hi.
Qed.

(* ===================================================================== *)
(** ** The store of the running script *)
(* ===================================================================== *)

Lemma next_id_alloc (o : Session.Object) (σ : Session.Store) :
  Session.next_id (Session.alloc o σ) = S (Session.next_id σ).
Proof. reflexivity. Qed.

Lemma lookup_alloc_new (o : Session.Object) (σ : Session.Store) :
  Session.objects (Session.alloc o σ) !! Session.next_id σ = Some o.
Proof. unfold Session.alloc. simpl. by rewrite lookup_insert_eq. Qed.

Lemma fresh_later (σ : Session.Store) (n : nat) :
  Session.well_formed σ → (Session.next_id σ ≤ n)%nat → Session.objects σ !! n = None.
Proof.
  intros Hwf Hn. destruct (Session.objects σ !! n) as [o|] eqn:Ho; [|done].
  assert (n < Session.next_id σ)%nat by (apply Hwf; by rewrite Ho). lia.
Qed.

Lemma lookup_alloc_old (o o' : Session.Object) (σ : Session.Store) (l : nat) :
  Session.well_formed σ →
  Session.objects σ !! l = Some o' →
  Session.objects (Session.alloc o σ) !! l = Some o'.
Proof.
  intros Hwf Hl. unfold Session.alloc. simpl. rewrite lookup_insert_ne; [done|].
  intros <-. by rewrite (fresh_later σ _ Hwf) in Hl.
Qed.

Lemma well_formed_alloc (o : Session.Object) (σ : Session.Store) :
  Session.well_formed σ → Session.well_formed (Session.alloc o σ).
Proof.
  intros Hwf l. unfold Session.alloc. simpl. rewrite lookup_insert.
  case_decide as Hd; [lia|]. intros Hl. apply Hwf in Hl. lia.
Qed.

Lemma unchanged_refl (σ : Session.Store) : Session.unchanged σ σ.
Proof. by intros l o. Qed.

Lemma unchanged_trans (σ1 σ2 σ3 : Session.Store) :
  Session.unchanged σ1 σ2 → Session.unchanged σ2 σ3 → Session.unchanged σ1 σ3.
Proof. intros H12 H23 l o Hl. by apply H23, H12. Qed.

Lemma unchanged_alloc (o : Session.Object) (σ : Session.Store) :
  Session.well_formed σ → Session.unchanged σ (Session.alloc o σ).
Proof. intros Hwf l o' Hl. by apply lookup_alloc_old. Qed.

(** What each operation of the filter does to the store. *)
Lemma run_bind {A B} (m : Session.Script A) (k : A → Session.Script B) (σ : Session.Store) :
  (m ≫= k) σ =
  match m σ with
  | (Ok a, σ') => k a σ'
  | (Raise e, σ') => (Raise e, σ')
  end.
Proof. reflexivity. Qed.

Lemma run_getitem (σ : Session.Store) (l : nat) (d : DataFrame) (c : string) :
  Session.objects σ !! l = Some (Session.AFrame d) →
  Session.getitem l c σ =
  match Frame.getitem d c with
  | Ok s => (Ok (Session.next_id σ), Session.alloc (Session.ASeries s) σ)
  | Raise e => (Raise e, σ)
  end.
Proof.
  intros Hl. unfold Session.getitem. rewrite run_bind. unfold Session.frame_at at 1.
  rewrite Hl, run_bind. unfold Session.lift at 1. by destruct (Frame.getitem d c).
Qed.

Lemma run_ge (σ : Session.Store) (l : nat) (s : Series) (x : Z) :
  Session.objects σ !! l = Some (Session.ASeries s) →
  Session.ge l x σ =
  match Pandas.ge s x with
  | Ok m => (Ok (Session.next_id σ), Session.alloc (Session.AMask m) σ)
  | Raise e => (Raise e, σ)
  end.
Proof.
  intros Hl. unfold Session.ge. rewrite run_bind. unfold Session.series_at at 1.
  rewrite Hl, run_bind. unfold Session.lift at 1. by destruct (Pandas.ge s x).
Qed.

Lemma run_le (σ : Session.Store) (l : nat) (s : Series) (x : Z) :
  Session.objects σ !! l = Some (Session.ASeries s) →
  Session.le l x σ =
  match Pandas.le s x with
  | Ok m => (Ok (Session.next_id σ), Session.alloc (Session.AMask m) σ)
  | Raise e => (Raise e, σ)
  end.
Proof.
  intros Hl. unfold Session.le. rewrite run_bind. unfold Session.series_at at 1.
  rewrite Hl, run_bind. unfold Session.lift at 1. by destruct (Pandas.le s x).
Qed.

Lemma run_isin (σ : Session.Store) (l : nat) (s : Series) (vs : list Value) :
  Session.objects σ !! l = Some (Session.ASeries s) →
  Session.isin l vs σ =
  (Ok (Session.next_id σ), Session.alloc (Session.AMask (Pandas.isin s vs)) σ).
Proof.
  intros Hl. unfold Session.isin. rewrite run_bind. unfold Session.series_at at 1.
  by rewrite Hl.
Qed.

Lemma run_mask_and (σ : Session.Store) (l1 l2 : nat) (a b : list bool) :
  Session.objects σ !! l1 = Some (Session.AMask a) →
  Session.objects σ !! l2 = Some (Session.AMask b) →
  Session.mask_and l1 l2 σ =
  (Ok (Session.next_id σ), Session.alloc (Session.AMask (Pandas.mask_and a b)) σ).
Proof.
  intros H1 H2. unfold Session.mask_and. rewrite run_bind. unfold Session.mask_at at 1.
  rewrite H1, run_bind. unfold Session.mask_at at 1. by rewrite H2.
Qed.

Lemma run_getitem_mask (σ : Session.Store) (l lm : nat) (d : DataFrame) (m : list bool) :
  Session.objects σ !! l = Some (Session.AFrame d) →
  Session.objects σ !! lm = Some (Session.AMask m) →
  Session.getitem_mask l lm σ =
  match Frame.getitem_mask d m with
  | Ok out => (Ok (Session.next_id σ), Session.alloc (Session.AFrame out) σ)
  | Raise e => (Raise e, σ)
  end.
Proof.
  intros Hl Hm. unfold Session.getitem_mask. rewrite run_bind. unfold Session.frame_at at 1.
  rewrite Hl, run_bind. unfold Session.mask_at at 1. rewrite Hm, run_bind.
  unfold Session.lift at 1. by destruct (Frame.getitem_mask d m).
Qed.

Lemma run_setitem (σ : Session.Store) (l : nat) (d : DataFrame) (c : string) (s : Series) :
  Session.objects σ !! l = Some (Session.AFrame d) →
  Session.setitem l c s σ =
  match Frame.setitem d c s with
  | Ok d' => (Ok (), {| Session.objects := <[l := Session.AFrame d']> (Session.objects σ);
                        Session.next_id := Session.next_id σ |})
  | Raise e => (Raise e, σ)
  end.
Proof.
  intros Hl. unfold Session.setitem. rewrite run_bind. unfold Session.frame_at at 1.
  rewrite Hl, run_bind. unfold Session.lift at 1. by destruct (Frame.setitem d c s).
Qed.

Lemma store_after_refl (σ : Session.Store) : Session.well_formed σ → store_after σ σ.
Proof. intros Hwf. split; [done|]. split; [done|]. split; [apply unchanged_refl|done]. Qed.

Lemma store_after_alloc (σ0 σ : Session.Store) (o : Session.Object) :
  store_after σ0 σ → store_after σ0 (Session.alloc o σ).
Proof.
  intros (Hwf0 & Hwf & Hun & Hle). split; [done|]. split; [by apply well_formed_alloc|]. split.
  - eapply unchanged_trans; [done|]. by apply unchanged_alloc.
  - rewrite next_id_alloc. lia.
Qed.

Ltac store_lookup :=
  first [ assumption
        | apply lookup_alloc_new
        | apply lookup_alloc_old;
            [repeat apply well_formed_alloc; assumption | store_lookup] ].

(** The operations of lines 71-78 one at a time: each runs in step with
    the computation on values. *)
Lemma refines_getitem (σ0 σ : Session.Store) (l : nat) (d : DataFrame) (c : string)
    (k : nat → Session.Script nat) (kp : Series → Result DataFrame) :
  store_after σ0 σ →
  Session.objects σ !! l = Some (Session.AFrame d) →
  (∀ s, script_refines σ0 (k (Session.next_id σ))
          (Session.alloc (Session.ASeries s) σ) (kp s)) →
  script_refines σ0 (Session.getitem l c ≫= k) σ (Frame.getitem d c ≫= kp).
Proof.
  intros Hσ Hl Hk. unfold script_refines. rewrite run_bind, (run_getitem _ _ d) by done.
  destruct (Frame.getitem d c) as [s|e]; [apply Hk|]. by exists (Raise e), σ.
Qed.

Lemma refines_ge (σ0 σ : Session.Store) (l : nat) (s : Series) (x : Z)
    (k : nat → Session.Script nat) (kp : list bool → Result DataFrame) :
  store_after σ0 σ →
  Session.objects σ !! l = Some (Session.ASeries s) →
  (∀ m, script_refines σ0 (k (Session.next_id σ))
          (Session.alloc (Session.AMask m) σ) (kp m)) →
  script_refines σ0 (Session.ge l x ≫= k) σ (Pandas.ge s x ≫= kp).
Proof.
  intros Hσ Hl Hk. unfold script_refines. rewrite run_bind, (run_ge _ _ s) by done.
  destruct (Pandas.ge s x) as [m|e]; [apply Hk|]. by exists (Raise e), σ.
Qed.

Lemma refines_le (σ0 σ : Session.Store) (l : nat) (s : Series) (x : Z)
    (k : nat → Session.Script nat) (kp : list bool → Result DataFrame) :
  store_after σ0 σ →
  Session.objects σ !! l = Some (Session.ASeries s) →
  (∀ m, script_refines σ0 (k (Session.next_id σ))
          (Session.alloc (Session.AMask m) σ) (kp m)) →
  script_refines σ0 (Session.le l x ≫= k) σ (Pandas.le s x ≫= kp).
Proof.
  intros Hσ Hl Hk. unfold script_refines. rewrite run_bind, (run_le _ _ s) by done.
  destruct (Pandas.le s x) as [m|e]; [apply Hk|]. by exists (Raise e), σ.
Qed.

Lemma refines_isin (σ0 σ : Session.Store) (l : nat) (s : Series) (vs : list Value)
    (k : nat → Session.Script nat) (p : Result DataFrame) :
  Session.objects σ !! l = Some (Session.ASeries s) →
  script_refines σ0 (k (Session.next_id σ))
    (Session.alloc (Session.AMask (Pandas.isin s vs)) σ) p →
  script_refines σ0 (Session.isin l vs ≫= k) σ p.
Proof.
  intros Hl Hk. unfold script_refines. by rewrite run_bind, (run_isin _ _ s).
Qed.

Lemma refines_mask_and (σ0 σ : Session.Store) (l1 l2 : nat) (a b : list bool)
    (k : nat → Session.Script nat) (p : Result DataFrame) :
  Session.objects σ !! l1 = Some (Session.AMask a) →
  Session.objects σ !! l2 = Some (Session.AMask b) →
  script_refines σ0 (k (Session.next_id σ))
    (Session.alloc (Session.AMask (Pandas.mask_and a b)) σ) p →
  script_refines σ0 (Session.mask_and l1 l2 ≫= k) σ p.
Proof.
  intros H1 H2 Hk. unfold script_refines. by rewrite run_bind, (run_mask_and _ _ _ a b).
Qed.

Lemma refines_getitem_mask (σ0 σ : Session.Store) (l lm : nat) (d : DataFrame)
    (m : list bool) :
  store_after σ0 σ →
  Session.objects σ !! l = Some (Session.AFrame d) →
  Session.objects σ !! lm = Some (Session.AMask m) →
  script_refines σ0 (Session.getitem_mask l lm) σ (Frame.getitem_mask d m).
Proof.
  intros Hσ Hl Hm. unfold script_refines. rewrite (run_getitem_mask _ _ _ d m) by done.
  destruct (Frame.getitem_mask d m) as [out|e]; [|by exists (Raise e), σ].
  exists (Ok (Session.next_id σ)), (Session.alloc (Session.AFrame out) σ).
  split; [done|]. split; [by apply store_after_alloc|].
  exists (Session.next_id σ). split; [done|]. split; [|apply lookup_alloc_new].
  destruct Hσ as (Hwf0 & _ & _ & Hle). by apply fresh_later.
Qed.

(** Lines 71-78, run on the frame object at [l], do what [filtered] does
    on the frame that [l] holds. *)
Lemma filtered_refines (l : nat) (f : Filters) (d : DataFrame) (σ : Session.Store) :
  Session.well_formed σ →
  Session.objects σ !! l = Some (Session.AFrame d) →
  script_refines σ (Session.filtered l f) σ (filtered d f).
Proof.
  intros Hwf Hl. pose proof (store_after_refl σ Hwf) as Hσ.
  unfold Session.filtered, filtered.
  apply (refines_getitem _ _ _ d); [done..|]. intros year.
  apply (refines_ge _ _ _ year); [by apply store_after_alloc|store_lookup|]. intros m1.
  apply (refines_getitem _ _ _ d); [by repeat apply store_after_alloc|store_lookup|].
  intros year'.
  apply (refines_le _ _ _ year'); [by repeat apply store_after_alloc|store_lookup|].
  intros m2.
  eapply refines_mask_and; [store_lookup..|].
  apply (refines_getitem _ _ _ d); [by repeat apply store_after_alloc|store_lookup|].
  intros sev.
  eapply refines_isin; [store_lookup|].
  eapply refines_mask_and; [store_lookup..|].
  apply (refines_getitem _ _ _ d); [by repeat apply store_after_alloc|store_lookup|].
  intros gen.
  eapply refines_isin; [store_lookup|].
  eapply refines_mask_and; [store_lookup..|].
  apply (refines_getitem _ _ _ d); [by repeat apply store_after_alloc|store_lookup|].
  intros wea.
  eapply refines_isin; [store_lookup|].
  eapply refines_mask_and; [store_lookup..|].
  apply (refines_getitem _ _ _ d); [by repeat apply store_after_alloc|store_lookup|].
  intros age.
  eapply refines_isin; [store_lookup|].
  eapply refines_mask_and; [store_lookup..|].
  apply refines_getitem_mask; [by repeat apply store_after_alloc|store_lookup..].
Qed.

(* ===================================================================== *)
(** ** The Field Deriver *)
(* ===================================================================== *)

(** C7.  The derivation step run on its own result returns that result
    again: the [Year], [Month], [Hour] and [Weekday] cells (and every other
    cell) are those of the first run.  The derived columns are computed from
    the [Date] and [Time] columns alone: two frames with the same [Date] and
    [Time] columns get the same four derived columns, whatever their other
    columns, previously derived ones included, hold. *)
Theorem derive_fields_idempotent parse (df df1 : DataFrame) :
  derive_fields parse df = Ok df1 →
  derive_fields parse df1 = Ok df1 ∧
  ∀ df' df1',
    Frame.getitem df' "Date" = Frame.getitem df "Date" →
    Frame.getitem df' "Time" = Frame.getitem df "Time" →
    derive_fields parse df' = Ok df1' →
    ∀ c, c ∈ ["Year"; "Month"; "Hour"; "Weekday"] →
      Frame.getitem df1' c = Frame.getitem df1 c.
Proof.
  intros H. apply derive_fields_Ok in H as (HD & HT & Hall & ->). split.
  - apply derive_fields_Ok. simpl. repeat split.
    + apply elem_of_derived_columns. by right.
    + apply elem_of_derived_columns. by right.
    + intros r' Hr' (x & Hx & _).
      apply list_elem_of_fmap in Hr' as (r & -> & Hr).
      rewrite derive_row_Date in Hx.
      destruct (parsed_date_datetime_or_null parse r) as [E|[t E]]; congruence.
    + rewrite derived_columns_idempotent. f_equal.
      rewrite <- list_fmap_compose. apply list_fmap_ext. intros _ r _. simpl.
      by rewrite derive_row_idempotent.
  - intros df' df1' HD' HT' H' c Hc.
    apply derive_fields_Ok in H' as (HD1 & HT1 & _ & ->).
    rewrite !getitem_in in HD', HT' by done. injection HD' as HD'. injection HT' as HT'.
    rewrite !getitem_in by (simpl; apply elem_of_derived_columns; by left).
    simpl. f_equal. rewrite <- !list_fmap_compose.
    rewrite !elem_of_cons, elem_of_nil in Hc.
    destruct Hc as [->|[->|[->|[->|[]]]]].
    + apply (fmap_pair_determines (λ r, cell r "Date") (λ r, cell r "Time")
        (λ d _, RowSpec.on_datetime (λ t, Int (Calendar.year t))
                  (RowSpec.force (Pandas.to_datetime_cell parse d)))) in HT' as Heq;
        [|done].
      etrans; [|etrans; [exact Heq|]]; apply list_fmap_ext; intros _ r _; simpl;
        by rewrite derive_row_Year.
    + apply (fmap_pair_determines (λ r, cell r "Date") (λ r, cell r "Time")
        (λ d _, RowSpec.on_datetime (λ t, Int (Calendar.month t))
                  (RowSpec.force (Pandas.to_datetime_cell parse d)))) in HT' as Heq;
        [|done].
      etrans; [|etrans; [exact Heq|]]; apply list_fmap_ext; intros _ r _; simpl;
        by rewrite derive_row_Month.
    + apply (fmap_pair_determines (λ r, cell r "Date") (λ r, cell r "Time")
        (λ _ t, RowSpec.on_datetime (λ t, Int (Calendar.hour t))
                  (Pandas.to_datetime_HM_coerce_cell t))) in HT' as Heq;
        [|done].
      etrans; [|etrans; [exact Heq|]]; apply list_fmap_ext; intros _ r _; simpl;
        by rewrite derive_row_Hour.
    + apply (fmap_pair_determines (λ r, cell r "Date") (λ r, cell r "Time")
        (λ d _, RowSpec.on_datetime (λ t, Str (Calendar.day_name t))
                  (RowSpec.force (Pandas.to_datetime_cell parse d)))) in HT' as Heq;
        [|done].
      etrans; [|etrans; [exact Heq|]]; apply list_fmap_ext; intros _ r _; simpl;
        by rewrite derive_row_Weekday.
Qed.

Lemma derive_fields_idempotent_witness :
  derive_fields Strptime.iso_date Fixture.canonical = Ok Fixture.canonical.
Proof.
  apply (derive_fields_idempotent Strptime.iso_date Fixture.merged Fixture.canonical).
  vm_compute. reflexivity.
Defined.







(* ===================================================================== *)
(** ** The Joiner *)
(* ===================================================================== *)

(** C5.  Every row of the join comes from a left row and a right row that
    hold its key: the key of an output row is present in both source tables.
    The labels of the output are those of the left frame followed by those
    of the right frame without the key (a label the two share is suffixed),
    so that the key column, single in the left frame, is single in the
    output; and where the output's labels are distinct, the row carries the
    cells of both source rows. *)
Theorem inner_join_correct (accidents bikers out : DataFrame) :
  Frame.merge accidents bikers "Accident_Index" = Ok out →
  let lname := Frame.suffixed "Accident_Index" (columns bikers) "_x" in
  let rname := Frame.suffixed "Accident_Index" (columns accidents) "_y" in
  (∀ row, row ∈ rows out →
     ∃ l r, l ∈ rows accidents ∧ r ∈ rows bikers ∧
       cell l "Accident_Index" = cell row "Accident_Index" ∧
       cell r "Accident_Index" = cell row "Accident_Index" ∧
       (NoDup (columns out) →
          (∀ c, c ∈ columns accidents → cell row (lname c) = cell l c) ∧
          (∀ c, c ∈ columns bikers → c ≠ "Accident_Index" → cell row (rname c) = cell r c))) ∧
  columns out =
    (lname <$> columns accidents) ++
    (rname <$> filter (λ c, c ≠ "Accident_Index") (columns bikers)) ∧
  (NoDup (columns accidents) →
     length (filter (λ c, c = "Accident_Index") (columns out)) = 1%nat).
Proof.
  intros H lname rname. apply merge_Ok in H as (Hl & Hr & ->). simpl.
  fold lname rname. split; [|split; [done|]].
  - intros row Hrow. apply elem_of_merge_rows in Hrow as (l & r & Hlin & Hrin & Hk & ->).
    fold lname rname. exists l, r.
    assert (cell (Frame.project lname (columns accidents) l ∪
                  Frame.project rname (filter (λ c, c ≠ "Accident_Index") (columns bikers)) r)
              "Accident_Index" = cell l "Accident_Index") as Hkey.
    { assert (lname "Accident_Index" = "Accident_Index") as Hn by by apply suffixed_x_key.
      assert (Frame.project lname (columns accidents) l !! lname "Accident_Index" =
              Some (cell l "Accident_Index")) as Hlk.
      { apply project_lookup; [done|]. intros c' _ Hc'. rewrite Hn in Hc'.
        by apply suffixed_x_key in Hc'. }
      rewrite Hn in Hlk. unfold cell at 1.
      by rewrite (lookup_union_Some_l _ _ _ _ Hlk). }
    rewrite Hkey. do 4 (split; [done|]). intros H. split.
    + intros c Hc. unfold cell at 1.
      rewrite (lookup_union_Some_l _ _ _ (cell l c)); [done|].
      apply project_lookup; [done|]. intros c' Hc' Heq.
      apply NoDup_app in H as (Hnd & _ & _).
      by apply (NoDup_fmap_inj_on lname (columns accidents)).
    + intros c Hc Hne. apply NoDup_app in H as (_ & Hdisj & Hnd).
      assert (c ∈ filter (λ c, c ≠ "Accident_Index") (columns bikers)) as Hc'
        by by apply list_elem_of_filter.
      unfold cell at 1. rewrite lookup_union_r.
      * rewrite project_lookup; [done..|]. intros c' Hin Heq.
        by apply (NoDup_fmap_inj_on rname (filter (λ c, c ≠ "Accident_Index") (columns bikers))).
      * apply project_lookup_None. intros Hin. apply (Hdisj _ Hin).
        by apply list_elem_of_fmap_2.
  - intros Hnd. rewrite filter_app, length_app.
    rewrite (count_key_fmap lname) by apply suffixed_x_key.
    rewrite (count_key_NoDup _ _ Hnd Hl).
    rewrite (count_key_notin _ (rname <$> _)); [done|].
    intros Hin. apply list_elem_of_fmap in Hin as (c & Hc & Hin).
    apply list_elem_of_filter in Hin as [Hne _].
    symmetry in Hc. by apply suffixed_y_key in Hc.
Qed.

Lemma inner_join_correct_witness :
  columns Fixture.merged =
    ["Accident_Index"; "Date"; "Time"; "Severity"; "Weather_conditions";
     "Number_of_Casualties"; "Number_of_Vehicles"; "Gender"; "Age_Grp"] ∧
  length (filter (λ c, c = "Accident_Index") (columns Fixture.merged)) = 1%nat ∧
  ∀ row, row ∈ rows Fixture.merged →
    ∃ l r, l ∈ rows Fixture.accidents ∧ r ∈ rows Fixture.bikers ∧
      cell l "Accident_Index" = cell row "Accident_Index" ∧
      cell r "Accident_Index" = cell row "Accident_Index".
Proof.
  destruct (inner_join_correct Fixture.accidents Fixture.bikers Fixture.merged)
    as (Hrows & Hcols & Hkey).
  - vm_compute. reflexivity.
  - split; [vm_compute; reflexivity|]. split.
    + apply Hkey. by_compute.
    + intros row Hrow. destruct (Hrows row Hrow) as (l & r & Hl & Hr & Hkl & Hkr & _).
      by exists l, r.
Defined.

(* ===================================================================== *)
(** ** The Filter Engine *)
(* ===================================================================== *)

(** C1.  On a canonical table (one that [load_data] returned, carrying the
    four categorical columns) the filter returns, for every configuration,
    the rows that pass, in their order: a row is in the output if and only
    if it is a row of the table whose year lies in the inclusive range and
    whose severity, gender, weather and age group are each a member of the
    set selected for it. *)
Theorem filter_conjunction parse (accidents bikers df : DataFrame) (f : Filters) :
  load_data parse accidents bikers = Ok df →
  (∀ c, c ∈ FilterSpec.filter_columns → c ∈ columns df) →
  ∃ out, filtered df f = Ok out ∧
    columns out = columns df ∧
    rows out = filter (FilterSpec.passes f) (rows df) ∧
    ∀ r, r ∈ rows out ↔
      r ∈ rows df ∧
      (∃ y, cell r "Year" = Int y ∧ (year_range f).1 ≤ y ∧ y ≤ (year_range f).2) ∧
      cell r "Severity" ∈ severity f ∧
      cell r "Gender" ∈ gender_filter f ∧
      cell r "Weather_conditions" ∈ weather f ∧
      cell r "Age_Grp" ∈ age_groups f.
Proof.
  intros Hload Hcols.
  pose proof (load_data_filterable _ _ _ _ Hload Hcols) as Hf.
  eexists. split; [by apply filtered_eval|]. simpl. do 2 (split; [done|]).
  intros r. rewrite list_elem_of_filter.
  unfold FilterSpec.passes, FilterSpec.year_in_range.
  destruct (cell r "Year") as [|x|y|t]; [| |split; [|intros (? & (? & [= <-] & ?) & ?)]|];
    try (split; [tauto|intros (_ & (? & [=] & _) & _)]).
  - intros ((? & ?) & ?). split; [done|]. split; [|tauto]. by exists y.
  - tauto.
Qed.

Lemma filter_conjunction_witness :
  ∃ out, filtered Fixture.canonical Fixture.all_filters = Ok out ∧
    values_of ["Accident_Index"; "Year"] out =
      [[Str "A1"; Int 2009]; [Str "A2"; Int 2010]].
Proof.
  destruct (filter_conjunction Strptime.iso_date Fixture.accidents Fixture.bikers
              Fixture.canonical Fixture.all_filters) as (out & Hout & _ & Hrows & _).
  - vm_compute. reflexivity.
  - intros c Hc.
    unfold FilterSpec.filter_columns in Hc. rewrite !elem_of_cons, elem_of_nil in Hc.
    destruct Hc as [->|[->|[->|[->|[]]]]]; by_compute.
  - exists out. split; [exact Hout|].
    unfold values_of. rewrite Hrows. vm_compute. reflexivity.
Defined.

(** C3.  On a canonical table, a configuration in which the set selected
    for one of the four dimensions is empty yields an output without rows,
    whatever the year range and the other three sets are. *)
Theorem empty_selection_empty_result parse (accidents bikers df : DataFrame) (f : Filters) :
  load_data parse accidents bikers = Ok df →
  (∀ c, c ∈ FilterSpec.filter_columns → c ∈ columns df) →
  (∃ dim, dim ∈ FilterSpec.dimensions f ∧ dim.2 = []) →
  ∃ out, filtered df f = Ok out ∧ rows out = [] ∧ len out = 0.
Proof.
  intros Hload Hcols (dim & Hdim & Hempty).
  pose proof (load_data_filterable _ _ _ _ Hload Hcols) as Hf.
  eexists. split; [by apply filtered_eval|].
  assert (filter (FilterSpec.passes f) (rows df) = []) as Hnil.
  { apply filter_none. intros r _ (_ & HS & HG & HW & HA).
    unfold FilterSpec.dimensions in Hdim. rewrite !elem_of_cons, elem_of_nil in Hdim.
    destruct Hdim as [->|[->|[->|[->|[]]]]]; simpl in Hempty;
      rewrite Hempty in *; by eapply elem_of_nil. }
  unfold len. simpl. by rewrite Hnil.
Qed.

Lemma empty_selection_empty_result_witness :
  ∃ out, filtered Fixture.canonical Fixture.no_severity = Ok out ∧
         rows out = [] ∧ len out = 0.
Proof.
  apply (empty_selection_empty_result Strptime.iso_date Fixture.accidents Fixture.bikers).
  - vm_compute. reflexivity.
  - intros c Hc.
    unfold FilterSpec.filter_columns in Hc. rewrite !elem_of_cons, elem_of_nil in Hc.
    destruct Hc as [->|[->|[->|[->|[]]]]]; by_compute.
  - exists ("Severity", []). split; [|reflexivity]. vm_compute. repeat constructor.
Defined.

(** C8.  On a canonical table, a row whose cell in one of the four filtered
    dimensions is null is left out of the output whenever null is not a
    member of the set selected for that dimension; when null is a member,
    the null cell does not exclude the row: it is in the output exactly when
    its year is in range and its other three cells are selected. *)
Theorem null_excluded_unless_selected parse (accidents bikers df : DataFrame) (f : Filters) :
  load_data parse accidents bikers = Ok df →
  (∀ c, c ∈ FilterSpec.filter_columns → c ∈ columns df) →
  ∃ out, filtered df f = Ok out ∧
    ∀ r dim, r ∈ rows df → dim ∈ FilterSpec.dimensions f → cell r dim.1 = Null →
      (Null ∉ dim.2 → r ∉ rows out) ∧
      (Null ∈ dim.2 →
         (r ∈ rows out ↔
            FilterSpec.year_in_range f r ∧
            ∀ d, d ∈ FilterSpec.dimensions f → d.1 ≠ dim.1 → cell r d.1 ∈ d.2)).
Proof.
  intros Hload Hcols.
  pose proof (load_data_filterable _ _ _ _ Hload Hcols) as Hf.
  eexists. split; [by apply filtered_eval|]. simpl.
  intros r dim Hr Hdim Hnull.
  assert (FilterSpec.passes f r ↔
          FilterSpec.year_in_range f r ∧
          ∀ d, d ∈ FilterSpec.dimensions f → cell r d.1 ∈ d.2) as Hpass.
  { unfold FilterSpec.passes, FilterSpec.dimensions. split.
    - intros (HY & HS & HG & HW & HA). split; [done|]. intros d Hd.
      rewrite !elem_of_cons, elem_of_nil in Hd.
      by destruct Hd as [->|[->|[->|[->|[]]]]].
    - intros (HY & Hall). split; [done|].
      repeat split; [apply (Hall ("Severity", severity f))
                    |apply (Hall ("Gender", gender_filter f))
                    |apply (Hall ("Weather_conditions", weather f))
                    |apply (Hall ("Age_Grp", age_groups f))];
        rewrite !elem_of_cons; tauto. }
  rewrite list_elem_of_filter, Hpass. split.
  - intros Hnot ((_ & Hall) & _). apply Hnot. rewrite <- Hnull. by apply Hall.
  - intros Hin. split.
    + intros ((HY & Hall) & _). split; [done|]. intros d Hd _. by apply Hall.
    + intros (HY & Hall). split; [|done]. split; [done|]. intros d Hd.
      destruct (decide (d.1 = dim.1)) as [Heq|Hne]; [|by apply Hall].
      assert (d = dim) as ->.
      { unfold FilterSpec.dimensions in Hd, Hdim.
        rewrite !elem_of_cons, elem_of_nil in Hd, Hdim.
        destruct Hd as [->|[->|[->|[->|[]]]]], Hdim as [->|[->|[->|[->|[]]]]];
          simpl in Heq; done. }
      by rewrite Hnull.
Qed.

Lemma null_excluded_unless_selected_witness :
  (∃ out, filtered Fixture.canonical Fixture.all_filters = Ok out ∧
          values_of ["Accident_Index"; "Weather_conditions"; "Age_Grp"] out =
            [ [Str "A1"; Str "Clear"; Str "26 to 35"];
              [Str "A2"; Str "Rain"; Str "16 to 20"] ]) ∧
  (∃ out, filtered Fixture.canonical Fixture.with_null = Ok out ∧
          values_of ["Accident_Index"; "Weather_conditions"; "Age_Grp"] out =
            [ [Str "A1"; Str "Clear"; Str "26 to 35"];
              [Str "A2"; Str "Rain"; Str "16 to 20"];
              [Str "A3"; Null; Null] ]).
Proof.
  assert (load_data Strptime.iso_date Fixture.accidents Fixture.bikers = Ok Fixture.canonical)
    as Hload by (vm_compute; reflexivity).
  assert (∀ c, c ∈ FilterSpec.filter_columns → c ∈ columns Fixture.canonical) as Hcols.
  { intros c Hc.
    unfold FilterSpec.filter_columns in Hc. rewrite !elem_of_cons, elem_of_nil in Hc.
    destruct Hc as [->|[->|[->|[->|[]]]]]; by_compute. }
  split.
  - destruct (null_excluded_unless_selected Strptime.iso_date Fixture.accidents
                Fixture.bikers Fixture.canonical Fixture.all_filters Hload Hcols)
      as (out & Hout & _).
    exists out. split; [exact Hout|].
    rewrite <- (f_equal (λ x, match x with Ok d => values_of _ d | Raise _ => [] end) Hout).
    vm_compute. reflexivity.
  - destruct (null_excluded_unless_selected Strptime.iso_date Fixture.accidents
                Fixture.bikers Fixture.canonical Fixture.with_null Hload Hcols)
      as (out & Hout & _).
    exists out. split; [exact Hout|].
    rewrite <- (f_equal (λ x, match x with Ok d => values_of _ d | Raise _ => [] end) Hout).
    vm_compute. reflexivity.
Defined.

(* ===================================================================== *)
(** ** Aggregates over the filtered table *)
(* ===================================================================== *)

(** C4, as stated, fails on the code: the mean of the header,
    [avg_casualties], is not reported as an undefined or null value over a
    table without rows; the guard of line 93 reports the number 0. *)
Lemma avg_casualties_of_no_rows_is_zero :
  len Fixture.empty_table = 0 ∧
  avg_casualties <$> header_metrics Fixture.empty_table = Ok (Num 0) ∧
  avg_casualties <$> header_metrics Fixture.empty_table ≠ Ok NaN.
Proof. repeat split; [vm_compute; reflexivity..|vm_compute; discriminate]. Qed.

(** C4, amended.  Over a filtered table without rows (it carries the
    columns of the canonical table) the five metrics of the header are
    defined and nothing raises: the three counts are 0, the fatality rate is
    0 and the average number of casualties is 0 as well, by the guard on the
    number of rows; the means that are taken without that guard, those of
    the casualty metrics, are NaN, and the sum is 0. *)
Theorem metrics_of_no_rows (filtered : DataFrame) :
  rows filtered = [] →
  "Severity" ∈ columns filtered →
  "Number_of_Casualties" ∈ columns filtered →
  "Number_of_Vehicles" ∈ columns filtered →
  header_metrics filtered =
    Ok {| total_accidents := 0; fatal := 0; serious := 0;
          fatality_rate := Num 0; avg_casualties := Num 0 |} ∧
  casualty_metrics filtered =
    Ok {| total_casualties := Num 0; avg_per_accident := NaN;
          max_casualties := NaN; avg_vehicles := NaN |}.
Proof.
  intros Hrows HS HC HV. split.
  - unfold header_metrics, count_severity, len, Frame.getitem_mask.
    rewrite !getitem_in by done. rewrite Hrows. reflexivity.
  - unfold casualty_metrics. rewrite !getitem_in by done. rewrite Hrows. reflexivity.
Qed.

Lemma metrics_of_no_rows_witness :
  header_metrics Fixture.empty_table =
    Ok {| total_accidents := 0; fatal := 0; serious := 0;
          fatality_rate := Num 0; avg_casualties := Num 0 |}.
Proof.
  apply (metrics_of_no_rows Fixture.empty_table).
  - vm_compute. reflexivity.
  - by_compute.
  - by_compute.
  - by_compute.
Defined.

(** The peak hour of the last tab, taken without a guard: over a table
    without rows [idxmax] raises. *)
Lemma peak_hour_of_no_rows (filtered : DataFrame) :
  rows filtered = [] → "Hour" ∈ columns filtered →
  peak_hour filtered = Raise ValueError.
Proof.
  intros Hrows HH. unfold peak_hour. rewrite getitem_in by done. by rewrite Hrows.
Qed.

(** C6.  The code does not fill with zero.  [value_counts().reindex(order)]
    passes no [fill_value]: in a table where no accident was fatal, the
    reindexed counts hold NaN, not 0, under [Fatal]; and in the fixture,
    whose accidents fell on three weekdays, the other four weekdays hold
    NaN. *)
Theorem reindex_leaves_absent_groups_null :
  severity_counts Fixture.no_fatal =
    Ok [ (Str "Fatal", Null); (Str "Serious", Int 1); (Str "Slight", Int 2) ] ∧
  weekday Fixture.canonical =
    Ok [ (Str "Monday", Int 1); (Str "Tuesday", Null); (Str "Wednesday", Int 1);
         (Str "Thursday", Null); (Str "Friday", Null); (Str "Saturday", Int 1);
         (Str "Sunday", Null) ].
Proof. split; vm_compute; reflexivity. Qed.

(* ===================================================================== *)
(** ** Purity of the Filter Engine *)
(* ===================================================================== *)

(** An assignment to a column, by contrast, changes the frame where it is:
    the object at [l] is another frame afterwards, under the same identity.
    Lines 23-27 assign five times; lines 71-78 never do. *)
Lemma setitem_changes_object (l : nat) (c : string) (s : Series)
    (σ : Session.Store) (d d' : DataFrame) :
  Session.objects σ !! l = Some (Session.AFrame d) →
  Frame.setitem d c s = Ok d' →
  ∃ σ', Session.setitem l c s σ = (Ok (), σ') ∧
        Session.objects σ' !! l = Some (Session.AFrame d') ∧
        Session.next_id σ' = Session.next_id σ.
Proof.
  intros Hl Hd. rewrite (run_setitem _ _ d) by done. rewrite Hd.
  eexists. split; [reflexivity|]. simpl. by rewrite lookup_insert_eq.
Qed.

(** The frame that the filter returns shares nothing with the canonical
    table: an assignment to a column of the one leaves the other as it
    is. *)
Lemma setitem_elsewhere (l l1 : nat) (c : string) (s : Series)
    (σ σ' : Session.Store) (r : Result ()) (o : Session.Object) :
  l ≠ l1 →
  Session.objects σ !! l = Some o →
  Session.setitem l1 c s σ = (r, σ') →
  Session.objects σ' !! l = Some o.
Proof.
  intros Hne Hl H. unfold Session.setitem in H. rewrite run_bind in H.
  unfold Session.frame_at at 1 in H.
  destruct (Session.objects σ !! l1) as [[d| |]|]; try (by injection H as _ <-).
  rewrite run_bind in H. unfold Session.lift at 1 in H.
  destruct (Frame.setitem d c s) as [d'|e]; [|by injection H as _ <-].
  unfold Session.overwrite in H. injection H as _ <-. simpl.
  by rewrite lookup_insert_ne.
Qed.

(** C9.  Lines 71-78, run operation by operation on the canonical table
    in a store of objects, change no object that was there: the canonical
    table is after the call what it was before, whether the filter returns
    or raises.  The frame it returns is a new object, other than the
    canonical table, and holds what [filtered] computes from the content
    of the table and the configuration alone.  A second call with the same
    table and the same configuration, run in the store the first call left,
    again changes nothing, and returns another new object that holds an
    equal frame, or raises the same exception. *)
Theorem filter_is_pure (l : nat) (f : Filters) (d : DataFrame) (σ : Session.Store) :
  Session.well_formed σ →
  Session.objects σ !! l = Some (Session.AFrame d) →
  ∃ r1 σ1 r2 σ2,
    Session.filtered l f σ = (r1, σ1) ∧
    Session.filtered l f σ1 = (r2, σ2) ∧
    Session.unchanged σ σ1 ∧
    Session.unchanged σ1 σ2 ∧
    Session.objects σ1 !! l = Some (Session.AFrame d) ∧
    Session.objects σ2 !! l = Some (Session.AFrame d) ∧
    match filtered d f with
    | Ok out =>
        ∃ l1 l2, r1 = Ok l1 ∧ r2 = Ok l2 ∧
          Session.objects σ !! l1 = None ∧
          Session.objects σ1 !! l2 = None ∧
          l1 ≠ l ∧ l2 ≠ l ∧ l1 ≠ l2 ∧
          Session.objects σ2 !! l1 = Some (Session.AFrame out) ∧
          Session.objects σ2 !! l2 = Some (Session.AFrame out)
    | Raise e => r1 = Raise e ∧ r2 = Raise e
    end.
Proof.
  intros Hwf Hl.
  destruct (filtered_refines l f d σ Hwf Hl) as (r1 & σ1 & Hrun1 & Hσ1 & Hr1).
  destruct Hσ1 as (_ & Hwf1 & Hun1 & _).
  pose proof (Hun1 _ _ Hl) as Hl1.
  destruct (filtered_refines l f d σ1 Hwf1 Hl1) as (r2 & σ2 & Hrun2 & Hσ2 & Hr2).
  destruct Hσ2 as (_ & Hwf2 & Hun2 & _).
  pose proof (Hun2 _ _ Hl1) as Hl2.
  exists r1, σ1, r2, σ2. do 6 (split; [assumption|]).
  destruct (filtered d f) as [out|e]; [|by split].
  destruct Hr1 as (l1 & -> & Hnew1 & Hout1). destruct Hr2 as (l2 & -> & Hnew2 & Hout2).
  exists l1, l2. do 4 (split; [done|]).
  split; [by intros ->; rewrite Hl in Hnew1|].
  split; [by intros ->; rewrite Hl1 in Hnew2|].
  split; [by intros ->; rewrite Hout1 in Hnew2|].
  split; [by apply Hun2|done].
Qed.

Lemma filter_is_pure_witness :
  ∃ r1 σ1 r2 σ2,
    Session.filtered 0 Fixture.all_filters Fixture.session = (r1, σ1) ∧
    Session.filtered 0 Fixture.all_filters σ1 = (r2, σ2) ∧
    Session.objects σ1 !! 0%nat = Some (Session.AFrame Fixture.canonical) ∧
    Session.objects σ2 !! 0%nat = Some (Session.AFrame Fixture.canonical).
Proof.
  destruct (filter_is_pure 0 Fixture.all_filters Fixture.canonical Fixture.session)
    as (r1 & σ1 & r2 & σ2 & Hrun1 & Hrun2 & _ & _ & Hl1 & Hl2 & _).
  - intros l [o Hl]. unfold Fixture.session in *. simpl in *.
    destruct l as [|l]; [lia|]. by rewrite lookup_singleton_ne in Hl.
  - unfold Fixture.session. simpl. apply lookup_singleton_eq.
  - exists r1, σ1, r2, σ2.
    split; [exact Hrun1|]. split; [exact Hrun2|]. split; [exact Hl1|exact Hl2].
Defined.

(* ===================================================================== *)
(** ** Lemmas on counting, sorting and grouping *)
(* ===================================================================== *)

Lemma occurrences_cons (v w : Value) (s : Series) :
  occurrences v (w :: s) = (if decide (w = v) then 1 else 0) + occurrences v s.
Proof.
  unfold occurrences. rewrite filter_cons. case_decide; simpl length; lia.
Qed.

Lemma occurrences_nonneg (v : Value) (s : Series) : 0 ≤ occurrences v s.
Proof. unfold occurrences. lia. Qed.

Lemma occurrences_pos (v : Value) (s : Series) : 0 < occurrences v s ↔ v ∈ s.
Proof.
  induction s as [|w s IH]; [rewrite elem_of_nil; unfold occurrences; simpl; lia|].
  rewrite occurrences_cons, elem_of_cons. pose proof (occurrences_nonneg v s).
  case_decide; subst; [intuition lia|]. rewrite <- IH. intuition (try lia; congruence).
Qed.

Lemma lookup_count_into_eq (v : Value) (acc : list (Value * Z)) :
  lookup_count v (Aggregate.count_into v acc) = Some (default 0 (lookup_count v acc) + 1).
Proof.
  induction acc as [|[w n] acc IH]; simpl.
  - by rewrite decide_True.
  - destruct (decide (w = v)) as [->|Hne]; simpl.
    + by rewrite decide_True.
    + by rewrite decide_False.
Qed.

Lemma lookup_count_into_ne (v w : Value) (acc : list (Value * Z)) :
  w ≠ v → lookup_count w (Aggregate.count_into v acc) = lookup_count w acc.
Proof.
  intros Hne. induction acc as [|[u n] acc IH]; simpl.
  - by rewrite decide_False.
  - destruct (decide (u = v)) as [->|Hu]; simpl.
    + by rewrite !decide_False by congruence.
    + by rewrite IH.
Qed.

Lemma count_into_labels (v : Value) (acc : list (Value * Z)) :
  (Aggregate.count_into v acc).*1 = if decide (v ∈ acc.*1) then acc.*1 else acc.*1 ++ [v].
Proof.
  induction acc as [|[w n] acc IH].
  - rewrite decide_False; [done|]. apply not_elem_of_nil.
  - cbn [Aggregate.count_into]. rewrite (fmap_cons fst (w, n) acc). cbn [fst].
    destruct (decide (w = v)) as [->|Hne].
    + rewrite fmap_cons. cbn [fst]. rewrite decide_True; [done|]. by left.
    + rewrite fmap_cons, IH. cbn [fst]. destruct (decide (v ∈ acc.*1)) as [Hin|Hin].
      * rewrite decide_True; [done|]. by right.
      * rewrite decide_False; [done|]. rewrite not_elem_of_cons. split; [congruence|done].
Qed.

Lemma count_into_NoDup (v : Value) (acc : list (Value * Z)) :
  NoDup acc.*1 → NoDup (Aggregate.count_into v acc).*1.
Proof.
  intros H. rewrite count_into_labels. case_decide as Hin; [done|].
  apply NoDup_app. split; [done|]. split; [|apply NoDup_singleton].
  intros x Hx ->%list_elem_of_singleton. done.
Qed.

Lemma lookup_count_elem_of (v : Value) (n : Z) (acc : list (Value * Z)) :
  NoDup acc.*1 → (v, n) ∈ acc ↔ lookup_count v acc = Some n.
Proof.
  induction acc as [|[w m] acc IH]; csimpl; [rewrite elem_of_nil; naive_solver|].
  rewrite NoDup_cons, elem_of_cons. intros [Hw Hnd].
  destruct (decide (w = v)) as [->|Hne].
  - split; [|intros [= ->]; by left].
    intros [[= ->]|Hin]; [done|]. destruct Hw.
    apply list_elem_of_fmap. by exists (v, n).
  - rewrite <- (IH Hnd). split; [intros [[= ? ?]|?]; [congruence|done]|by right].
Qed.

Lemma counts_foldl_lookup (v : Value) (s : Series) (acc : list (Value * Z)) :
  v ≠ Null →
  lookup_count v (foldl count_step acc s) =
    if decide (occurrences v s = 0) then lookup_count v acc
    else Some (default 0 (lookup_count v acc) + occurrences v s).
Proof.
  intros Hv. revert acc. induction s as [|w s IH]; intros acc; simpl; [done|].
  rewrite IH, occurrences_cons. pose proof (occurrences_nonneg v s) as Hs.
  unfold count_step.
  destruct (decide (w = v)) as [->|Hne].
  - destruct v; [done|..]; simpl; rewrite lookup_count_into_eq; simpl;
      repeat case_decide; try lia; f_equal; lia.
  - destruct (isnull w); [repeat case_decide; try lia; done|].
    rewrite lookup_count_into_ne by done. repeat case_decide; try lia; done.
Qed.

Lemma counts_foldl_null (s : Series) (acc : list (Value * Z)) :
  lookup_count Null (foldl count_step acc s) = lookup_count Null acc.
Proof.
  revert acc. induction s as [|w s IH]; intros acc; simpl; [done|].
  rewrite IH. unfold count_step. destruct w; simpl; try done;
    by rewrite lookup_count_into_ne.
Qed.

Lemma counts_foldl_NoDup (s : Series) (acc : list (Value * Z)) :
  NoDup acc.*1 → NoDup (foldl count_step acc s).*1.
Proof.
  revert acc. induction s as [|w s IH]; intros acc H; simpl; [done|].
  apply IH. unfold count_step. destruct (isnull w); [done|]. by apply count_into_NoDup.
Qed.

Lemma counts_NoDup (s : Series) : NoDup (Aggregate.counts s).*1.
Proof. apply (counts_foldl_NoDup s []). constructor. Qed.

(** What [counts] holds: each non-null value of the column, once, with the
    number of cells that hold it. *)
Lemma counts_spec (s : Series) (v : Value) (n : Z) :
  (v, n) ∈ Aggregate.counts s ↔ v ≠ Null ∧ v ∈ s ∧ n = occurrences v s.
Proof.
  rewrite (lookup_count_elem_of _ _ _ (counts_NoDup s)).
  unfold Aggregate.counts. change (λ acc v, if isnull v then acc else Aggregate.count_into v acc)
    with count_step.
  destruct (decide (v = Null)) as [->|Hv].
  - rewrite counts_foldl_null. simpl. split; [discriminate|]. by intros (H & _).
  - rewrite counts_foldl_lookup by done. simpl. rewrite <- occurrences_pos.
    pose proof (occurrences_nonneg v s).
    destruct (decide (occurrences v s = 0)) as [E|E].
    + split; [discriminate|]. intros (_ & ? & _). lia.
    + split.
      * intros [= <-]. repeat split; try done; lia.
      * intros (_ & _ & ->). f_equal; lia.
Qed.

Lemma count_into_total (v : Value) (acc : list (Value * Z)) :
  Aggregate.total (Aggregate.count_into v acc).*2 = Aggregate.total acc.*2 + 1.
Proof.
  unfold Aggregate.total. induction acc as [|[w n] acc IH]; csimpl; [done|].
  case_decide; csimpl; lia.
Qed.

Lemma dropna_cons (w : Value) (s : Series) :
  Column.dropna (w :: s) = if isnull w then Column.dropna s else w :: Column.dropna s.
Proof.
  unfold Column.dropna. rewrite filter_cons.
  destruct w;
    [rewrite decide_False by (intros H; by apply H)|rewrite decide_True by done..];
    done.
Qed.

Lemma counts_total (s : Series) :
  Aggregate.total (Aggregate.counts s).*2 = Z.of_nat (length (Column.dropna s)).
Proof.
  unfold Aggregate.counts.
  change (λ acc v, if isnull v then acc else Aggregate.count_into v acc) with count_step.
  assert (∀ acc, Aggregate.total (foldl count_step acc s).*2 =
                 Aggregate.total acc.*2 + Z.of_nat (length (Column.dropna s))) as H.
  { induction s as [|w s IH]; intros acc; [simpl; lia|].
    cbn [foldl]. rewrite IH, dropna_cons. unfold count_step.
    destruct (isnull w); [done|]. rewrite count_into_total. simpl length. lia. }
  rewrite H. unfold Aggregate.total. simpl. lia.
Qed.

Lemma sorted_by_app {A} (R : A → A → Prop) (l1 l2 : list A) :
  sorted_by R (l1 ++ l2) → ∀ x y, x ∈ l1 → y ∈ l2 → R x y.
Proof.
  induction l1 as [|a l1 IH]; simpl; [by intros _ x y ?%elem_of_nil|].
  intros [Ha Hs] x y Hx Hy. apply elem_of_cons in Hx as [->|Hx].
  - rewrite Forall_forall in Ha. apply Ha. apply elem_of_app. by right.
  - by apply IH.
Qed.

Lemma insert_desc_perm (p : Value * Z) (l : list (Value * Z)) :
  Aggregate.insert_desc p l ≡ₚ p :: l.
Proof.
  induction l as [|q l IH]; simpl; [done|]. case_match; [done|].
  rewrite IH. apply Permutation_swap.
Qed.

Lemma sort_desc_perm (l : list (Value * Z)) :
  foldr Aggregate.insert_desc [] l ≡ₚ l.
Proof.
  induction l as [|q l IH]; simpl; [done|]. by rewrite insert_desc_perm, IH.
Qed.

Lemma insert_desc_sorted (p : Value * Z) (l : list (Value * Z)) :
  sorted_by count_ge l → sorted_by count_ge (Aggregate.insert_desc p l).
Proof.
  induction l as [|q l IH]; simpl; [done|]. intros [Hq Hs].
  destruct (q.2 <? p.2) eqn:E; [apply Z.ltb_lt in E|apply Z.ltb_ge in E]; simpl.
  - split; [|done]. constructor; [unfold count_ge; lia|].
    eapply Forall_impl; [exact Hq|]. unfold count_ge. intros; lia.
  - split; [|by apply IH]. rewrite insert_desc_perm. by constructor.
Qed.

Lemma sort_desc_sorted (l : list (Value * Z)) :
  sorted_by count_ge (foldr Aggregate.insert_desc [] l).
Proof. induction l as [|q l IH]; simpl; [done|]. by apply insert_desc_sorted. Qed.

Lemma insert_by_hour_perm (p : Value * Z) (l : list (Value * Z)) :
  insert_by_hour p l ≡ₚ p :: l.
Proof.
  induction l as [|q l IH]; simpl; [done|]. case_match; [done|].
  rewrite IH. apply Permutation_swap.
Qed.

Lemma groupby_size_perm (s : Series) :
  Column.groupby_size s ≡ₚ Aggregate.counts s.
Proof.
  unfold Column.groupby_size. induction (Aggregate.counts s) as [|q l IH]; simpl; [done|].
  by rewrite insert_by_hour_perm, IH.
Qed.

Lemma insert_by_hour_sorted (p : Value * Z) (l : list (Value * Z)) :
  sorted_by key_le l → sorted_by key_le (insert_by_hour p l).
Proof.
  induction l as [|q l IH]; simpl; [done|]. intros [Hq Hs].
  fold (key_of p.1) (key_of q.1).
  destruct (key_of p.1 <? key_of q.1) eqn:E; [apply Z.ltb_lt in E|apply Z.ltb_ge in E]; simpl.
  - split; [|done]. constructor; [unfold key_le; lia|].
    eapply Forall_impl; [exact Hq|]. unfold key_le. intros; lia.
  - split; [|by apply IH]. rewrite insert_by_hour_perm. by constructor.
Qed.

Lemma groupby_size_sorted (s : Series) : sorted_by key_le (Column.groupby_size s).
Proof.
  unfold Column.groupby_size. induction (Aggregate.counts s) as [|q l IH]; simpl; [done|].
  by apply insert_by_hour_sorted.
Qed.

Lemma total_perm (l l' : list Z) : l ≡ₚ l' → Aggregate.total l = Aggregate.total l'.
Proof.
  unfold Aggregate.total. induction 1; simpl; lia.
Qed.

(** The first largest entry. *)
Lemma idxmax_from_spec (best : Value * Z) (l : list (Value * Z)) :
  ∃ l1 l2 n,
    best :: l = l1 ++ (Aggregate.idxmax_from best l, n) :: l2 ∧
    (∀ p, p ∈ l1 → p.2 < n) ∧ (∀ p, p ∈ l2 → p.2 ≤ n).
Proof.
  revert best. induction l as [|p l IH]; intros best; simpl.
  - exists [], [], best.2. destruct best. split; [done|]. split; by intros ? ?%elem_of_nil.
  - destruct (best.2 <? p.2) eqn:E; [apply Z.ltb_lt in E|apply Z.ltb_ge in E].
    + destruct (IH p) as (l1 & l2 & n & Heq & H1 & H2).
      exists (best :: l1), l2, n. split; [by rewrite Heq|]. split; [|done].
      intros q [->|Hq]%elem_of_cons; [|by apply H1].
      destruct l1 as [|a l1]; simpl in Heq; injection Heq as Hp Heq.
      * rewrite Hp in E. simpl in E. lia.
      * specialize (H1 a ltac:(by left)). rewrite Hp in E. lia.
    + destruct (IH best) as (l1 & l2 & n & Heq & H1 & H2).
      destruct l1 as [|a l1]; simpl in Heq; injection Heq as Hb Heq.
      * subst l2. exists [], (p :: l), n. simpl. rewrite <- Hb. split; [done|].
        split; [by intros ? ?%elem_of_nil|].
        intros q [->|Hq]%elem_of_cons; [|by apply H2]. rewrite Hb in E. simpl in E. lia.
      * subst a. exists (best :: p :: l1), l2, n. simpl.
        split; [do 2 f_equal; exact Heq|].
        split; [|done]. intros q [->|[->|Hq]%elem_of_cons]%elem_of_cons.
        -- apply H1. by left.
        -- specialize (H1 best ltac:(by left)). lia.
        -- apply H1. by right.
Qed.

Lemma value_counts_spec (s : Series) (v x : Value) :
  (v, x) ∈ Aggregate.value_counts s ↔ v ≠ Null ∧ v ∈ s ∧ x = Int (occurrences v s).
Proof.
  unfold Aggregate.value_counts. rewrite list_elem_of_fmap. split.
  - intros ([w n] & [= -> ->] & Hin). rewrite elem_of_sort_desc in Hin.
    apply counts_spec in Hin as (? & ? & ->). done.
  - intros (Hv & Hin & ->). exists (v, occurrences v s). split; [done|].
    rewrite elem_of_sort_desc. by apply counts_spec.
Qed.

Lemma value_counts_labels (s : Series) :
  (Aggregate.value_counts s).*1 = (foldr Aggregate.insert_desc [] (Aggregate.counts s)).*1.
Proof.
  unfold Aggregate.value_counts. rewrite <- list_fmap_compose. by apply list_fmap_ext.
Qed.

Lemma value_counts_NoDup (s : Series) : NoDup (Aggregate.value_counts s).*1.
Proof.
  rewrite value_counts_labels, sort_desc_perm. apply counts_NoDup.
Qed.

Lemma at_label_elem_of (s : Aggregate.Indexed) (l x : Value) :
  NoDup s.*1 → (l, x) ∈ s → Aggregate.at_label s l = Some x.
Proof.
  unfold Aggregate.at_label. induction s as [|[w y] s IH]; [by intros _ ?%elem_of_nil|].
  rewrite fmap_cons, NoDup_cons, elem_of_cons. cbn [fst]. intros [Hw Hnd] Hin.
  simpl. destruct (decide (w = l)) as [->|Hne].
  - simpl. destruct Hin as [[= ->]|Hin]; [done|]. destruct Hw.
    apply list_elem_of_fmap. by exists (l, x).
  - destruct Hin as [[= ? ?]|Hin]; [congruence|]. specialize (IH Hnd Hin).
    destruct (list_find _ s) as [[i p]|]; simpl in *; [done|done].
Qed.

Lemma at_label_None (s : Aggregate.Indexed) (l : Value) :
  l ∉ s.*1 → Aggregate.at_label s l = None.
Proof.
  unfold Aggregate.at_label. intros Hl.
  destruct (list_find _ s) as [[i p]|] eqn:E; [|done].
  apply list_find_Some in E as (Hi & <- & _). destruct Hl.
  apply list_elem_of_fmap. exists p. split; [done|]. by eapply list_elem_of_lookup_2.
Qed.

Lemma reindex_value_counts (s : Series) (labels : list Value) :
  Aggregate.reindex (Aggregate.value_counts s) labels =
    (λ l, (l, shown_count s l)) <$> labels.
Proof.
  unfold Aggregate.reindex. apply list_fmap_ext. intros _ l _. f_equal.
  unfold shown_count. destruct (decide (l ≠ Null ∧ l ∈ s)) as [[Hl Hin]|Hn].
  - rewrite (at_label_elem_of _ l (Int (occurrences l s))); [done|apply value_counts_NoDup|].
    by apply value_counts_spec.
  - rewrite at_label_None; [done|]. intros Hin.
    apply list_elem_of_fmap in Hin as ([w x] & -> & Hin).
    apply value_counts_spec in Hin as (? & ? & _). by apply Hn.
Qed.

(** Summing the counts of the entries that a test on the label selects
    counts the cells that the test selects. *)
Lemma count_into_total_filter (P : Value → bool) (v : Value) (acc : list (Value * Z)) :
  Aggregate.total (filter (λ p, P p.1 = true) (Aggregate.count_into v acc)).*2 =
  Aggregate.total (filter (λ p, P p.1 = true) acc).*2 + (if P v then 1 else 0).
Proof.
  unfold Aggregate.total. induction acc as [|[w n] acc IH]; cbn [Aggregate.count_into].
  - rewrite filter_cons. cbn [fst]. destruct (P v) eqn:E.
    + rewrite decide_True by done. simpl. lia.
    + rewrite decide_False by congruence. simpl. lia.
  - destruct (decide (w = v)) as [->|Hne]; rewrite !filter_cons; cbn [fst].
    + destruct (P v) eqn:E.
      * rewrite !decide_True by done. csimpl. lia.
      * rewrite !decide_False by congruence. lia.
    + destruct (decide (P w = true)); csimpl; lia.
Qed.

Lemma counts_total_filter (P : Value → bool) (s : Series) :
  P Null = false →
  Aggregate.total (filter (λ p, P p.1 = true) (Aggregate.counts s)).*2 =
  Z.of_nat (length (filter (λ v, P v = true) s)).
Proof.
  intros HP. unfold Aggregate.counts.
  change (λ acc v, if isnull v then acc else Aggregate.count_into v acc) with count_step.
  assert (∀ acc, Aggregate.total (filter (λ p, P p.1 = true) (foldl count_step acc s)).*2 =
                 Aggregate.total (filter (λ p, P p.1 = true) acc).*2 +
                 Z.of_nat (length (filter (λ v, P v = true) s))) as H.
  { induction s as [|w s IH]; intros acc; [simpl; lia|].
    cbn [foldl]. rewrite IH, filter_cons. unfold count_step.
    destruct w; cbn [isnull];
      [rewrite decide_False by congruence; lia|rewrite count_into_total_filter..];
      case_decide as E; [rewrite E|apply not_true_is_false in E; rewrite E| | | |];
      try (rewrite E); try (apply not_true_is_false in E; rewrite E); simpl length; lia. }
  rewrite H. unfold Aggregate.total. simpl. lia.
Qed.

Lemma getitem_Ok (df : DataFrame) (c : string) (s : Series) :
  Frame.getitem df c = Ok s ↔ c ∈ columns df ∧ s = (λ r, cell r c) <$> rows df.
Proof.
  unfold Frame.getitem. case_decide; split.
  - by intros [= <-].
  - by intros [_ ->].
  - discriminate.
  - by intros [? _].
Qed.

Lemma cmp_cell_numeric (test : Z → bool) (v : Value) :
  returns (Pandas.cmp_cell test v) → numeric_or_null v.
Proof. destruct v; simpl; try done; by intros [? [=]]. Qed.

(** Where the filter returns, the frame was one it can read. *)
Lemma filtered_Ok_filterable (df out : DataFrame) (f : Filters) :
  filtered df f = Ok out → filterable df.
Proof.
  intros H. unfold filtered in H.
  apply bind_Ok in H as (year & Hy & H). apply getitem_Ok in Hy as [HY ->].
  apply bind_Ok in H as (m1 & Hm1 & H).
  apply bind_Ok in H as (year' & _ & H). apply bind_Ok in H as (m2 & _ & H).
  apply bind_Ok in H as (sev & [HS _]%getitem_Ok & H).
  apply bind_Ok in H as (gen & [HG _]%getitem_Ok & H).
  apply bind_Ok in H as (wea & [HW _]%getitem_Ok & H).
  apply bind_Ok in H as (age & [HA _]%getitem_Ok & H).
  split; [done|]. split.
  - unfold Pandas.ge in Hm1. rewrite mapM_result_fmap in Hm1.
    apply (mapM_result_Ok _ false) in Hm1 as [_ Hall].
    eapply Forall_impl; [exact Hall|]. intros r Hr. exact (cmp_cell_numeric _ _ Hr).
  - intros c Hc. unfold FilterSpec.filter_columns in Hc.
    rewrite !elem_of_cons, elem_of_nil in Hc.
    by destruct Hc as [->|[->|[->|[->|[]]]]].
Qed.

Lemma filtered_Ok_rows (df out : DataFrame) (f : Filters) :
  filtered df f = Ok out →
  columns out = columns df ∧ rows out = filter (FilterSpec.passes f) (rows df).
Proof.
  intros H. pose proof (filtered_Ok_filterable _ _ _ H) as Hf.
  rewrite (filtered_eval _ _ Hf) in H. by injection H as <-.
Qed.

Lemma sum_indicator (w : Value) (L : list Value) :
  NoDup L →
  Aggregate.total ((λ l, if decide (w = l) then 1 else 0) <$> L) =
  if decide (w ∈ L) then 1 else 0.
Proof.
  unfold Aggregate.total. induction 1 as [|l L Hl Hnd IH]; csimpl; [done|].
  rewrite IH. destruct (decide (w = l)) as [->|Hne].
  - rewrite decide_False by done. rewrite decide_True by by left. lia.
  - destruct (decide (w ∈ L)).
    + rewrite decide_True by by right. lia.
    + rewrite decide_False; [lia|]. rewrite not_elem_of_cons. done.
Qed.

Lemma total_add (f g : Value → Z) (L : list Value) :
  Aggregate.total ((λ l, f l + g l) <$> L) =
  Aggregate.total (f <$> L) + Aggregate.total (g <$> L).
Proof. unfold Aggregate.total. induction L; csimpl; lia. Qed.

Lemma sum_occurrences (s : Series) (L : list Value) :
  NoDup L →
  Aggregate.total ((λ l, occurrences l s) <$> L) =
  Z.of_nat (length (filter (λ v, v ∈ L) s)).
Proof.
  intros Hnd. induction s as [|w s IH].
  - simpl. unfold Aggregate.total. induction L; csimpl; [done|].
    unfold occurrences at 1. simpl. apply IHL. by apply NoDup_cons in Hnd as [_ ?].
  - rewrite filter_cons.
    erewrite list_fmap_ext; [|intros i l _; apply occurrences_cons].
    rewrite (total_add (λ l, if decide (w = l) then 1 else 0) (λ l, occurrences l s)).
    rewrite IH, sum_indicator by done. case_decide; simpl length; lia.
Qed.

Lemma numbers_shown (s : Series) (L : list Value) :
  ∃ zs, Aggregate.numbers (shown_count s <$> L) = Ok zs ∧
        Aggregate.total zs = Aggregate.total ((λ l, if decide (l = Null) then 0 else occurrences l s) <$> L).
Proof.
  induction L as [|l L (zs & Hzs & Ht)]; csimpl; [by exists []|].
  unfold shown_count at 1. destruct (decide (l ≠ Null ∧ l ∈ s)) as [[Hl Hin]|Hn].
  - rewrite Hzs. simpl. eexists. split; [done|]. unfold Aggregate.total in *. simpl.
    rewrite decide_False by done. lia.
  - exists zs. split; [done|]. unfold Aggregate.total in *. simpl. rewrite Ht.
    case_decide; [lia|].
    assert (occurrences l s = 0) as ->; [|lia].
    pose proof (occurrences_nonneg l s). pose proof (occurrences_pos l s).
    destruct (decide (occurrences l s = 0)); [done|]. destruct Hn. split; [done|].
    apply H1. lia.
Qed.

(* ===================================================================== *)
(** ** Lemmas on the calendar and on the time format *)
(* ===================================================================== *)

Lemma civil_month_range (z : Z) : 1 ≤ (Calendar.civil_from_days z).1.2 ≤ 12.
Proof.
  unfold Calendar.civil_from_days. cbv zeta. cbn [fst snd].
  set (z' := z + 719468).
  set (era := z' / 146097).
  set (doe := z' - era * 146097).
  assert (0 ≤ doe ≤ 146096) as Hdoe.
  { unfold doe, era. pose proof (Z.mod_pos_bound z' 146097 ltac:(lia)) as H.
    rewrite Z.mod_eq in H by lia. lia. }
  clearbody doe. clear era z'.
  set (yoe := (doe - doe / 1460 + doe / 36524 - doe / 146096) / 365).
  set (doy := doe - (365 * yoe + yoe / 4 - yoe / 100)).
  assert (0 ≤ doy ≤ 365) as Hdoy by (unfold doy, yoe; Z.div_mod_to_equations; lia).
  clearbody doy.
  set (mp := (5 * doy + 2) / 153).
  assert (0 ≤ mp ≤ 11) as Hmp by (unfold mp; Z.div_mod_to_equations; lia).
  destruct (mp <? 10) eqn:E; [apply Z.ltb_lt in E|apply Z.ltb_ge in E]; lia.
Qed.

Lemma month_range (ns : Z) : 1 ≤ Calendar.month ns ≤ 12.
Proof. apply civil_month_range. Qed.

Lemma hour_range (ns : Z) : 0 ≤ Calendar.hour ns ≤ 23.
Proof.
  unfold Calendar.hour, Calendar.ns_per_day, Calendar.ns_per_hour, Calendar.ns_per_second.
  Z.div_mod_to_equations. lia.
Qed.

Lemma day_name_in_day_order (ns : Z) : Str (Calendar.day_name ns) ∈ day_order.
Proof.
  unfold Calendar.day_name, Calendar.weekday.
  pose proof (Z.mod_pos_bound (Calendar.days_of ns + 3) 7 ltac:(lia)) as H.
  set (n := Z.to_nat ((Calendar.days_of ns + 3) mod 7)).
  assert (n < 7)%nat as Hn by (unfold n; lia). clearbody n.
  do 7 (destruct n as [|n]; [simpl; unfold day_order; rewrite !elem_of_cons; tauto|]).
  lia.
Qed.


(* ===================================================================== *)
(** ** Further properties: distributions and counts *)
(* ===================================================================== *)

Lemma numbers_Int (zs : list Z) : Aggregate.numbers (Int <$> zs) = Ok zs.
Proof. induction zs as [|z zs IH]; csimpl; [done|]. by rewrite IH. Qed.

Lemma elem_of_take_1 {A} (x : A) (n : nat) (l : list A) : x ∈ take n l → x ∈ l.
Proof. intros (i & Hi & _)%elem_of_take. by eapply list_elem_of_lookup_2. Qed.

(** X1.  [df[c].value_counts()] lists each non-null value of the column
    once, with the number of cells that hold it, and nothing else; the
    counts add up to the number of non-null cells of the column. *)
Theorem distribution_counts_cells (df : DataFrame) (c : string) (s : Series) :
  Frame.getitem df c = Ok s →
  ∃ d, distribution df c = Ok d ∧
    NoDup d.*1 ∧
    (∀ v x, (v, x) ∈ d ↔ v ≠ Null ∧ v ∈ s ∧ x = Int (occurrences v s)) ∧
    Aggregate.sum d.*2 = Ok (Num (inject_Z (Z.of_nat (length (Column.dropna s))))).
Proof.
  intros Hs. unfold distribution. rewrite Hs. simpl. eexists. split; [done|].
  split; [apply value_counts_NoDup|]. split; [apply value_counts_spec|].
  unfold Aggregate.sum, Aggregate.value_counts.
  set (sorted := foldr Aggregate.insert_desc [] (Aggregate.counts s)).
  assert (((λ p : Value * Z, (p.1, Int p.2)) <$> sorted).*2 = Int <$> sorted.*2) as ->.
  { rewrite <- !list_fmap_compose. by apply list_fmap_ext. }
  rewrite numbers_Int. simpl. do 3 f_equal. unfold sorted.
  rewrite <- counts_total. apply total_perm. by rewrite sort_desc_perm.
Qed.

Lemma distribution_counts_cells_witness :
  ∃ d, distribution Fixture.canonical "Gender" = Ok d ∧
       d = [(Str "Male", Int 2); (Str "Female", Int 1)].
Proof.
  destruct (distribution_counts_cells Fixture.canonical "Gender"
              [Str "Male"; Str "Female"; Str "Male"]) as (d & Hd & _).
  - vm_compute. reflexivity.
  - exists d. split; [exact Hd|].
    assert (Ok d = Ok [(Str "Male", Int 2); (Str "Female", Int 1)]) as [= ->];
      [|reflexivity].
    rewrite <- Hd. vm_compute. reflexivity.
Defined.

(** X2.  [value_counts().head(k)] keeps at most [k] values, each with the
    number of its cells, and leaves out no value that occurs more often than
    one it keeps. *)
Theorem top_counts_most_frequent (filtered : DataFrame) (c : string) (k : nat)
    (s : Series) :
  Frame.getitem filtered c = Ok s →
  ∃ top, top_counts filtered c k = Ok top ∧
    (length top ≤ k)%nat ∧
    ∀ v x, (v, x) ∈ top →
      v ≠ Null ∧ v ∈ s ∧ x = Int (occurrences v s) ∧
      ∀ w, w ≠ Null → w ∈ s → w ∉ top.*1 → occurrences w s ≤ occurrences v s.
Proof.
  intros Hs. unfold top_counts. rewrite Hs. simpl. eexists. split; [done|].
  split; [rewrite length_take; lia|].
  intros v x Hin.
  assert ((v, x) ∈ Aggregate.value_counts s) as Hv by by eapply elem_of_take_1.
  apply value_counts_spec in Hv as (Hv & Hvs & ->). do 3 (split; [done|]).
  intros w Hw Hws Hout.
  set (sorted := foldr Aggregate.insert_desc [] (Aggregate.counts s)).
  assert (Aggregate.value_counts s = (λ p, (p.1, Int p.2)) <$> sorted) as Hvc by done.
  rewrite Hvc, <- fmap_take in Hin, Hout.
  apply list_elem_of_fmap in Hin as ([v' n] & [= <- Hn] & Hin). simpl in Hn.
  assert ((w, occurrences w s) ∈ drop k sorted) as Hdrop.
  { assert ((w, occurrences w s) ∈ sorted) as Hsorted.
    { unfold sorted. rewrite elem_of_sort_desc. by apply counts_spec. }
    rewrite <- (take_drop k sorted), elem_of_app in Hsorted.
    destruct Hsorted as [Htake|?]; [|done]. destruct Hout.
    rewrite <- list_fmap_compose. apply list_elem_of_fmap.
    by exists (w, occurrences w s). }
  pose proof (sort_desc_sorted (Aggregate.counts s)) as Hsort. fold sorted in Hsort.
  rewrite <- (take_drop k sorted) in Hsort.
  pose proof (sorted_by_app _ _ _ Hsort _ _ Hin Hdrop) as Hge.
  unfold count_ge in Hge. simpl in Hge. congruence.
Qed.

Lemma top_counts_most_frequent_witness :
  ∃ top, top_counts Fixture.no_fatal "Severity" 1 = Ok top ∧
         top = [(Str "Slight", Int 2)].
Proof.
  destruct (top_counts_most_frequent Fixture.no_fatal "Severity" 1
              [Str "Serious"; Str "Slight"; Str "Slight"]) as (top & Htop & _).
  - vm_compute. reflexivity.
  - exists top. split; [exact Htop|].
    assert (Ok top = Ok [(Str "Slight", Int 2)]) as [= ->]; [|reflexivity].
    rewrite <- Htop. vm_compute. reflexivity.
Defined.

(** X3.  The reindexed severity counts of the report show, under each of
    the three labels in their order, the number of the accidents of that
    severity, or NaN where there is none; what they add up to is the number
    of accidents whose severity is one of the three labels. *)
Theorem severity_counts_shown (df : DataFrame) (sev : Series) :
  Frame.getitem df "Severity" = Ok sev →
  ∃ idx, severity_counts df = Ok idx ∧
    idx = [ (Str "Fatal", shown_count sev (Str "Fatal"));
            (Str "Serious", shown_count sev (Str "Serious"));
            (Str "Slight", shown_count sev (Str "Slight")) ] ∧
    Aggregate.sum idx.*2 =
      Ok (Num (inject_Z (Z.of_nat (length (filter (λ v, v ∈ severity_order) sev))))).
Proof.
  intros Hs. unfold severity_counts. rewrite Hs.
  exists (Aggregate.reindex (Aggregate.value_counts sev) severity_order).
  split; [reflexivity|]. rewrite reindex_value_counts. split; [done|].
  rewrite <- list_fmap_compose.
  destruct (numbers_shown sev severity_order) as (zs & Hzs & Ht).
  unfold Aggregate.sum.
  assert (snd ∘ (λ l, (l, shown_count sev l)) <$> severity_order =
          shown_count sev <$> severity_order) as -> by done.
  rewrite Hzs. simpl. do 3 f_equal. rewrite Ht.
  rewrite <- sum_occurrences by (unfold severity_order; by_compute).
  reflexivity.
Qed.

Lemma severity_counts_shown_witness :
  ∃ idx, severity_counts Fixture.no_fatal = Ok idx ∧
    Aggregate.sum idx.*2 = Ok (Num (inject_Z 3)).
Proof.
  destruct (severity_counts_shown Fixture.no_fatal [Str "Serious"; Str "Slight"; Str "Slight"])
    as (idx & Hidx & _ & Hsum).
  - vm_compute. reflexivity.
  - exists idx. split; [exact Hidx|]. rewrite Hsum. vm_compute. reflexivity.
Defined.

Lemma filter_Forall_ext {A} (P Q : A → Prop) `{∀ x, Decision (P x)} `{∀ x, Decision (Q x)}
    (l : list A) :
  Forall (λ x, P x ↔ Q x) l → filter P l = filter Q l.
Proof.
  induction 1 as [|x l Hx _ IH]; [done|]. rewrite !filter_cons, IH.
  destruct (decide (P x)); [rewrite decide_True by tauto|rewrite decide_False by tauto]; done.
Qed.

Lemma derive_row_Weekday_in_day_order parse (r : gmap string Value) :
  cell (RowSpec.derive_row parse r) "Weekday" = Null ∨
  cell (RowSpec.derive_row parse r) "Weekday" ∈ day_order.
Proof.
  rewrite derive_row_Weekday.
  destruct (parsed_date_datetime_or_null parse r) as [->|[t ->]]; [by left|right].
  apply day_name_in_day_order.
Qed.

(** X4.  On a filtered canonical table, the weekday counts reindexed by
    [day_order] lose no accident: every weekday name that the derivation
    produces is one of the seven labels, so that the seven shown counts add
    up to the number of rows that have a weekday. *)
Theorem weekday_counts_every_dated_row parse (accidents bikers df out : DataFrame)
    (f : Filters) :
  load_data parse accidents bikers = Ok df →
  filtered df f = Ok out →
  ∃ wd idx,
    Frame.getitem out "Weekday" = Ok wd ∧
    weekday out = Ok idx ∧
    idx.*1 = day_order ∧
    Aggregate.sum idx.*2 = Ok (Num (inject_Z (Z.of_nat (length (Column.dropna wd))))).
Proof.
  intros Hload Hout.
  apply load_data_Ok in Hload as (merged & _ & Hd).
  apply derive_fields_Ok in Hd as (_ & _ & _ & ->).
  apply filtered_Ok_rows in Hout as [Hcols Hrows]. simpl in Hcols, Hrows.
  assert ("Weekday" ∈ columns out) as HW.
  { rewrite Hcols. apply elem_of_derived_columns. left. repeat constructor. }
  exists ((λ r, cell r "Weekday") <$> rows out).
  unfold weekday. rewrite (getitem_in _ _ HW).
  set (wd := (λ r, cell r "Weekday") <$> rows out).
  exists (Aggregate.reindex (Aggregate.value_counts wd) day_order).
  split; [done|]. split; [done|]. rewrite reindex_value_counts.
  split; [rewrite <- list_fmap_compose; apply list_fmap_id|].
  rewrite <- list_fmap_compose.
  destruct (numbers_shown wd day_order) as (zs & Hzs & Ht).
  unfold Aggregate.sum.
  assert (snd ∘ (λ l, (l, shown_count wd l)) <$> day_order = shown_count wd <$> day_order)
    as -> by done.
  rewrite Hzs. simpl. do 3 f_equal. rewrite Ht.
  assert (Aggregate.total ((λ l, if decide (l = Null) then 0 else occurrences l wd) <$> day_order) =
          Aggregate.total ((λ l, occurrences l wd) <$> day_order)) as -> by done.
  rewrite sum_occurrences by (unfold day_order; by_compute).
  do 2 f_equal. unfold Column.dropna. apply filter_Forall_ext.
  unfold wd. rewrite Hrows. apply Forall_fmap, Forall_forall. intros r Hr. simpl.
  apply list_elem_of_filter in Hr as [_ Hr].
  apply list_elem_of_fmap in Hr as (r0 & -> & _).
  destruct (derive_row_Weekday_in_day_order parse r0) as [->|Hin].
  - split; [|done]. unfold day_order. rewrite !elem_of_cons, elem_of_nil.
    intuition discriminate.
  - split; [|done]. intros _ Hnull. rewrite Hnull in Hin.
    unfold day_order in Hin. rewrite !elem_of_cons, elem_of_nil in Hin.
    intuition discriminate.
Qed.

Lemma weekday_counts_every_dated_row_witness :
  ∃ wd idx,
    Frame.getitem Fixture.canonical "Weekday" = Ok wd ∧
    weekday Fixture.canonical = Ok idx ∧
    idx.*1 = day_order ∧
    Aggregate.sum idx.*2 = Ok (Num (inject_Z (Z.of_nat (length (Column.dropna wd))))).
Proof.
  apply (weekday_counts_every_dated_row Strptime.iso_date Fixture.accidents Fixture.bikers
           Fixture.canonical Fixture.canonical
           {| year_range := (1979, 2018);
              severity := [Str "Fatal"; Str "Serious"; Str "Slight"];
              gender_filter := [Str "Male"; Str "Female"];
              weather := [Str "Clear"; Str "Rain"; Null];
              age_groups := [Str "26 to 35"; Str "16 to 20"; Null] |}).
  - vm_compute. reflexivity.
  - vm_compute. reflexivity.
Defined.

Lemma counts_nil (s : Series) : Aggregate.counts s = [] ↔ Forall (λ v, v = Null) s.
Proof.
  rewrite Forall_forall. split.
  - intros Hnil v Hv. destruct (decide (v = Null)) as [|Hne]; [done|].
    assert ((v, occurrences v s) ∈ Aggregate.counts s) as Hin by by apply counts_spec.
    rewrite Hnil in Hin. by apply elem_of_nil in Hin.
  - intros Hall. destruct (Aggregate.counts s) as [|[v n] l] eqn:E; [done|].
    assert ((v, n) ∈ Aggregate.counts s) as Hin by (rewrite E; by left).
    apply counts_spec in Hin as (Hne & Hin & _). by destruct (Hne (Hall v Hin)).
Qed.

(** X5.  The peak hour of the last tab is the most frequent hour of the
    table, the earliest one where several hours are as frequent; the call
    raises exactly when no row of the table has an hour. *)
Theorem peak_hour_most_frequent (filtered : DataFrame) (hours : Series) :
  Frame.getitem filtered "Hour" = Ok hours →
  Forall numeric_or_null hours →
  (peak_hour filtered = Raise ValueError ↔ Forall (λ v, v = Null) hours) ∧
  (∀ h, peak_hour filtered = Ok h →
     ∃ k, h = Int k ∧ h ∈ hours ∧
       ∀ k', occurrences (Int k') hours ≤ occurrences h hours ∧
             (occurrences (Int k') hours = occurrences h hours → k ≤ k')).
Proof.
  intros Hh Hnum. unfold peak_hour. rewrite Hh. simpl.
  fold (Column.groupby_size hours).
  pose proof (groupby_size_perm hours) as Hperm.
  pose proof (groupby_size_sorted hours) as Hsort.
  destruct (Column.groupby_size hours) as [|p l] eqn:E; simpl.
  - split; [|discriminate]. split; [|done].
    intros _. apply counts_nil. by apply Permutation_nil_l in Hperm.
  - split.
    + split; [discriminate|]. intros Hall%counts_nil. rewrite Hall in Hperm.
      by apply Permutation_nil_r in Hperm.
    + intros h [= <-].
      destruct (idxmax_from_spec p l) as (l1 & l2 & n & Heq & H1 & H2).
      set (h := Aggregate.idxmax_from p l) in *.
      assert (∀ q, q ∈ p :: l ↔ q.1 ≠ Null ∧ q.1 ∈ hours ∧ q.2 = occurrences q.1 hours) as Hin.
      { intros [v m]. rewrite Hperm. apply counts_spec. }
      assert ((h, n) ∈ p :: l) as Hhn by (rewrite Heq, elem_of_app; right; by left).
      apply Hin in Hhn as (Hne & Hhin & Hn). simpl in Hne, Hhin, Hn.
      rewrite Forall_forall in Hnum. specialize (Hnum h Hhin).
      destruct h as [|x|k|t] eqn:Ek; try done. exists k. do 2 (split; [done|]).
      intros k'. pose proof (occurrences_nonneg (Int k') hours) as Hk'.
      assert (0 < occurrences (Int k) hours) as Hpos by by apply occurrences_pos.
      destruct (decide (Int k' ∈ hours)) as [Hk'in|Hk'out].
      * assert ((Int k', occurrences (Int k') hours) ∈ p :: l) as Hq by by apply Hin.
        rewrite Heq, elem_of_app, elem_of_cons in Hq.
        destruct Hq as [Hq|[[= -> _]|Hq]].
        -- apply H1 in Hq. simpl in Hq. lia.
        -- lia.
        -- specialize (H2 _ Hq). simpl in H2. split; [lia|]. intros _.
           rewrite Heq, cons_middle, app_assoc in Hsort.
           assert (key_le (Int k, n) (Int k', occurrences (Int k') hours)) as Hle.
           { eapply sorted_by_app; [exact Hsort| |done].
             apply elem_of_app. right. by left. }
           exact Hle.
      * assert (occurrences (Int k') hours = 0) as ->; [|lia].
        destruct (decide (occurrences (Int k') hours = 0)); [done|].
        destruct Hk'out. apply occurrences_pos. lia.
Qed.

Lemma peak_hour_most_frequent_witness :
  peak_hour Fixture.canonical = Ok (Int 8).
Proof.
  destruct (peak_hour_most_frequent Fixture.canonical [Int 8; Int 17; Null]) as [Hraise Hok].
  - vm_compute. reflexivity.
  - repeat constructor.
  - destruct (peak_hour Fixture.canonical) as [h|e] eqn:E.
    + destruct (Hok h eq_refl) as (k & -> & Hin & Hmax).
      f_equal. vm_compute in E. congruence.
    + vm_compute in E. discriminate.
Defined.

(** X6.  The rush-hour figure of the report, [hourly.loc[lo:hi].sum()], is
    the number of accidents whose hour lies between the two bounds, both
    bounds included; accidents without an hour are not counted. *)
Theorem rush_counts_inclusive (df : DataFrame) (hours : Series) (lo hi : Z) :
  Frame.getitem df "Hour" = Ok hours →
  rush df lo hi =
    Ok (Z.of_nat (length (filter (λ v, Column.label_within lo hi v = true) hours))) ∧
  ∀ v, Column.label_within lo hi v = true ↔ ∃ k, v = Int k ∧ lo ≤ k ∧ k ≤ hi.
Proof.
  intros Hh. split.
  - unfold rush. rewrite Hh. simpl. f_equal.
    unfold Column.loc_slice.
    rewrite <- (counts_total_filter (Column.label_within lo hi)) by done.
    apply total_perm. by rewrite groupby_size_perm.
  - intros v. unfold Column.label_within.
    destruct v as [|x|k|t]; try (split; [discriminate|intros (? & [=] & _)]).
    rewrite andb_true_iff, !Z.leb_le. split; [intros ?; by exists k|].
    by intros (? & [= <-] & ?).
Qed.

Lemma rush_counts_inclusive_witness :
  rush Fixture.canonical 8 17 = Ok 2 ∧ rush Fixture.canonical 9 16 = Ok 0.
Proof.
  split.
  - destruct (rush_counts_inclusive Fixture.canonical [Int 8; Int 17; Null] 8 17) as [-> _].
    + vm_compute. reflexivity.
    + vm_compute. reflexivity.
  - vm_compute. reflexivity.
Defined.

Lemma length_filter_fmap_eq {A} (g : A → Value) (v : Value) (l : list A) :
  length (filter (λ x, bool_decide (g x = v) = true) l) =
  length (filter (λ w, w = v) (g <$> l)).
Proof.
  induction l as [|x l IH]; [done|]. rewrite fmap_cons, !filter_cons.
  destruct (decide (g x = v)) as [E|E].
  - rewrite decide_True by by apply bool_decide_eq_true. simpl. by rewrite IH.
  - rewrite decide_False; [done|]. by rewrite bool_decide_eq_true.
Qed.

Lemma count_severity_occurrences (filtered : DataFrame) (sev : Series) (s : string) :
  Frame.getitem filtered "Severity" = Ok sev →
  count_severity filtered s = Ok (occurrences (Str s) sev).
Proof.
  intros [HS ->]%getitem_Ok. unfold count_severity. rewrite (getitem_in _ _ HS). simpl.
  unfold Pandas.eq_str. rewrite <- list_fmap_compose, getitem_mask_fmap. simpl.
  unfold len, occurrences. simpl. do 2 f_equal.
  apply (length_filter_fmap_eq (λ r, cell r "Severity")).
Qed.

Lemma occurrences_two (v w : Value) (s : Series) :
  v ≠ w → occurrences v s + occurrences w s ≤ Z.of_nat (length s).
Proof.
  intros Hne. induction s as [|u s IH]; [unfold occurrences; simpl; lia|].
  rewrite !occurrences_cons. simpl length. repeat case_decide; subst; try done; lia.
Qed.

(** X7.  The header metrics are consistent with the table: the total is
    the number of rows, the fatal and serious counts are the numbers of rows
    of that severity, together they do not exceed the total, and the
    fatality rate is a percentage between 0 and 100. *)
Theorem header_metrics_consistent (filtered : DataFrame) (sev : Series) (m : Metrics) :
  Frame.getitem filtered "Severity" = Ok sev →
  header_metrics filtered = Ok m →
  total_accidents m = len filtered ∧
  fatal m = occurrences (Str "Fatal") sev ∧
  serious m = occurrences (Str "Serious") sev ∧
  fatal m + serious m ≤ total_accidents m ∧
  ∃ q, fatality_rate m = Num q ∧ (0 <= q)%Q ∧ (q <= 100)%Q.
Proof.
  intros Hs H. unfold header_metrics in H.
  rewrite !(count_severity_occurrences _ _ _ Hs) in H. simpl in H.
  apply bind_Ok in H as (avg & _ & [= <-]). simpl.
  pose proof (occurrences_two (Str "Fatal") (Str "Serious") sev ltac:(done)) as Htwo.
  pose proof (occurrences_nonneg (Str "Fatal") sev) as Hf.
  pose proof (occurrences_nonneg (Str "Serious") sev) as Hse.
  assert (Z.of_nat (length sev) = len filtered) as Hlen.
  { apply getitem_Ok in Hs as [_ ->]. unfold len. by rewrite length_fmap. }
  do 3 (split; [done|]). split; [lia|].
  destruct (0 <? len filtered) eqn:E; [apply Z.ltb_lt in E|].
  - eexists. split; [done|].
    destruct (len filtered) as [|n|n] eqn:En; try lia.
    unfold Qle, Qdiv, Qmult, Qinv, inject_Z. simpl. lia.
  - exists 0%Q. split; [done|]. unfold Qle. simpl. lia.
Qed.

Lemma header_metrics_consistent_witness :
  ∃ m, header_metrics Fixture.canonical = Ok m ∧
       total_accidents m = 3 ∧ fatal m = 1 ∧ serious m = 1.
Proof.
  destruct (header_metrics Fixture.canonical) as [m|e] eqn:E;
    [|vm_compute in E; discriminate].
  exists m. split; [reflexivity|].
  destruct (header_metrics_consistent Fixture.canonical
              [Str "Fatal"; Str "Serious"; Str "Slight"] m) as (Ht & Hf & Hs & _).
  - vm_compute. reflexivity.
  - exact E.
  - rewrite Ht, Hf, Hs. clear. repeat split; vm_compute; reflexivity.
Defined.

(* ===================================================================== *)
(** ** Further properties: the join and the load *)
(* ===================================================================== *)

Lemma length_merge_rows {A B C} (L : list A) (F : A → list B) (g : A → B → C) :
  length (l ← L; r ← F l; [g l r]) = sum_list_with (λ l, length (F l)) L.
Proof.
  induction L as [|l L IH]; [done|]. rewrite bind_cons, length_app, IH. simpl. f_equal.
  induction (F l) as [|r rs IHr]; [done|]. rewrite bind_cons. simpl. by rewrite IHr.
Qed.

Lemma length_filter_key {A} (key : A → Value) (k : Value) (rs : list A) :
  NoDup (key <$> rs) →
  length (filter (λ r, key r = k) rs) = if decide (k ∈ key <$> rs) then 1%nat else 0%nat.
Proof.
  induction rs as [|r rs IH]; [done|]. rewrite fmap_cons, NoDup_cons, filter_cons.
  intros [Hr Hnd]. specialize (IH Hnd). destruct (decide (key r = k)) as [<-|Hne].
  - simpl. rewrite IH. rewrite (decide_False (P := key r ∈ key <$> rs)) by done.
    rewrite decide_True by by left. done.
  - rewrite IH. destruct (decide (k ∈ key <$> rs)).
    + rewrite decide_True by by right. done.
    + rewrite decide_False; [done|]. rewrite not_elem_of_cons. split; [congruence|done].
Qed.

Lemma sum_indicator_filter {A} (P : A → Prop) `{∀ x, Decision (P x)} (L : list A) :
  sum_list_with (λ l, if decide (P l) then 1%nat else 0%nat) L = length (filter P L).
Proof.
  induction L as [|l L IH]; [done|]. rewrite filter_cons. simpl. rewrite IH.
  by destruct (decide (P l)).
Qed.

(** X8.  The join has one row for each pair of a left and a right row with
    the same key.  Where the accident identifiers of the bikers are
    distinct, an accident appears at most once: the rows of the join are as
    many as the accidents that have a biker, never more than the
    accidents. *)
Theorem inner_join_row_count (accidents bikers out : DataFrame) :
  Frame.merge accidents bikers "Accident_Index" = Ok out →
  length (rows out) =
    sum_list_with
      (λ l, length (filter (λ r, cell r "Accident_Index" = cell l "Accident_Index")
                      (rows bikers)))
      (rows accidents) ∧
  (NoDup ((λ r, cell r "Accident_Index") <$> rows bikers) →
     length (rows out) =
       length (filter (λ l, cell l "Accident_Index" ∈
                              (λ r, cell r "Accident_Index") <$> rows bikers)
                 (rows accidents)) ∧
     (length (rows out) ≤ length (rows accidents))%nat).
Proof.
  intros H. apply merge_Ok in H as (_ & _ & ->). simpl.
  rewrite length_merge_rows. split; [done|]. intros Hnd.
  assert (sum_list_with
            (λ l, length (filter (λ r, cell r "Accident_Index" = cell l "Accident_Index")
                            (rows bikers))) (rows accidents) =
          length (filter (λ l, cell l "Accident_Index" ∈
                                 (λ r, cell r "Accident_Index") <$> rows bikers)
                    (rows accidents))) as ->.
  { rewrite <- sum_indicator_filter. induction (rows accidents) as [|l L IH]; [done|].
    simpl. rewrite IH. f_equal.
    apply (length_filter_key (λ r, cell r "Accident_Index") _ _ Hnd). }
  split; [done|]. apply length_filter.
Qed.

Lemma inner_join_row_count_witness :
  length (rows Fixture.merged) = 3%nat ∧
  (length (rows Fixture.merged) ≤ length (rows Fixture.accidents))%nat.
Proof.
  destruct (inner_join_row_count Fixture.accidents Fixture.bikers Fixture.merged)
    as [_ Huniq].
  - vm_compute. reflexivity.
  - destruct Huniq as [Hlen Hle]; [by_compute|]. split; [|exact Hle].
    rewrite Hlen. vm_compute. reflexivity.
Defined.

Lemma suffix_ne_Date (c sfx : string) : sfx = "_x" ∨ sfx = "_y" → c +:+ sfx ≠ "Date".
Proof.
  intros [->| ->] H;
    repeat (destruct c as [|? c]; simpl in H; [discriminate|]; injection H as _ H);
    destruct c; discriminate.
Qed.

Lemma shared_label_not_in_merge (left right out : DataFrame) (on c : string) :
  (∀ c' sfx, sfx = "_x" ∨ sfx = "_y" → c' +:+ sfx ≠ c) →
  c ≠ on → c ∈ columns left → c ∈ columns right →
  Frame.merge left right on = Ok out →
  c ∉ columns out.
Proof.
  intros Hsfx Hne Hl Hr H. apply merge_Ok in H as (_ & _ & ->). simpl.
  rewrite elem_of_app, !list_elem_of_fmap. intros [(c' & Hc' & Hin)|(c' & Hc' & Hin)].
  - unfold Frame.suffixed in Hc'. case_decide as Hd.
    + by eapply Hsfx; [left|].
    + subst c'. apply Hd. done.
  - apply list_elem_of_filter in Hin as [_ Hin].
    unfold Frame.suffixed in Hc'. case_decide as Hd.
    + by eapply Hsfx; [right|].
    + subst c'. apply Hd. done.
Qed.

(** X9.  A [Date] column in both source files breaks the load: whenever
    the join returns, it has renamed the two columns to [Date_x] and
    [Date_y], no [Date] column is left, and [load_data] raises KeyError on
    its first line after the join, whatever the parser. *)
Theorem shared_date_column_raises parse (accidents bikers merged : DataFrame) :
  Frame.merge accidents bikers "Accident_Index" = Ok merged →
  "Date" ∈ columns accidents →
  "Date" ∈ columns bikers →
  "Date_x" ∈ columns merged ∧ "Date_y" ∈ columns merged ∧
  ("Date" ∉ columns merged) ∧
  load_data parse accidents bikers = Raise (KeyError "Date").
Proof.
  intros Hm Hda Hdb.
  assert ("Date" ∉ columns merged) as Hno.
  { apply (shared_label_not_in_merge accidents bikers merged "Accident_Index" "Date");
      [apply suffix_ne_Date|done..]. }
  assert (load_data parse accidents bikers = Raise (KeyError "Date")) as Hload.
  { rewrite (load_data_merged _ _ _ _ Hm), derive_fields_eval. by rewrite decide_False. }
  split; [|split; [|split; [exact Hno|exact Hload]]];
    apply merge_Ok in Hm as (_ & _ & ->); simpl;
    rewrite !elem_of_app, !list_elem_of_fmap.
  - left. exists "Date". split; [|done]. unfold Frame.suffixed. by rewrite decide_True.
  - right. exists "Date". split.
    + unfold Frame.suffixed. by rewrite decide_True.
    + by apply list_elem_of_filter.
Qed.

Lemma shared_date_column_raises_witness :
  load_data Strptime.iso_date Fixture.accidents Sample.bikers_dated = Raise (KeyError "Date").
Proof.
  apply (shared_date_column_raises Strptime.iso_date Fixture.accidents Sample.bikers_dated
           (match Frame.merge Fixture.accidents Sample.bikers_dated "Accident_Index" with
            | Ok df => df | Raise _ => Fixture.no_frame end)).
  - vm_compute. reflexivity.
  - by_compute.
  - by_compute.
Defined.

(* ===================================================================== *)
(** ** Further properties: the derived fields *)
(* ===================================================================== *)

(** X10.  In every table the derivation returns, a month is a number from
    1 to 12, an hour a number from 0 to 23 and a weekday one of the seven
    names of [day_order], or the cell is null; year, month and weekday are
    null in the rows without a date, and only there. *)
Theorem derived_fields_in_range parse (df df' : DataFrame) :
  derive_fields parse df = Ok df' →
  ∀ r, r ∈ rows df' →
    (cell r "Month" = Null ∨ ∃ m, cell r "Month" = Int m ∧ 1 ≤ m ∧ m ≤ 12) ∧
    (cell r "Hour" = Null ∨ ∃ h, cell r "Hour" = Int h ∧ 0 ≤ h ∧ h ≤ 23) ∧
    (cell r "Weekday" = Null ∨ cell r "Weekday" ∈ day_order) ∧
    (cell r "Date" = Null ↔ cell r "Year" = Null) ∧
    (cell r "Date" = Null ↔ cell r "Month" = Null) ∧
    (cell r "Date" = Null ↔ cell r "Weekday" = Null).
Proof.
  intros H r Hr. apply derive_fields_Ok in H as (_ & _ & _ & ->). simpl in Hr.
  apply list_elem_of_fmap in Hr as (r0 & -> & _).
  rewrite derive_row_Month, derive_row_Hour, derive_row_Weekday, derive_row_Year,
    derive_row_Date.
  split; [|split; [|split]].
  - destruct (parsed_date_datetime_or_null parse r0) as [->|[t ->]]; [by left|right].
    eexists. split; [done|]. apply month_range.
  - unfold RowSpec.parsed_time.
    destruct (parsed_time_datetime_or_null (cell r0 "Time")) as [->|[t ->]]; [by left|right].
    eexists. split; [done|]. apply hour_range.
  - destruct (parsed_date_datetime_or_null parse r0) as [->|[t ->]]; [by left|right].
    apply day_name_in_day_order.
  - destruct (parsed_date_datetime_or_null parse r0) as [->|[t ->]]; simpl; done.
Qed.

Lemma derived_fields_in_range_witness :
  Forall (λ r,
      (cell r "Month" = Null ∨ ∃ m, cell r "Month" = Int m ∧ 1 ≤ m ∧ m ≤ 12) ∧
      (cell r "Hour" = Null ∨ ∃ h, cell r "Hour" = Int h ∧ 0 ≤ h ∧ h ≤ 23) ∧
      (cell r "Weekday" = Null ∨ cell r "Weekday" ∈ day_order))
    (rows Fixture.canonical).
Proof.
  apply Forall_forall. intros r Hr.
  destruct (derived_fields_in_range Strptime.iso_date Fixture.merged Fixture.canonical)
    with (r := r) as (HM & HH & HW & _).
  - vm_compute. reflexivity.
  - exact Hr.
  - by repeat split.
Defined.

Lemma clock_check_true : clock_check = true.
Proof. vm_compute. reflexivity. Qed.

Lemma forallb_seq (f : nat → bool) (n k : nat) :
  forallb f (seq 0 n) = true → (k < n)%nat → f k = true.
Proof.
  intros H Hk. rewrite forallb_forall in H. apply H, in_seq. lia.
Qed.

Lemma hour_of_clock_text (h m : Z) :
  0 ≤ h ≤ 23 → 0 ≤ m ≤ 59 → hour_of_time (Str (clock_text h m)) = Int h.
Proof.
  intros Hh Hm. pose proof clock_check_true as H. unfold clock_check in H.
  apply (forallb_seq clock_row 24 (Z.to_nat h)) in H; [|lia]. unfold clock_row in H.
  apply (forallb_seq (clock_cell (Z.to_nat h)) 60 (Z.to_nat m)) in H; [|lia].
  unfold clock_cell in H. apply bool_decide_eq_true in H.
  by rewrite !Z2Nat.id in H by lia.
Qed.

(** X11.  A time of day written [HH:MM], with two digits each, the hour
    from 00 to 23 and the minute from 00 to 59, always matches the format:
    the row's derived hour is that hour. *)
Theorem hour_of_well_formed_time parse (df df' : DataFrame) (i : nat)
    (r : gmap string Value) (h m : Z) :
  derive_fields parse df = Ok df' →
  rows df !! i = Some r →
  cell r "Time" = Str (clock_text h m) →
  0 ≤ h ≤ 23 → 0 ≤ m ≤ 59 →
  ∃ r', rows df' !! i = Some r' ∧ cell r' "Hour" = Int h.
Proof.
  intros H Hi Ht Hh Hm. apply derive_fields_Ok in H as (_ & _ & _ & ->). simpl.
  exists (RowSpec.derive_row parse r). split; [by rewrite list_lookup_fmap, Hi|].
  rewrite derive_row_Hour. unfold RowSpec.parsed_time. rewrite Ht.
  by apply hour_of_clock_text.
Qed.

Lemma hour_of_well_formed_time_witness :
  ∃ r', rows Fixture.canonical !! 1%nat = Some r' ∧ cell r' "Hour" = Int 17.
Proof.
  destruct (rows Fixture.merged !! 1%nat) as [r|] eqn:Hr; [|vm_compute in Hr; discriminate].
  apply (hour_of_well_formed_time Strptime.iso_date Fixture.merged Fixture.canonical 1 r 17 40).
  - vm_compute. reflexivity.
  - exact Hr.
  - assert (Some (cell r "Time") = Some (Str (clock_text 17 40))) as [= ->]; [|done].
    change (Some (cell r "Time")) with ((λ r, cell r "Time") <$> Some r).
    rewrite <- Hr. vm_compute. reflexivity.
  - lia.
  - lia.
Defined.

(* ===================================================================== *)
(** ** Further properties: the sidebar and the filter *)
(* ===================================================================== *)

Lemma elem_of_unique (s : Series) (v : Value) : v ∈ Column.unique s ↔ v ∈ s.
Proof.
  induction s as [|w s IH]; [done|]. simpl.
  rewrite !elem_of_cons, list_elem_of_filter, IH.
  destruct (decide (v = w)); [subst; tauto|tauto].
Qed.

Lemma unique_NoDup (s : Series) : NoDup (Column.unique s).
Proof.
  induction s as [|w s IH]; simpl; [constructor|]. apply NoDup_cons. split.
  - rewrite list_elem_of_filter. by intros [? _].
  - by apply NoDup_filter.
Qed.

Lemma elem_of_dropna (s : Series) (v : Value) : v ∈ Column.dropna s ↔ v ≠ Null ∧ v ∈ s.
Proof. unfold Column.dropna. by rewrite list_elem_of_filter. Qed.

Lemma numbers_Ok (s : Series) (zs : list Z) :
  Aggregate.numbers s = Ok zs →
  Forall numeric_or_null s ∧ ∀ z, z ∈ zs ↔ Int z ∈ s.
Proof.
  revert zs. induction s as [|v s IH]; intros zs H; simpl in H.
  - injection H as <-. split; [done|]. intros z. by rewrite !elem_of_nil.
  - destruct v as [|x|y|t]; try discriminate.
    + destruct (IH _ H) as [Hall Hz]. split; [by constructor|].
      intros z. rewrite Hz, elem_of_cons. split; [by right|]. by intros [[=]|?].
    + apply bind_Ok in H as (zs' & Hzs' & [= <-]).
      destruct (IH _ Hzs') as [Hall Hz]. split; [by constructor|].
      intros z. rewrite !elem_of_cons, Hz. split; intros [?|?]; try (by right);
        left; congruence.
Qed.

Lemma numbers_returns (s : Series) :
  Forall numeric_or_null s → returns (Aggregate.numbers s).
Proof.
  induction 1 as [|v s Hv _ [zs IH]]; simpl; [by eexists|].
  destruct v; try done; rewrite IH; by eexists.
Qed.

Lemma numbers_nil (s : Series) :
  Aggregate.numbers s = Ok [] ↔ Forall (λ v, v = Null) s.
Proof.
  induction s as [|v s IH]; simpl; [split; [done|by intros _]|].
  rewrite Forall_cons. destruct v as [|x|y|t]; try (split; [discriminate|intros [[=] _]]).
  - rewrite IH. tauto.
  - split; [|intros [[=] _]]. intros (zs & _ & [=])%bind_Ok.
Qed.

Lemma foldr_min_le (z : Z) (zs : list Z) :
  foldr Z.min z zs ≤ z ∧ (∀ x, x ∈ zs → foldr Z.min z zs ≤ x) ∧
  (foldr Z.min z zs = z ∨ foldr Z.min z zs ∈ zs).
Proof.
  induction zs as [|a zs (IH1 & IH2 & IH3)]; simpl.
  - split; [lia|]. split; [by intros ? ?%elem_of_nil|by left].
  - split; [lia|]. split.
    + intros x [->|Hx]%elem_of_cons; [lia|]. specialize (IH2 x Hx). lia.
    + destruct (Z.min_spec a (foldr Z.min z zs)) as [[_ ->]|[_ ->]].
      * right. by left.
      * destruct IH3 as [?|?]; [by left|right; by right].
Qed.

Lemma foldr_max_ge (z : Z) (zs : list Z) :
  z ≤ foldr Z.max z zs ∧ (∀ x, x ∈ zs → x ≤ foldr Z.max z zs) ∧
  (foldr Z.max z zs = z ∨ foldr Z.max z zs ∈ zs).
Proof.
  induction zs as [|a zs (IH1 & IH2 & IH3)]; simpl.
  - split; [lia|]. split; [by intros ? ?%elem_of_nil|by left].
  - split; [lia|]. split.
    + intros x [->|Hx]%elem_of_cons; [lia|]. specialize (IH2 x Hx). lia.
    + destruct (Z.max_spec a (foldr Z.max z zs)) as [[_ ->]|[_ ->]].
      * destruct IH3 as [?|?]; [by left|right; by right].
      * right. by left.
Qed.

Lemma int_inject_Z (z : Z) : Column.int (Num (inject_Z z)) = Ok z.
Proof. simpl. by rewrite Z.quot_1_r. Qed.

(** The lowest and the highest year of a column, as the slider takes them. *)
Lemma year_bound_min (s : Series) (lo : Z) :
  Column.min s ≫= Column.int = Ok lo →
  Forall numeric_or_null s ∧ Int lo ∈ s ∧ ∀ y, Int y ∈ s → lo ≤ y.
Proof.
  intros H. apply bind_Ok in H as (n & Hn & Hint). unfold Column.min in Hn.
  apply bind_Ok in Hn as (zs & Hzs & [= <-]).
  destruct (numbers_Ok _ _ Hzs) as [Hall Hz]. split; [done|].
  destruct zs as [|z zs]; [discriminate|]. rewrite int_inject_Z in Hint.
  injection Hint as <-. destruct (foldr_min_le z zs) as (H1 & H2 & H3). split.
  - apply Hz. destruct H3 as [->|?]; [by left|by right].
  - intros y Hy. apply Hz in Hy. apply elem_of_cons in Hy as [->|Hy]; [done|by apply H2].
Qed.

Lemma year_bound_max (s : Series) (hi : Z) :
  Aggregate.max s ≫= Column.int = Ok hi →
  Forall numeric_or_null s ∧ Int hi ∈ s ∧ ∀ y, Int y ∈ s → y ≤ hi.
Proof.
  intros H. apply bind_Ok in H as (n & Hn & Hint). unfold Aggregate.max in Hn.
  apply bind_Ok in Hn as (zs & Hzs & [= <-]).
  destruct (numbers_Ok _ _ Hzs) as [Hall Hz]. split; [done|].
  destruct zs as [|z zs]; [discriminate|]. rewrite int_inject_Z in Hint.
  injection Hint as <-. destruct (foldr_max_ge z zs) as (H1 & H2 & H3). split.
  - apply Hz. destruct H3 as [->|?]; [by left|by right].
  - intros y Hy. apply Hz in Hy. apply elem_of_cons in Hy as [->|Hy]; [done|by apply H2].
Qed.

(** What a sidebar that was built says of its table. *)
Lemma sidebar_Ok (df : DataFrame) (w : Widgets) :
  sidebar df = Ok w →
  filterable df ∧
  Column.min ((λ r, cell r "Year") <$> rows df) ≫= Column.int = Ok (years_min w) ∧
  Aggregate.max ((λ r, cell r "Year") <$> rows df) ≫= Column.int = Ok (years_max w) ∧
  w = {| years_min := years_min w; years_max := years_max w; years_value := (2010, 2018);
         severity_options := Column.unique ((λ r, cell r "Severity") <$> rows df);
         severity_default := Column.unique ((λ r, cell r "Severity") <$> rows df);
         gender_options := Column.unique (Column.dropna ((λ r, cell r "Gender") <$> rows df));
         gender_default := Column.unique (Column.dropna ((λ r, cell r "Gender") <$> rows df));
         weather_options :=
           take 10 (Column.unique (Column.dropna ((λ r, cell r "Weather_conditions") <$> rows df)));
         weather_default :=
           take 5 (Column.unique (Column.dropna ((λ r, cell r "Weather_conditions") <$> rows df)));
         age_options := Column.unique (Column.dropna ((λ r, cell r "Age_Grp") <$> rows df));
         age_default := Column.unique (Column.dropna ((λ r, cell r "Age_Grp") <$> rows df)) |}.
Proof.
  intros H. unfold sidebar in H.
  apply bind_Ok in H as (year & [HY ->]%getitem_Ok & H).
  apply bind_Ok in H as (lo & Hlo & H).
  apply bind_Ok in H as (year' & [_ ->]%getitem_Ok & H).
  apply bind_Ok in H as (hi & Hhi & H).
  apply bind_Ok in H as (sev & [HS ->]%getitem_Ok & H).
  apply bind_Ok in H as (sev' & [_ ->]%getitem_Ok & H).
  apply bind_Ok in H as (gen & [HG ->]%getitem_Ok & H).
  apply bind_Ok in H as (gen' & [_ ->]%getitem_Ok & H).
  apply bind_Ok in H as (wea & [HW ->]%getitem_Ok & H).
  apply bind_Ok in H as (wea' & [_ ->]%getitem_Ok & H).
  apply bind_Ok in H as (age & [HA ->]%getitem_Ok & H).
  apply bind_Ok in H as (age' & [_ ->]%getitem_Ok & H).
  injection H as <-. simpl. split; [|done].
  split; [done|]. split.
  - apply year_bound_min in Hlo as [Hall _]. rewrite Forall_fmap in Hall. exact Hall.
  - intros c Hc. unfold FilterSpec.filter_columns in Hc.
    rewrite !elem_of_cons, elem_of_nil in Hc.
    by destruct Hc as [->|[->|[->|[->|[]]]]].
Qed.

(** X12.  The bounds of the year slider are the lowest and the highest
    year of the table: both occur in the table and every year of the table
    lies between them, so that the widest range excludes no dated row. *)
Theorem slider_bounds_cover_the_years (df : DataFrame) (w : Widgets) :
  sidebar df = Ok w →
  (∃ r, r ∈ rows df ∧ cell r "Year" = Int (years_min w)) ∧
  (∃ r, r ∈ rows df ∧ cell r "Year" = Int (years_max w)) ∧
  ∀ r y, r ∈ rows df → cell r "Year" = Int y → years_min w ≤ y ∧ y ≤ years_max w.
Proof.
  intros (_ & Hlo & Hhi & _)%sidebar_Ok.
  apply year_bound_min in Hlo as (_ & Hlo_in & Hlo).
  apply year_bound_max in Hhi as (_ & Hhi_in & Hhi).
  apply list_elem_of_fmap in Hlo_in as (r1 & Hr1 & Hin1).
  apply list_elem_of_fmap in Hhi_in as (r2 & Hr2 & Hin2).
  split; [by exists r1|]. split; [by exists r2|].
  intros r y Hr Hy.
  assert (Int y ∈ (λ r, cell r "Year") <$> rows df) as Hin.
  { apply list_elem_of_fmap. by exists r. }
  split; [by apply Hlo|by apply Hhi].
Qed.

Lemma slider_bounds_cover_the_years_witness :
  (years_min Sample.widgets, years_max Sample.widgets) = (2008, 2019) ∧
  ∀ r y, r ∈ rows Sample.canonical → cell r "Year" = Int y →
    years_min Sample.widgets ≤ y ∧ y ≤ years_max Sample.widgets.
Proof.
  split; [vm_compute; reflexivity|].
  apply (slider_bounds_cover_the_years Sample.canonical Sample.widgets).
  vm_compute. reflexivity.
Defined.

(** X13.  The dashboard cannot build its sidebar on a table none of whose
    rows has a year, an empty table among them: the lowest year is NaN and
    [int] raises ValueError on it. *)
Theorem sidebar_needs_a_year (df : DataFrame) :
  "Year" ∈ columns df →
  Forall (λ r, cell r "Year" = Null) (rows df) →
  sidebar df = Raise ValueError.
Proof.
  intros HY Hall. unfold sidebar. rewrite (getitem_in _ _ HY). simpl.
  assert (Aggregate.numbers ((λ r, cell r "Year") <$> rows df) = Ok []) as Hn.
  { apply numbers_nil. by apply Forall_fmap. }
  unfold Column.min. by rewrite Hn.
Qed.

Lemma sidebar_needs_a_year_witness : sidebar Fixture.empty_table = Raise ValueError.
Proof.
  apply sidebar_needs_a_year.
  - by_compute.
  - vm_compute. constructor.
Defined.

Lemma sidebar_selection_subsets (df : DataFrame) (w : Widgets) (f : Filters) :
  sidebar df = Ok w → selectable w f →
  (∀ v, v ∈ gender_filter f → v ≠ Null) ∧
  (∀ v, v ∈ age_groups f → v ≠ Null) ∧
  (∀ v, v ∈ weather f → v ≠ Null ∧ v ∈ weather_options w).
Proof.
  intros (_ & _ & _ & Hw)%sidebar_Ok (_ & _ & _ & _ & HG & HW & HA).
  rewrite Hw in HG, HW, HA. simpl in HG, HW, HA. repeat split.
  - intros v Hv. apply HG in Hv. by apply elem_of_unique, elem_of_dropna in Hv as [? _].
  - intros v Hv. apply HA in Hv. by apply elem_of_unique, elem_of_dropna in Hv as [? _].
  - apply HW in H. apply elem_of_take_1 in H.
    by apply elem_of_unique, elem_of_dropna in H as [? _].
  - rewrite Hw. simpl. by apply HW.
Qed.

(** X14.  Whatever the user selects in the sidebar, the filter returns a
    table, and no row of it has a missing gender, age group or weather: the
    three multiselects offer no missing value.  The weather of every row
    shown is one of the first ten distinct weather values of the table, the
    only ones that the weather widget offers. *)
Theorem sidebar_never_selects_missing (df : DataFrame) (w : Widgets) (f : Filters) :
  sidebar df = Ok w →
  selectable w f →
  ∃ out, filtered df f = Ok out ∧
    ∀ r, r ∈ rows out →
      r ∈ rows df ∧
      cell r "Gender" ≠ Null ∧ cell r "Age_Grp" ≠ Null ∧
      cell r "Weather_conditions" ≠ Null ∧
      cell r "Weather_conditions" ∈
        take 10 (Column.unique (Column.dropna ((λ r, cell r "Weather_conditions") <$> rows df))).
Proof.
  intros Hw Hsel.
  destruct (sidebar_selection_subsets _ _ _ Hw Hsel) as (HG & HA & HW).
  apply sidebar_Ok in Hw as (Hf & _ & _ & Hw).
  eexists. split; [by apply filtered_eval|]. simpl.
  intros r (Hpass & Hr)%list_elem_of_filter. destruct Hpass as (_ & _ & Hg & Hwe & Ha).
  split; [done|]. split; [by apply HG|]. split; [by apply HA|].
  destruct (HW _ Hwe) as [Hne Hin]. split; [done|]. rewrite Hw in Hin. exact Hin.
Qed.

Lemma sidebar_never_selects_missing_witness :
  ∃ out, filtered Sample.canonical (defaults Sample.widgets) = Ok out ∧
    ∀ r, r ∈ rows out →
      r ∈ rows Sample.canonical ∧
      cell r "Gender" ≠ Null ∧ cell r "Age_Grp" ≠ Null ∧
      cell r "Weather_conditions" ≠ Null ∧
      cell r "Weather_conditions" ∈
        take 10 (Column.unique (Column.dropna
          ((λ r, cell r "Weather_conditions") <$> rows Sample.canonical))).
Proof.
  apply (sidebar_never_selects_missing Sample.canonical Sample.widgets).
  - vm_compute. reflexivity.
  - unfold selectable. by_compute.
Defined.

(** X15.  Before the user touches a widget (the slider accepting its
    start value, the years 2010 to 2018 lying within its bounds), the
    dashboard shows the rows of the years 2010 to 2018 that have a gender
    and an age group and whose weather is one of the first five distinct
    weather values of the table.  The severity excludes no row: every
    severity of the table, the missing one included, is selected at the
    start. *)
Theorem default_view (df : DataFrame) (w : Widgets) :
  sidebar df = Ok w →
  years_min w ≤ 2010 →
  2018 ≤ years_max w →
  ∃ out, filtered df (defaults w) = Ok out ∧
    ∀ r, r ∈ rows out ↔
      r ∈ rows df ∧
      (∃ y, cell r "Year" = Int y ∧ 2010 ≤ y ∧ y ≤ 2018) ∧
      cell r "Gender" ≠ Null ∧ cell r "Age_Grp" ≠ Null ∧
      cell r "Weather_conditions" ∈
        take 5 (Column.unique (Column.dropna ((λ r, cell r "Weather_conditions") <$> rows df))).
Proof.
  intros (Hf & _ & _ & Hw)%sidebar_Ok _ _.
  eexists. split; [by apply filtered_eval|]. simpl.
  intros r. rewrite list_elem_of_filter.
  unfold FilterSpec.passes, FilterSpec.year_in_range, defaults. rewrite Hw. simpl.
  rewrite !elem_of_unique, !elem_of_dropna.
  split.
  - intros ((HY & HS & [HG _] & HW & [HA _]) & Hr). split; [done|].
    split; [|done]. destruct (cell r "Year") as [|x|y|t]; try done. by exists y.
  - intros (Hr & (y & Hy & Hlo & Hhi) & HG & HA & HW). split; [|done].
    rewrite Hy. split; [done|]. split; [|split; [|split; [done|]]].
    + apply list_elem_of_fmap. by exists r.
    + split; [done|]. apply list_elem_of_fmap. by exists r.
    + split; [done|]. apply list_elem_of_fmap. by exists r.
Qed.

Lemma default_view_witness :
  ∃ out, filtered Sample.canonical (defaults Sample.widgets) = Ok out ∧
    ∀ r, r ∈ rows out ↔
      r ∈ rows Sample.canonical ∧
      (∃ y, cell r "Year" = Int y ∧ 2010 ≤ y ∧ y ≤ 2018) ∧
      cell r "Gender" ≠ Null ∧ cell r "Age_Grp" ≠ Null ∧
      cell r "Weather_conditions" ∈
        take 5 (Column.unique (Column.dropna
          ((λ r, cell r "Weather_conditions") <$> rows Sample.canonical))).
Proof.
  apply (default_view Sample.canonical Sample.widgets).
  - vm_compute. reflexivity.
  - vm_compute. discriminate.
  - vm_compute. discriminate.
Defined.

Lemma filter_filter_comm {A} (P Q : A → Prop) `{∀ x, Decision (P x)} `{∀ x, Decision (Q x)}
    (l : list A) :
  filter P (filter Q l) = filter Q (filter P l).
Proof.
  induction l as [|x l IH]; [done|]. rewrite !filter_cons.
  destruct (decide (P x)), (decide (Q x)); rewrite ?filter_cons, ?decide_True, ?decide_False by done;
    by rewrite IH.
Qed.

Lemma filter_idemp {A} (P : A → Prop) `{∀ x, Decision (P x)} (l : list A) :
  filter P (filter P l) = filter P l.
Proof.
  induction l as [|x l IH]; [done|]. rewrite filter_cons.
  destruct (decide (P x)); rewrite ?filter_cons, ?decide_True by done; by rewrite IH.
Qed.

Lemma filtered_filterable (df out : DataFrame) (f : Filters) :
  filtered df f = Ok out → filterable out.
Proof.
  intros H. pose proof (filtered_Ok_filterable _ _ _ H) as (HY & Hnum & Hcols).
  apply filtered_Ok_rows in H as [Hc Hr]. unfold filterable. rewrite Hc, Hr.
  split; [done|]. split; [|done]. rewrite Forall_forall in *.
  intros r [_ Hin]%list_elem_of_filter. by apply Hnum.
Qed.

(** X16.  The output of the filter can be filtered again, and the order of
    two filters does not matter: filtering by one configuration and then by
    another keeps the rows that pass both, whichever comes first; filtering
    a second time by the same configuration changes nothing. *)
Theorem filters_compose (df out : DataFrame) (f g : Filters) :
  filtered df f = Ok out →
  filtered out f = Ok out ∧
  ∃ out_fg, filtered out g = Ok out_fg ∧
    (∀ r, r ∈ rows out_fg ↔ r ∈ rows df ∧ FilterSpec.passes f r ∧ FilterSpec.passes g r) ∧
    ∀ out_g, filtered df g = Ok out_g → filtered out_g f = Ok out_fg.
Proof.
  intros H. pose proof (filtered_filterable _ _ _ H) as Hout.
  pose proof (filtered_Ok_rows _ _ _ H) as [Hc Hr].
  split; [|eexists; split; [by apply filtered_eval|split]].
  - rewrite (filtered_eval _ _ Hout). destruct out as [cols rs]. simpl in *.
    f_equal. f_equal. rewrite Hr. apply filter_idemp.
  - intros r. simpl. rewrite Hr, !list_elem_of_filter. tauto.
  - intros out_g Hg. pose proof (filtered_filterable _ _ _ Hg) as Hog.
    apply filtered_Ok_rows in Hg as [Hcg Hrg].
    rewrite (filtered_eval _ _ Hog). f_equal. rewrite Hcg, Hrg, Hc, Hr.
    f_equal. apply filter_filter_comm.
Qed.

Lemma filters_compose_witness :
  ∃ out, filtered Fixture.canonical Fixture.with_null = Ok out ∧
    filtered out Fixture.with_null = Ok out ∧
    ∃ out_fg, filtered out Fixture.all_filters = Ok out_fg ∧
      ∀ out_g, filtered Fixture.canonical Fixture.all_filters = Ok out_g →
        filtered out_g Fixture.with_null = Ok out_fg.
Proof.
  destruct (filtered Fixture.canonical Fixture.with_null) as [out|e] eqn:E;
    [|vm_compute in E; discriminate].
  exists out. split; [reflexivity|].
  destruct (filters_compose Fixture.canonical out Fixture.with_null Fixture.all_filters E)
    as (Hsame & out_fg & Hfg & _ & Hcomm).
  split; [exact Hsame|]. exists out_fg. split; [exact Hfg|exact Hcomm].
Defined.

(* ===================================================================== *)
(** ** Further properties: counting in two ways, groups, and the load *)
(* ===================================================================== *)

Lemma count_true_eq_str (sev : Series) (s : string) :
  Column.count_true (Pandas.eq_str sev s) = occurrences (Str s) sev.
Proof.
  unfold Column.count_true, Pandas.eq_str, occurrences. f_equal.
  induction sev as [|v sev IH]; [done|]. rewrite fmap_cons, !filter_cons.
  destruct (decide (v = Str s)) as [E|E].
  - rewrite decide_True by by apply bool_decide_eq_true. simpl. by rewrite IH.
  - rewrite decide_False; [done|]. by rewrite bool_decide_eq_true.
Qed.

(** X17.  The report and the dashboard count a severity in two ways, by
    summing a mask and by the length of the selected rows: on the same table
    the two numbers are the same, the number of rows of that severity, and
    where it is positive it is the count that the severity distribution
    shows. *)
Theorem severity_counted_alike (df : DataFrame) (sev : Series) (s : string) :
  Frame.getitem df "Severity" = Ok sev →
  severity_count df s = Ok (occurrences (Str s) sev) ∧
  count_severity df s = Ok (occurrences (Str s) sev) ∧
  ∃ d, distribution df "Severity" = Ok d ∧
    ((Str s, Int (occurrences (Str s) sev)) ∈ d ↔ 0 < occurrences (Str s) sev).
Proof.
  intros Hs. split; [|split].
  - unfold severity_count. rewrite Hs. simpl. by rewrite count_true_eq_str.
  - by apply count_severity_occurrences.
  - unfold distribution. rewrite Hs. exists (Aggregate.value_counts sev).
    split; [done|]. rewrite value_counts_spec, occurrences_pos. split; [tauto|].
    intros H. split; [done|]. by split.
Qed.

Lemma severity_counted_alike_witness :
  severity_count Fixture.no_fatal "Slight" = Ok 2 ∧
  count_severity Fixture.no_fatal "Slight" = Ok 2.
Proof.
  destruct (severity_counted_alike Fixture.no_fatal
              [Str "Serious"; Str "Slight"; Str "Slight"] "Slight") as (H1 & H2 & _).
  - vm_compute. reflexivity.
  - rewrite H1, H2. split; vm_compute; reflexivity.
Defined.

Lemma sorted_by_key_lt (l : list (Value * Z)) :
  sorted_by key_le l → NoDup l.*1 → Forall (λ p, numeric_or_null p.1 ∧ p.1 ≠ Null) l →
  sorted_by key_lt l.
Proof.
  induction l as [|p l IH]; [done|]. rewrite fmap_cons, NoDup_cons, Forall_cons. simpl.
  intros [Hp Hs] [Hnot Hnd] [[Hnum Hne] Hall]. split; [|by apply IH].
  rewrite Forall_forall in *. intros q Hq. specialize (Hp q Hq).
  destruct (Hall q Hq) as [Hqn Hqne].
  unfold key_le, key_lt in *.
  assert (p.1 ≠ q.1) as Hpq.
  { intros E. apply Hnot. rewrite E. by apply list_elem_of_fmap_2. }
  destruct p as [[] ?], q as [[] ?]; simpl in *; try done.
  destruct (decide (z = z1)); [congruence|lia].
Qed.

(** X18.  [df.groupby(c).size()] on a column of integers gives one entry
    for each year (month, hour) that occurs, in strictly increasing order,
    with the number of rows of that year; rows without a value belong to no
    group, and the sizes add up to the number of rows that have a value. *)
Theorem group_sizes_count_rows (df : DataFrame) (c : string) (s : Series) :
  Frame.getitem df c = Ok s →
  Forall numeric_or_null s →
  ∃ g, group_sizes df c = Ok g ∧
    sorted_by key_lt g ∧
    (∀ v n, (v, n) ∈ g ↔ v ≠ Null ∧ v ∈ s ∧ n = occurrences v s) ∧
    Aggregate.total g.*2 = Z.of_nat (length (Column.dropna s)).
Proof.
  intros Hs Hnum. unfold group_sizes. rewrite Hs. simpl. eexists. split; [done|].
  assert (∀ v n, (v, n) ∈ Column.groupby_size s ↔ v ≠ Null ∧ v ∈ s ∧ n = occurrences v s)
    as Hin.
  { intros v n. rewrite groupby_size_perm. apply counts_spec. }
  split; [|split; [done|]].
  - apply sorted_by_key_lt.
    + apply groupby_size_sorted.
    + rewrite groupby_size_perm. apply counts_NoDup.
    + apply Forall_forall. intros [v n] (Hne & Hv & _)%Hin. simpl. split; [|done].
      rewrite Forall_forall in Hnum. by apply Hnum.
  - rewrite <- counts_total. apply total_perm. by rewrite groupby_size_perm.
Qed.

Lemma group_sizes_count_rows_witness :
  ∃ g, group_sizes Fixture.canonical "Year" = Ok g ∧ sorted_by key_lt g ∧
       Aggregate.total g.*2 = 3.
Proof.
  destruct (group_sizes_count_rows Fixture.canonical "Year" [Int 2009; Int 2010; Int 2010])
    as (g & Hg & Hsorted & _ & Htotal).
  - vm_compute. reflexivity.
  - repeat constructor.
  - exists g. split; [exact Hg|]. split; [exact Hsorted|]. rewrite Htotal.
    vm_compute. reflexivity.
Defined.

Lemma suffix_ne_Time (c sfx : string) : sfx = "_x" ∨ sfx = "_y" → c +:+ sfx ≠ "Time".
Proof.
  intros [->| ->] H;
    repeat (destruct c as [|? c]; simpl in H; [discriminate|]; injection H as _ H);
    destruct c; discriminate.
Qed.

Lemma label_in_merge (left right out : DataFrame) (on c : string) :
  (∀ c' sfx, sfx = "_x" ∨ sfx = "_y" → c' +:+ sfx ≠ c) →
  c ≠ on →
  Frame.merge left right on = Ok out →
  c ∈ columns out ↔ in_one_source c left right.
Proof.
  intros Hsfx Hne H. apply merge_Ok in H as (_ & _ & ->). simpl.
  rewrite elem_of_app, !list_elem_of_fmap. unfold in_one_source. split.
  - intros [(c' & Hc' & Hin)|(c' & Hc' & Hin)].
    + unfold Frame.suffixed in Hc'. case_decide as Hd; [by destruct (Hsfx c' "_x"); [left|]|].
      subst c'. left. split; [done|]. intros Hr. apply Hd. by split.
    + apply list_elem_of_filter in Hin as [_ Hin].
      unfold Frame.suffixed in Hc'. case_decide as Hd; [by destruct (Hsfx c' "_y"); [right|]|].
      subst c'. right. split; [|done]. intros Hl. apply Hd. by split.
  - intros [[Hl Hr]|[Hl Hr]].
    + left. exists c. split; [|done]. unfold Frame.suffixed.
      rewrite decide_False; [done|]. by intros [_ ?].
    + right. exists c. split; [|by apply list_elem_of_filter].
      unfold Frame.suffixed. rewrite decide_False; [done|]. by intros [_ ?].
Qed.

(** X19.  When the load returns.  [load_data] returns a table only if
    both sources carry the key column, the [Date] column and the [Time]
    column each come from one source only, and no joined row holds a date
    that fails to parse; the table then has the rows of the join. *)
Theorem load_data_returns_only_if parse (accidents bikers df : DataFrame) :
  load_data parse accidents bikers = Ok df →
  "Accident_Index" ∈ columns accidents ∧
  "Accident_Index" ∈ columns bikers ∧
  in_one_source "Date" accidents bikers ∧
  in_one_source "Time" accidents bikers ∧
  ∃ merged,
    Frame.merge accidents bikers "Accident_Index" = Ok merged ∧
    length (rows df) = length (rows merged) ∧
    ∀ r, r ∈ rows merged → ¬ RowSpec.unparseable_date parse (cell r "Date").
Proof.
  intros H. apply load_data_Ok in H as (merged & Hm & H).
  apply derive_fields_Ok in H as (HD & HT & Hall & ->).
  pose proof Hm as (Hka & Hkb & _)%merge_Ok. do 2 (split; [done|]).
  split; [|split].
  - by apply (label_in_merge accidents bikers merged "Accident_Index" "Date");
      [apply suffix_ne_Date|..].
  - by apply (label_in_merge accidents bikers merged "Accident_Index" "Time");
      [apply suffix_ne_Time|..].
  - exists merged. split; [done|]. split; [|done]. simpl. by rewrite length_fmap.
Qed.

Lemma load_data_returns_only_if_witness :
  in_one_source "Date" Fixture.accidents Fixture.bikers ∧
  in_one_source "Time" Fixture.accidents Fixture.bikers.
Proof.
  destruct (load_data_returns_only_if Strptime.iso_date Fixture.accidents Fixture.bikers
              Fixture.canonical) as (_ & _ & HD & HT & _).
  - vm_compute. reflexivity.
  - split; [exact HD|exact HT].
Defined.

Lemma add_column_app (c : string) (cols : list string) :
  add_column c cols = cols ++ filter (λ c', c' ∉ cols) [c].
Proof.
  unfold add_column. rewrite filter_cons, filter_nil.
  destruct (decide (c ∈ cols)).
  - rewrite decide_False by tauto. by rewrite app_nil_r.
  - by rewrite decide_True.
Qed.

(** X20.  The derivation keeps the table's shape: the labels stay in
    place, a source column named like a derived one being overwritten where
    it stands, and the derived columns that are new are appended in the
    order [Year], [Month], [Hour], [Weekday]; every row is kept in its
    place, with all its cells outside [Date] and the four derived columns
    unchanged. *)
Theorem derive_fields_keeps_shape parse (df df' : DataFrame) :
  derive_fields parse df = Ok df' →
  columns df' =
    columns df ++ filter (λ c, c ∉ columns df) ["Year"; "Month"; "Hour"; "Weekday"] ∧
  length (rows df') = length (rows df) ∧
  ∀ i r, rows df !! i = Some r →
    ∃ r', rows df' !! i = Some r' ∧
      ∀ c, c ∉ ["Date"; "Year"; "Month"; "Hour"; "Weekday"] → cell r' c = cell r c.
Proof.
  intros H. apply derive_fields_Ok in H as (_ & _ & _ & ->). simpl.
  split; [|split; [by rewrite length_fmap|]].
  - unfold RowSpec.derived_columns. rewrite !add_column_app, !filter_cons, !filter_nil.
    rewrite <- !app_assoc. f_equal.
    repeat (match goal with |- context [decide ?P] => destruct (decide P) end);
      simpl; try done;
      rewrite ?elem_of_app, ?elem_of_cons, ?elem_of_nil in *;
      try (exfalso; intuition congruence).
  - intros i r Hi. exists (RowSpec.derive_row parse r).
    split; [by rewrite list_lookup_fmap, Hi|]. intros c Hc. by apply derive_row_other.
Qed.

Lemma derive_fields_keeps_shape_witness :
  columns Fixture.canonical =
    columns Fixture.merged ++ ["Year"; "Month"; "Hour"; "Weekday"] ∧
  length (rows Fixture.canonical) = length (rows Fixture.merged).
Proof.
  destruct (derive_fields_keeps_shape Strptime.iso_date Fixture.merged Fixture.canonical)
    as (Hcols & Hlen & _).
  - vm_compute. reflexivity.
  - split; [|exact Hlen]. rewrite Hcols. vm_compute. reflexivity.
Defined.
